(** * PMS auto-updater: the locator, the extractor and the planner of
    [tra5_core.py], embedded as Rocq functions.

    Python text is a list of Unicode code points, a cell value is one of
    the values openpyxl hands out, a worksheet is the three
    accessors the code uses ([max_row], [row_dimensions], [cell]), the
    dict-shaped update records are finite maps from field names to values,
    and a [for] loop is a recursion over the list its [range] produces. *)

From Stdlib Require Import ZArith NArith List Bool Lia String Ascii.
From Stdlib Require Import DecimalString DecimalPos DecimalZ Sorted.
From Stdlib Require Import SpecFloat.
From stdpp Require Import gmap strings list.

Open Scope Z_scope.

(* ===================================================================== *)
(** ** Python values and text                                             *)
(* ===================================================================== *)

(** A Python [str] is a sequence of code points. *)
Abbreviation str := (list N).

(** An ASCII literal of the source, as code points. *)
Definition lit (s : string) : str :=
  map N_of_ascii (list_ascii_of_string s).

(** [str.isspace] on one code point; the same table drives [str.strip],
    [str.split] without a separator and the regular expression class
    [\s] on text patterns. *)
Definition isspace (c : N) : bool :=
  ((9 <=? c) && (c <=? 13) || (28 <=? c) && (c <=? 32)
   || (c =? 133) || (c =? 160) || (c =? 5760)
   || (8192 <=? c) && (c <=? 8202)
   || (c =? 8232) || (c =? 8233) || (c =? 8239) || (c =? 8287)
   || (c =? 12288))%N.

Fixpoint lstrip (s : str) : str :=
  match s with
  | c :: r => if isspace c then lstrip r else s
  | [] => []
  end.

Definition rstrip (s : str) : str := rev (lstrip (rev s)).

(** [text.strip()] *)
Definition strip (s : str) : str := rstrip (lstrip s).

(** [text.replace(old, new)] for a one-character [old], the only form the
    source uses. *)
Definition replace (old : N) (new : str) (s : str) : str :=
  flat_map (fun c => if (c =? old)%N then new else [c]) s.

(** [re.sub(r'\s+', '', text)]: every run of white space is deleted. *)
Definition remove_spaces (s : str) : str :=
  List.filter (fun c => negb (isspace c)) s.

(** [text.split()]: the maximal runs of characters that are not white
    space; [cur] is the run being read, reversed. *)
Fixpoint split_from (s : str) (cur : str) : list str :=
  match s with
  | [] => match cur with [] => [] | _ => [rev cur] end
  | c :: r =>
      if isspace c
      then match cur with
           | [] => split_from r []
           | _ => rev cur :: split_from r []
           end
      else split_from r (c :: cur)
  end.

Definition split (s : str) : list str := split_from s [].

(** [sep.join(parts)] *)
Fixpoint join (sep : str) (parts : list str) : str :=
  match parts with
  | [] => []
  | [p] => p
  | p :: rest => p ++ sep ++ join sep rest
  end.

Fixpoint startswith (p s : str) : bool :=
  match p, s with
  | [], _ => true
  | _ :: _, [] => false
  | a :: p', b :: s' => (a =? b)%N && startswith p' s'
  end.

(** [p in s] on text: [p] occurs as a contiguous run of [s]. *)
Fixpoint contains (p s : str) : bool :=
  startswith p s ||
  match s with
  | [] => false
  | _ :: s' => contains p s'
  end.

(** [str(n)] for an integer: its decimal digits, with a minus sign. *)
Definition str_of_Z (z : Z) : str :=
  lit (NilZero.string_of_int (Z.to_int z)).

(** The case mapping of the ASCII letters; every other code point is left
    alone.  These two functions instantiate [str.lower] and [str.upper]
    on the examples below. *)
Definition ascii_lower (s : str) : str :=
  map (fun c => if (65 <=? c)%N && (c <=? 90)%N then (c + 32)%N else c) s.

Definition ascii_upper (s : str) : str :=
  map (fun c => if (97 <=? c)%N && (c <=? 122)%N then (c - 32)%N else c) s.

(** The values a worksheet cell holds and a record field carries.
    A float is the number it denotes ([m * 2^e] with a sign, a zero, an
    infinity or a NaN) together with the text that [str] gives for it.
    Any other object openpyxl hands out (a date, a time, a duration, a
    formula object) is given by what the code observes of it: the text
    that [str] gives for it and its truth value. *)
Inductive PyVal : Type :=
  | VNone : PyVal
  | VBool : bool -> PyVal
  | VInt : Z -> PyVal
  | VStr : str -> PyVal
  | VFloat (f : spec_float) (repr : str) : PyVal
  | VObj (repr : str) (truth : bool) : PyVal.

(** Truth value of a Python object, as [if x:] and [not x] test it. *)
Definition truthy (v : PyVal) : bool :=
  match v with
  | VNone => false
  | VBool b => b
  | VInt z => negb (z =? 0)
  | VStr s => match s with [] => false | _ => true end
  | VFloat f _ => match f with S754_zero _ => false | _ => true end
  | VObj _ truth => truth
  end.

(** [str(x)] *)
Definition py_str (v : PyVal) : str :=
  match v with
  | VNone => lit "None"
  | VBool true => lit "True"
  | VBool false => lit "False"
  | VInt z => str_of_Z z
  | VStr s => s
  | VFloat _ repr => repr
  | VObj repr _ => repr
  end.

(** Exceptions the modelled code can raise. *)
Inductive exn : Type :=
  | ValueError
  | TypeError
  | IndexError
  | KeyError
  | OverflowError.

Inductive result (A : Type) : Type :=
  | Ok : A -> result A
  | Raise : exn -> result A.
Arguments Ok {A} _.
Arguments Raise {A} _.

Definition bind {A B : Type} (m : result A) (k : A -> result B) : result B :=
  match m with
  | Ok a => k a
  | Raise e => Raise e
  end.

Notation "'let!' x ':=' m 'in' k" := (bind m (fun x => k))
  (at level 10, x name, m at level 100, k at level 200).

(** The code points of the digit zero of every script that has decimal
    digits (general category Nd, Unicode 14.0): the ten digits of a
    script follow its zero in order. *)
Definition digit_zeros : list N :=
  [48; 1632; 1776; 1984; 2406; 2534; 2662; 2790; 2918; 3046; 3174; 3302;
   3430; 3558; 3664; 3792; 3872; 4160; 4240; 6112; 6160; 6470; 6608; 6784;
   6800; 6992; 7088; 7232; 7248; 42528; 43216; 43264; 43472; 43504; 43600;
   44016; 65296; 66720; 68912; 69734; 69872; 69942; 70096; 70384; 70736;
   70864; 71248; 71360; 71472; 71904; 72016; 72784; 73040; 73120; 92768;
   92864; 93008; 120782; 120792; 120802; 120812; 120822; 123200; 123632;
   125264; 130032]%N.

(** The value of a decimal digit of any script, as [int] reads it. *)
Definition digit_value (c : N) : option Z :=
  match List.find (fun z => (z <=? c) && (c <=? z + 9))%N digit_zeros with
  | Some z => Some (Z.of_N (c - z))
  | None => None
  end.

(** Digits with single underscores between them; [prev_digit] says that
    the character just read was a digit. *)
Fixpoint parse_digits (s : str) (acc : Z) (prev_digit : bool) : option Z :=
  match s with
  | [] => if prev_digit then Some acc else None
  | c :: r =>
      match digit_value c with
      | Some d => parse_digits r (10 * acc + d) true
      | None =>
          if (c =? 95)%N && prev_digit then parse_digits r acc false
          else None
      end
  end.

(** The white space [int] strips from both ends of a text: the
    characters of [str.isspace] but the four separators 28 to 31. *)
Definition int_isspace (c : N) : bool :=
  isspace c && negb ((28 <=? c) && (c <=? 31))%N.

Fixpoint int_lstrip (s : str) : str :=
  match s with
  | c :: r => if int_isspace c then int_lstrip r else s
  | [] => []
  end.

Definition int_strip (s : str) : str :=
  rev (int_lstrip (rev (int_lstrip s))).

(** The number of digits [int] accepts in a decimal text
    ([sys.int_info.default_max_str_digits]). *)
Definition max_str_digits : N := 4300.

(** The digits of a text, underscores and sign apart. *)
Definition count_digits (s : str) : N :=
  N.of_nat (length (List.filter
                      (fun c => match digit_value c with
                                | Some _ => true
                                | None => false
                                end) s)).

(** [int(text)]: surrounding white space, an optional sign, digits; a
    text of more than [max_str_digits] digits is refused. *)
Definition int_of_str (s : str) : option Z :=
  let body := int_strip s in
  if (count_digits body <=? max_str_digits)%N
  then match body with
       | 45%N :: r => option_map Z.opp (parse_digits r 0 false)
       | 43%N :: r => parse_digits r 0 false
       | r => parse_digits r 0 false
       end
  else None.

(** [int(x)] on a float: the number without its fraction. *)
Definition float_int (f : spec_float) : result Z :=
  match f with
  | S754_zero _ => Ok 0
  | S754_infinity _ => Raise OverflowError
  | S754_nan => Raise ValueError
  | S754_finite s m e =>
      let magnitude :=
        if 0 <=? e then Z.pos m * 2 ^ e else Z.pos m / 2 ^ (- e) in
      Ok (if s then - magnitude else magnitude)
  end.

(** [int(x)] *)
Definition py_int (v : PyVal) : result Z :=
  match v with
  | VNone => Raise TypeError
  | VBool b => Ok (if b then 1 else 0)
  | VInt z => Ok z
  | VStr s => match int_of_str s with
              | Some z => Ok z
              | None => Raise ValueError
              end
  | VFloat f _ => float_int f
  | VObj _ _ => Raise TypeError
  end.

(** [range(a, b)] over integers and over row numbers. *)
Definition range (a b : Z) : list Z :=
  map (fun i => a + Z.of_nat i) (seq 0 (Z.to_nat (b - a))).

Definition row_range (a b : nat) : list nat := seq a (b - a).

(* ===================================================================== *)
(** ** Worksheets and configuration                                       *)
(* ===================================================================== *)

(** [ws.row_dimensions[i]]: the outline level may be unset. *)
Record RowDimension := { outlineLevel : option Z }.

(** What the code reads from an openpyxl worksheet: [ws.max_row],
    [ws.row_dimensions[i]] and [ws.cell(i, col).value].  Rows and columns
    are numbered from 1; [ws.cell] refuses a smaller number, and the
    properties below say so where they need it. *)
Record Worksheet := {
  max_row : nat;
  row_dimensions : nat -> RowDimension;
  cell : nat -> nat -> PyVal
}.

(** The number of the last row that has a cell, for rows numbered from
    [i]; 0 when no row has one. *)
Fixpoint last_cell_row (rows : list (Z * list (nat * PyVal))) (i : nat)
  : nat :=
  match rows with
  | [] => 0%nat
  | (_, cells) :: rest =>
      match last_cell_row rest (S i), cells with
      | O, [] => 0%nat
      | O, _ :: _ => i
      | later, _ => later
      end
  end.

(** A worksheet given by its rows, top to bottom from row 1: the outline
    level and the cells of the row, by column, each with its value (None
    for a cell that is there but empty).  Everything else is empty.
    As in openpyxl, [max_row] is the number of the last row that has a
    cell, and 1 on a sheet without cells. *)
Definition sheet_of_rows (rows : list (Z * list (nat * PyVal))) : Worksheet :=
  {| max_row := Nat.max 1 (last_cell_row rows 1);
     row_dimensions := fun i =>
       match i with
       | O => {| outlineLevel := Some 0 |}
       | S k => {| outlineLevel := Some (nth k (map fst rows) 0) |}
       end;
     cell := fun i col =>
       match i with
       | O => VNone
       | S k =>
           match List.find (fun e => Nat.eqb (fst e) col)
                           (nth k (map snd rows) []) with
           | Some e => snd e
           | None => VNone
           end
       end |}.

(** [PMSConfig.PNT].  [G2_CELL] is the cell that the coordinate text
    names, as its row and its column (["G2"] is row 2, column 7).
    [ROW_START] and [ROW_END] are attributes like the others: 7 and 31
    when the configuration is loaded, and the row numbers that
    [detect_pnt_range] of [tra5_ui.py] writes over them. *)
Record PNTConfig := {
  ITEM_COL : nat;
  QUANTITY_COL : nat;
  M_VALUE_COL : nat;
  G2_CELL : nat * nat;
  AXIS_SEARCH_COLS : list nat;
  ROW_START : nat;
  ROW_END : nat
}.

Record PMSColumns := {
  TEXT_COL : nat;
  DATE_COL : nat;
  G_COL : nat;
  N_COL : nat
}.

Record HierarchyConfig := {
  LEVEL_1_PATTERN : str;
  LEVEL_3_TEXT : str;
  LEVEL_4_TEXT : str;
  TARGET_LEVEL : Z
}.

Record PMSConfig := {
  AXIS_RANGE_START : Z;
  AXIS_RANGE_END : Z;
  PNT : PNTConfig;
  PMS : PMSColumns;
  Hierarchy : HierarchyConfig
}.

(** [_HierarchyConfig.get_search_path] *)
Definition get_search_path (h : HierarchyConfig) (mohor_num : Z)
  : list (Z * str) :=
  [ (1, LEVEL_1_PATTERN h ++ lit " " ++ str_of_Z mohor_num);
    (3, LEVEL_3_TEXT h);
    (4, LEVEL_4_TEXT h) ].

(** The word before the axis number in an axis name, [f"محور {n}"]. *)
Definition mohor_word : str := [1605; 1581; 1608; 1585]%N.

Definition mohor_name_of (mohor_num : Z) : str :=
  mohor_word ++ lit " " ++ str_of_Z mohor_num.

(* ===================================================================== *)
(** ** Records passed between the components                              *)
(* ===================================================================== *)

(** An entry of [found_items] in [_extract_target_items]. *)
Record FoundItem := { fi_row : nat; fi_level : Z; fi_text : str }.

(** An entry of a list of [item_locations]. *)
Record Location := {
  loc_mohor : str;
  loc_row : nat;
  loc_level : Z;
  loc_original_text : str
}.

(** The dict [_extract_row_data] returns. *)
Record ItemData := {
  pnt_row : nat;
  quantity : Z;
  m_value : PyVal;
  original : str;
  single_line : str;
  normalized : str;
  axis : option Z
}.

(** An entry of the [unidentified] list. *)
Record Unidentified := { un_row : nat; un_item : str }.

(** A dict with insertion order, as iterated by [.items()]. *)
Abbreviation odict K V := (list (K * V)).

Fixpoint od_get {K V} (eqb : K -> K -> bool) (k : K) (d : odict K V)
  : option V :=
  match d with
  | [] => None
  | (k', v) :: r => if eqb k k' then Some v else od_get eqb k r
  end.

Fixpoint od_set {K V} (eqb : K -> K -> bool) (k : K) (v : V)
  (d : odict K V) : odict K V :=
  match d with
  | [] => [(k, v)]
  | (k', v') :: r =>
      if eqb k k' then (k', v) :: r else (k', v') :: od_set eqb k v r
  end.

(** [if k not in d: d[k] = []] followed by [d[k].append(x)]. *)
Definition od_append {K V} (eqb : K -> K -> bool) (k : K) (x : V)
  (d : odict K (list V)) : odict K (list V) :=
  match od_get eqb k d with
  | None => od_set eqb k [x] d
  | Some xs => od_set eqb k (xs ++ [x]) d
  end.

(** [d.values()], flattened. *)
Definition od_values {K V} (d : odict K (list V)) : list V :=
  concat (map snd d).

(** A value of an update record: a scalar or the list of row numbers. *)
Inductive Field : Type :=
  | FVal : PyVal -> Field
  | FRows : list nat -> Field.

(** The [warning] dict of an existing item. *)
Record Warning := {
  w_item : str;
  w_mohor : str;
  w_needed : Z;
  w_available : Z;
  w_deficit : Z
}.

(** The [error] dict of an item that cannot be placed. *)
Record NotFound := { nf_item : str; nf_mohor : str; nf_reason : str }.

(** The dict [_match_item] returns, by its ['status']. *)
Inductive MatchResult : Type :=
  | Existing (update : gmap string Field) (warning : option Warning)
  | New (update : gmap string Field)
  | Not_found (error : NotFound).

(* ===================================================================== *)
(** ** The components of [tra5_core.py]                                   *)
(* ===================================================================== *)

Section Core.

(** [str.lower] and [str.upper]: the Unicode case mappings of the Python
    runtime. *)
Variable lower : str -> str.
Variable upper : str -> str.

(** [self.config] *)
Variable config : PMSConfig.

(** *** TextNormalizer *)

(** The length of a match of [w1 \s* w2 \s* w3] at the head of [s]. *)
Definition match_words (w1 w2 w3 : str) (s : str) : option nat :=
  if startswith w1 s then
    let s1 := lstrip (drop (length w1) s) in
    if startswith w2 s1 then
      let s2 := lstrip (drop (length w2) s1) in
      if startswith w3 s2
      then Some (length s - length (drop (length w3) s2))%nat
      else None
    else None
  else None.

(** [re.sub(pattern, '', text)] for a pattern whose matches are never
    empty: leftmost matches, not overlapping; [skip] characters of the
    current match are still to be dropped. *)
Fixpoint re_sub_empty (mlen : str -> option nat) (s : str) (skip : nat)
  : str :=
  match s with
  | [] => []
  | c :: r =>
      match skip with
      | S k => re_sub_empty mlen r k
      | O =>
          match mlen s with
          | Some (S k) => re_sub_empty mlen r k
          | _ => c :: re_sub_empty mlen r O
          end
      end
  end.

Definition word_shomare : str := [1588; 1605; 1575; 1585; 1607]%N.
Definition word_surat : str := [1589; 1608; 1585; 1578]%N.
Definition word_majles : str := [1605; 1580; 1604; 1587]%N.

(** [TextNormalizer.clean_g2_value] (the letters of the phrase have no
    case, so [re.IGNORECASE] changes nothing). *)
Definition clean_g2_value (text : PyVal) : str :=
  match text with
  | VNone => []
  | _ =>
      let text := strip (py_str text) in
      let text :=
        re_sub_empty (match_words word_shomare word_surat word_majles)
                     text 0 in
      let text :=
        re_sub_empty (match_words word_shomare [] (word_surat ++ word_majles))
                     text 0 in
      let text := join (lit " ") (split text) in
      strip text
  end.

(** [TextNormalizer.normalize_standard] *)
Definition normalize_standard (text : PyVal) : str :=
  match text with
  | VNone => []
  | _ =>
      let text := strip (py_str text) in
      let text := replace 1705 [1705%N] (replace 1740 [1740%N] text) in
      let text := remove_spaces text in
      let text := lower text in
      text
  end.

(** [TextNormalizer.normalize_pnt_axis] *)
Definition normalize_pnt_axis (text : PyVal) : str :=
  match text with
  | VNone => []
  | _ =>
      let text := py_str text in
      let text := replace 13 [32%N] (replace 10 [32%N] text) in
      let text := upper text in
      let text := replace 45 [] (replace 32 [] text) in
      text
  end.

(** [TextNormalizer.multiline_to_single] *)
Definition multiline_to_single (text : PyVal) : str :=
  match text with
  | VNone => []
  | _ =>
      let text := py_str text in
      let text := replace 13 [32%N] (replace 10 [32%N] text) in
      let text := join (lit " ") (split text) in
      strip text
  end.

(** *** AxisExtractor *)

(** The inner loop of [_search_pattern]: the axis numbers in order. *)
Fixpoint search_numbers (pattern_prefix normalized : str) (nums : list Z)
  : option Z :=
  match nums with
  | [] => None
  | mohor_num :: rest =>
      let pattern := pattern_prefix ++ str_of_Z mohor_num in
      if contains pattern normalized then Some mohor_num
      else search_numbers pattern_prefix normalized rest
  end.

(** The outer loop of [_search_pattern]: the columns in order. *)
Fixpoint search_columns (ws : Worksheet) (row_idx : nat)
  (pattern_prefix : str) (cols : list nat) : option Z :=
  match cols with
  | [] => None
  | col :: rest =>
      let cell_value := cell ws row_idx col in
      if negb (truthy cell_value)
      then search_columns ws row_idx pattern_prefix rest
      else
        let normalized := normalize_pnt_axis cell_value in
        match search_numbers pattern_prefix normalized
                (range (AXIS_RANGE_START config) (AXIS_RANGE_END config)) with
        | Some mohor_num => Some mohor_num
        | None => search_columns ws row_idx pattern_prefix rest
        end
  end.

(** [AxisExtractor._search_pattern] *)
Definition _search_pattern (ws : Worksheet) (row_idx : nat)
  (pattern_prefix : str) : option Z :=
  search_columns ws row_idx pattern_prefix (AXIS_SEARCH_COLS (PNT config)).

(** [if mohor:] on an optional integer. *)
Definition truthy_int (o : option Z) : bool :=
  match o with
  | None => false
  | Some z => negb (z =? 0)
  end.

(** [AxisExtractor.extract_from_row] *)
Definition extract_from_row (ws : Worksheet) (row_idx : nat) : option Z :=
  let mohor := _search_pattern ws row_idx (lit "AXIS") in
  if truthy_int mohor then mohor
  else _search_pattern ws row_idx (lit "S").

(** *** PMSHierarchySearcher *)

(** [PMSHierarchySearcher.get_outline_level] *)
Definition get_outline_level (row : RowDimension) : Z :=
  match outlineLevel row with
  | Some l => if l =? 0 then 0 else l
  | None => 0
  end.

(** The loop of [_find_parent_section] with the statement after it. *)
Fixpoint find_parent_loop (ws : Worksheet) (search_path : list (Z * str))
  (rows : list nat) (current_idx : nat) (parent_row : option nat)
  : result (option nat * option nat) :=
  match rows with
  | [] =>
      if (current_idx <? length search_path)%nat then Ok (None, None)
      else match parent_row with
           | Some r => Ok (Some r, Some (r + 1)%nat)
           | None => Raise TypeError
           end
  | row_idx :: rest =>
      if (length search_path <=? current_idx)%nat
      then Ok (parent_row, Some row_idx)
      else
        let level := get_outline_level (row_dimensions ws row_idx) in
        let cell_value := cell ws row_idx (TEXT_COL (PMS config)) in
        match cell_value with
        | VNone => find_parent_loop ws search_path rest current_idx parent_row
        | _ =>
            let cell_text := strip (py_str cell_value) in
            match search_path !! current_idx with
            | Some (target_level, target_text) =>
                if (level =? target_level) && contains target_text cell_text
                then find_parent_loop ws search_path rest
                       (S current_idx) (Some row_idx)
                else find_parent_loop ws search_path rest
                       current_idx parent_row
            | None => Raise IndexError
            end
        end
  end.

(** [PMSHierarchySearcher._find_parent_section] *)
Definition _find_parent_section (ws : Worksheet)
  (search_path : list (Z * str)) : result (option nat * option nat) :=
  find_parent_loop ws search_path (row_range 1 (max_row ws + 1)) 0 None.

(** The loop of [_extract_target_items]. *)
Fixpoint extract_target_loop (ws : Worksheet) (parent_level target_level : Z)
  (rows : list nat) (found_items : list FoundItem) : list FoundItem :=
  match rows with
  | [] => found_items
  | row_idx :: rest =>
      let level := get_outline_level (row_dimensions ws row_idx) in
      let cell_value := cell ws row_idx (TEXT_COL (PMS config)) in
      match cell_value with
      | VNone =>
          extract_target_loop ws parent_level target_level rest found_items
      | _ =>
          if level <=? parent_level then found_items
          else if level =? target_level
          then extract_target_loop ws parent_level target_level rest
                 (found_items ++
                  [ {| fi_row := row_idx; fi_level := level;
                       fi_text := strip (py_str cell_value) |} ])
          else extract_target_loop ws parent_level target_level rest
                 found_items
      end
  end.

(** [PMSHierarchySearcher._extract_target_items] *)
Definition _extract_target_items (ws : Worksheet) (parent_row start_row : nat)
  (target_level : Z) : list FoundItem :=
  let parent_level := get_outline_level (row_dimensions ws parent_row) in
  extract_target_loop ws parent_level target_level
    (row_range start_row (max_row ws + 1)) [].

(** [PMSHierarchySearcher.find_items] *)
Definition find_items (ws : Worksheet) (search_path : list (Z * str))
  (target_level : Z) : result (list FoundItem) :=
  let! found := _find_parent_section ws search_path in
  match found with
  | (None, _) => Ok []
  | (Some parent_row, Some search_start) =>
      Ok (_extract_target_items ws parent_row search_start target_level)
  | (Some _, None) => Raise TypeError
  end.

(** The loop of [find_last_level5_in_section]. *)
Fixpoint last_level5_loop (ws : Worksheet) (section_level : Z)
  (rows : list nat) (last_level5 : option nat) : option nat :=
  match rows with
  | [] => last_level5
  | row_idx :: rest =>
      let level := get_outline_level (row_dimensions ws row_idx) in
      if level <=? section_level then last_level5
      else if level =? TARGET_LEVEL (Hierarchy config)
      then last_level5_loop ws section_level rest (Some row_idx)
      else last_level5_loop ws section_level rest last_level5
  end.

(** [PMSHierarchySearcher.find_last_level5_in_section]; [ws] is the sheet
    that loading [file_path] and taking [sheet_name] gives. *)
Definition find_last_level5_in_section (ws : Worksheet) (mohor_num : Z)
  : result (option nat) :=
  let search_path := get_search_path (Hierarchy config) mohor_num in
  let! found := _find_parent_section ws search_path in
  match found with
  | (None, _) => Ok None
  | (Some parent_row, Some search_start) =>
      let section_level :=
        get_outline_level (row_dimensions ws parent_row) in
      Ok (last_level5_loop ws section_level
            (row_range search_start (max_row ws + 1)) None)
  | (Some _, None) => Raise TypeError
  end.

(** *** PMSStructureReader *)

(** [PMSStructureReader._search_all_mohors]: the loop over the axis
    numbers; an axis with no item adds nothing. *)
Fixpoint search_mohors_loop (ws : Worksheet) (nums : list Z)
  (all_results : odict str (list FoundItem))
  : result (odict str (list FoundItem)) :=
  match nums with
  | [] => Ok all_results
  | mohor_num :: rest =>
      let mohor_name := mohor_name_of mohor_num in
      let search_path := get_search_path (Hierarchy config) mohor_num in
      let! results :=
        find_items ws search_path (TARGET_LEVEL (Hierarchy config)) in
      match results with
      | [] => search_mohors_loop ws rest all_results
      | _ => search_mohors_loop ws rest
               (od_set (fun a b => bool_decide (a = b)) mohor_name results
                       all_results)
      end
  end.

Definition _search_all_mohors (ws : Worksheet)
  : result (odict str (list FoundItem)) :=
  search_mohors_loop ws
    (range (AXIS_RANGE_START config) (AXIS_RANGE_END config)) [].

(** [item_locations[normalized_text].append(...)], creating the list when
    the key is new. *)
Definition locations_append (key : str) (loc : Location)
  (item_locations : gmap str (list Location)) : gmap str (list Location) :=
  match item_locations !! key with
  | None => <[key := [loc]]> item_locations
  | Some locs => <[key := locs ++ [loc]]> item_locations
  end.

(** The two nested loops of [PMSStructureReader.extract_all_items]. *)
Definition add_items (mohor_name : str) (items : list FoundItem)
  (item_locations : gmap str (list Location)) : gmap str (list Location) :=
  fold_left
    (fun acc item =>
       let normalized_text := normalize_standard (VStr (fi_text item)) in
       locations_append normalized_text
         {| loc_mohor := mohor_name; loc_row := fi_row item;
            loc_level := fi_level item; loc_original_text := fi_text item |}
         acc)
    items item_locations.

(** [PMSStructureReader.extract_all_items] *)
Definition structure_extract_all_items (ws : Worksheet)
  : result (gmap str (list Location)) :=
  let! mohor_results := _search_all_mohors ws in
  Ok (fold_left (fun acc kv => add_items (fst kv) (snd kv) acc)
        mohor_results ∅).

(** *** PNTItemExtractor *)

(** [PNTItemExtractor._extract_row_data] *)
Definition _extract_row_data (ws : Worksheet) (row : nat)
  : result (option ItemData) :=
  let item_value := cell ws row (ITEM_COL (PNT config)) in
  if negb (truthy item_value) then Ok None
  else
    let axis_num := extract_from_row ws row in
    let original_text := strip (py_str item_value) in
    let single_line := multiline_to_single (VStr original_text) in
    let normalized := normalize_standard (VStr single_line) in
    match normalized with
    | [] => Ok None
    | _ =>
        let quantity := cell ws row (QUANTITY_COL (PNT config)) in
        let m_value := cell ws row (M_VALUE_COL (PNT config)) in
        let! quantity := (if truthy quantity then py_int quantity else Ok 0) in
        Ok (Some {| pnt_row := row;
                    quantity := quantity;
                    m_value := m_value;
                    original := original_text;
                    single_line := single_line;
                    normalized := normalized;
                    axis := axis_num |})
    end.

(** The loop of [PNTItemExtractor.extract_all_items] over the rows. *)
Fixpoint extract_items_loop (ws : Worksheet) (rows : list nat)
  (items_by_axis : odict Z (list ItemData))
  (unidentified : list Unidentified)
  : result (odict Z (list ItemData) * list Unidentified) :=
  match rows with
  | [] => Ok (items_by_axis, unidentified)
  | row :: rest =>
      let! item_data := _extract_row_data ws row in
      match item_data with
      | None => extract_items_loop ws rest items_by_axis unidentified
      | Some item_data =>
          match axis item_data with
          | None =>
              extract_items_loop ws rest items_by_axis
                (unidentified ++
                 [ {| un_row := row; un_item := single_line item_data |} ])
          | Some axis_num =>
              extract_items_loop ws rest
                (od_append Z.eqb axis_num item_data items_by_axis)
                unidentified
          end
      end
  end.

(** [PNTItemExtractor.extract_all_items] *)
Definition extract_all_items (ws : Worksheet)
  : result (odict Z (list ItemData) * list Unidentified * str) :=
  let g2_raw :=
    cell ws (fst (G2_CELL (PNT config))) (snd (G2_CELL (PNT config))) in
  let g2_value := clean_g2_value g2_raw in
  let! r := extract_items_loop ws
              (row_range (ROW_START (PNT config)) (ROW_END (PNT config)))
              [] [] in
  Ok (fst r, snd r, g2_value).

(** *** UpdatePlanner *)

(** [UpdatePlanner._create_existing_update] *)
Definition _create_existing_update (mohor_name : str) (pnt_data : ItemData)
  (locations : list Location) (g2_value : PyVal) : MatchResult :=
  let needed_quantity := quantity pnt_data in
  let current_quantity := Z.of_nat (length locations) in
  let update : gmap string Field :=
    <["mohor" := FVal (VStr mohor_name)]>
    (<["item_text" := FVal (VStr (single_line pnt_data))]>
    (<["existing_rows" := FRows (map loc_row locations)]>
    (<["needed_quantity" := FVal (VInt needed_quantity)]>
    (<["a_value" := FVal (VStr (single_line pnt_data))]>
    (<["e_value" := FVal g2_value]>
    (<["n_value" := FVal (m_value pnt_data)]>
    (<["is_new_item" := FVal (VBool false)]> ∅))))))) in
  if current_quantity <? needed_quantity
  then
    let deficit := needed_quantity - current_quantity in
    Existing update
      (Some {| w_item := single_line pnt_data;
               w_mohor := mohor_name;
               w_needed := needed_quantity;
               w_available := current_quantity;
               w_deficit := deficit |})
  else Existing update None.

(** The mark put before the text of a new item. *)
Definition new_mark : str := [127381; 32]%N.

(** The reason given when no section is found. *)
Definition reason_not_found : str :=
  (mohor_word ++ [32; 1740; 1575; 32] ++ lit "Level 5"
   ++ [32; 1583; 1585; 32] ++ lit "PMS"
   ++ [32; 1740; 1575; 1601; 1578; 32; 1606; 1588; 1583])%N.

(** [if last_level5:] on an optional row number. *)
Definition truthy_row (o : option nat) : bool :=
  match o with
  | None => false
  | Some r => negb (Nat.eqb r 0)
  end.

(** [UpdatePlanner._create_new_update]; [ws] is the sheet of [pms_file]. *)
Definition _create_new_update (ws : Worksheet) (mohor_name : str)
  (mohor_num : Z) (pnt_data : ItemData) (g2_value : PyVal)
  : result MatchResult :=
  let! last_level5 := find_last_level5_in_section ws mohor_num in
  match last_level5 with
  | Some row =>
      if truthy_row last_level5
      then
        Ok (New
          (<["mohor" := FVal (VStr mohor_name)]>
          (<["item_text" := FVal (VStr (new_mark ++ single_line pnt_data))]>
          (<["existing_rows" := FRows [row]]>
          (<["needed_quantity" := FVal (VInt (quantity pnt_data))]>
          (<["a_value" := FVal (VStr (single_line pnt_data))]>
          (<["e_value" := FVal g2_value]>
          (<["n_value" := FVal (m_value pnt_data)]>
          (<["g_value" := FVal (m_value pnt_data)]>
          (<["is_new_item" := FVal (VBool true)]> ∅))))))))))
      else
        Ok (Not_found {| nf_item := single_line pnt_data;
                         nf_mohor := mohor_name;
                         nf_reason := reason_not_found |})
  | None =>
      Ok (Not_found {| nf_item := single_line pnt_data;
                       nf_mohor := mohor_name;
                       nf_reason := reason_not_found |})
  end.

(** The locations of [item_locations[normalized_item]] under one axis. *)
Definition mohor_locations_of (mohor_name : str) (locs : list Location)
  : list Location :=
  List.filter (fun loc => bool_decide (loc_mohor loc = mohor_name)) locs.

(** [UpdatePlanner._match_item] *)
Definition _match_item (ws : Worksheet) (mohor_name : str) (mohor_num : Z)
  (pnt_data : ItemData) (item_locations : gmap str (list Location))
  (g2_value : PyVal) : result MatchResult :=
  let normalized_item := normalized pnt_data in
  match item_locations !! normalized_item with
  | Some locs =>
      let mohor_locations := mohor_locations_of mohor_name locs in
      match mohor_locations with
      | _ :: _ =>
          Ok (_create_existing_update mohor_name pnt_data mohor_locations
                g2_value)
      | [] => _create_new_update ws mohor_name mohor_num pnt_data g2_value
      end
  | None => _create_new_update ws mohor_name mohor_num pnt_data g2_value
  end.

(** What [plan_updates] accumulates. *)
Record Plan := {
  updates : list (gmap string Field);
  not_found : list NotFound;
  warnings : list Warning
}.

(** The inner loop of [plan_updates]: the items of one axis. *)
Fixpoint plan_items (ws : Worksheet) (mohor_name : str) (mohor_num : Z)
  (items : list ItemData) (item_locations : gmap str (list Location))
  (g2_value : PyVal) (plan : Plan) : result Plan :=
  match items with
  | [] => Ok plan
  | pnt_data :: rest =>
      let! res := _match_item ws mohor_name mohor_num pnt_data
                    item_locations g2_value in
      let plan :=
        match res with
        | Existing update warning =>
            {| updates := updates plan ++ [update];
               not_found := not_found plan;
               warnings := match warning with
                           | Some w => warnings plan ++ [w]
                           | None => warnings plan
                           end |}
        | New update =>
            {| updates := updates plan ++ [update];
               not_found := not_found plan;
               warnings := warnings plan |}
        | Not_found error =>
            {| updates := updates plan;
               not_found := not_found plan ++ [error];
               warnings := warnings plan |}
        end in
      plan_items ws mohor_name mohor_num rest item_locations g2_value plan
  end.

(** The outer loop of [plan_updates]: the axes in insertion order. *)
Fixpoint plan_axes (ws : Worksheet) (groups : odict Z (list ItemData))
  (item_locations : gmap str (list Location)) (g2_value : PyVal)
  (plan : Plan) : result Plan :=
  match groups with
  | [] => Ok plan
  | (mohor_num, items) :: rest =>
      let mohor_name := mohor_name_of mohor_num in
      let! plan := plan_items ws mohor_name mohor_num items item_locations
                     g2_value plan in
      plan_axes ws rest item_locations g2_value plan
  end.

(** [UpdatePlanner.plan_updates] *)
Definition plan_updates (ws : Worksheet)
  (item_locations : gmap str (list Location))
  (items_by_axis : odict Z (list ItemData)) (g2_value : PyVal)
  : result Plan :=
  plan_axes ws items_by_axis item_locations g2_value
    {| updates := []; not_found := []; warnings := [] |}.

(** *** COMUpdater: the fields each handler reads from an update *)

(** [update[key]] *)
Definition getitem (update : gmap string Field) (key : string)
  : result Field :=
  match update !! key with
  | Some v => Ok v
  | None => Raise KeyError
  end.




(** [update.get('is_new_item')] as a condition. *)
Definition is_new_item_flag (update : gmap string Field) : bool :=
  match update !! "is_new_item"%string with
  | Some (FVal v) => truthy v
  | Some (FRows rows) => match rows with [] => false | _ => true end
  | None => false
  end.


(** *** PMSUpdateOrchestrator *)

(** [PMSUpdateOrchestrator.run], steps 1 to 3, with the cache switched
    off: index the target sheet, extract the source items, plan. *)
Definition run_planning (pms_ws pnt_ws : Worksheet)
  : result (Plan * list Unidentified) :=
  let! item_locations := structure_extract_all_items pms_ws in
  let! extracted := extract_all_items pnt_ws in
  let! plan := plan_updates pms_ws item_locations (fst (fst extracted))
                 (VStr (snd extracted)) in
  Ok (plan, snd (fst extracted)).

End Core.

(* ===================================================================== *)
(** ** COMUpdater: the calls made on the live worksheet                   *)
(* ===================================================================== *)

(** A call on the COM worksheet.  The handlers are modelled by the calls
    they make, in order; a failure inside Excel is not modelled. *)
Inductive ComCall : Type :=
  | RowInsert (row : nat)
      (** [ws.Rows(row).Insert()] *)
  | RowCopy (source_row target_row : nat)
      (** [ws.Rows(source_row).Copy()] and
          [ws.Rows(target_row).PasteSpecial(Paste=-4104)] *)
  | RowOutlineLevel (source_row target_row : nat)
      (** [target_range.OutlineLevel = source_range.OutlineLevel] *)
  | CellWrite (row col : nat) (value : Field).
      (** [ws.Cells(row, col).Value = value] *)

(** The [stats] dict. *)
Record Stats := { inserted : nat; updated : nat; skipped : nat }.

(** [l[-1]] *)
Definition py_last {A} (l : list A) : result A :=
  match last l with
  | Some x => Ok x
  | None => Raise IndexError
  end.

(** [l[:n]] for an integer [n]: a negative [n] counts from the end. *)
Definition py_slice_to {A} (n : Z) (l : list A) : list A :=
  if 0 <=? n then take (Z.to_nat n) l
  else take (Z.to_nat (Z.of_nat (length l) + n)) l.

(** The integer a field holds ([bool] is a subclass of [int]). *)
Definition field_int (f : Field) : result Z :=
  match f with
  | FVal (VInt z) => Ok z
  | FVal (VBool b) => Ok (if b then 1 else 0)
  | _ => Raise TypeError
  end.

(** [x - n > 0] for a float [x] and a length [n]: the float is greater
    than the integer. *)
Definition float_exceeds (f : spec_float) (n : nat) : bool :=
  match f with
  | S754_infinity false => true
  | S754_finite false m e =>
      if 0 <=? e then Z.of_nat n <? Z.pos m * 2 ^ e
      else Z.of_nat n * 2 ^ (- e) <? Z.pos m
  | _ => false
  end.

(** [COMUpdater._copy_row_with_values] *)
Definition _copy_row_with_values (source_row target_row : nat)
  : list ComCall :=
  [ RowCopy source_row target_row; RowOutlineLevel source_row target_row ].

Section Updater.

Variable config : PMSConfig.

(** The calls of one turn of the loop of [_process_new_item]. *)
Definition new_item_calls (template_row new_row : nat)
  (a_value e_value g_value n_value : Field) : list ComCall :=
  RowInsert new_row
  :: _copy_row_with_values template_row new_row
  ++ [ CellWrite new_row (TEXT_COL (PMS config)) a_value;
       CellWrite new_row (DATE_COL (PMS config)) e_value;
       CellWrite new_row (G_COL (PMS config)) g_value;
       CellWrite new_row (N_COL (PMS config)) n_value ].

(** The loop of [_process_new_item] over [range(needed_quantity)]: the
    calls made so far, the list [existing_rows] and the count. *)
Fixpoint new_item_loop (template_row : nat)
  (a_value e_value g_value n_value : Field) (turns : list nat)
  (calls : list ComCall) (existing_rows : list nat) (inserted_count : nat)
  : list ComCall * list nat * nat :=
  match turns with
  | [] => (calls, existing_rows, inserted_count)
  | i :: rest =>
      let new_row := (template_row + i + 1)%nat in
      new_item_loop template_row a_value e_value g_value n_value rest
        (calls ++ new_item_calls template_row new_row
                    a_value e_value g_value n_value)
        (existing_rows ++ [new_row])
        (inserted_count + 1)%nat
  end.

(** [COMUpdater._process_new_item]: the calls, the count returned and the
    update, whose list [existing_rows] the handler extends in place.  A
    text is subscriptable too: its last character is no row number, and
    the first turn of the loop fails on it. *)
Definition _process_new_item (update : gmap string Field)
  : result (list ComCall * nat * gmap string Field) :=
  let! item_text := getitem update "item_text" in
  let! existing_rows := getitem update "existing_rows" in
  let! needed_quantity := getitem update "needed_quantity" in
  let! a_value := getitem update "a_value" in
  let! e_value := getitem update "e_value" in
  let! g_value := getitem update "g_value" in
  let! n_value := getitem update "n_value" in
  match existing_rows with
  | FRows rows =>
      let! template_row := py_last rows in
      let! needed := field_int needed_quantity in
      let '(calls, rows', inserted_count) :=
        new_item_loop template_row a_value e_value g_value n_value
          (seq 0 (Z.to_nat needed)) [] rows 0%nat in
      Ok (calls, inserted_count, <["existing_rows" := FRows rows']> update)
  | FVal (VStr []) => Raise IndexError
  | FVal (VStr (_ :: _)) =>
      let! needed := field_int needed_quantity in
      if 0 <? needed then Raise TypeError else Ok ([], 0%nat, update)
  | FVal _ => Raise TypeError
  end.

(** The test of [_process_existing_item] on the date cell of a row. *)
Definition date_cell_empty (ws_check : Worksheet) (row : nat) : bool :=
  match cell ws_check row (DATE_COL (PMS config)) with
  | VNone => true
  | v => match strip (py_str v) with [] => true | _ => false end
  end.

(** The first loop of [_process_existing_item]: the rows whose date cell
    is filled and those whose date cell is empty; [ws_check.cell] refuses
    a row or a column below 1. *)
Fixpoint split_rows (ws_check : Worksheet) (rows : list nat)
  (filled_rows empty_rows : list nat) : result (list nat * list nat) :=
  match rows with
  | [] => Ok (filled_rows, empty_rows)
  | row :: rest =>
      if (row <? 1)%nat || (DATE_COL (PMS config) <? 1)%nat
      then Raise ValueError
      else if date_cell_empty ws_check row
      then split_rows ws_check rest filled_rows (empty_rows ++ [row])
      else split_rows ws_check rest (filled_rows ++ [row]) empty_rows
  end.

(** The three cells written on a row of an existing item. *)
Definition existing_item_writes (row : nat) (a_value e_value n_value : Field)
  : list ComCall :=
  [ CellWrite row (TEXT_COL (PMS config)) a_value;
    CellWrite row (DATE_COL (PMS config)) e_value;
    CellWrite row (N_COL (PMS config)) n_value ].

(** The loop of [_process_existing_item] over [range(deficit)]. *)
Fixpoint deficit_loop (last_row : nat) (a_value e_value n_value : Field)
  (turns : list nat) (calls : list ComCall)
  (empty_rows existing_rows : list nat) (inserted : nat)
  : list ComCall * list nat * list nat * nat :=
  match turns with
  | [] => (calls, empty_rows, existing_rows, inserted)
  | i :: rest =>
      let new_row := (last_row + i + 1)%nat in
      deficit_loop last_row a_value e_value n_value rest
        (calls ++ RowInsert new_row
                  :: _copy_row_with_values last_row new_row
                  ++ existing_item_writes new_row a_value e_value n_value)
        (empty_rows ++ [new_row])
        (existing_rows ++ [new_row])
        (inserted + 1)%nat
  end.

(** [COMUpdater._process_existing_item]; [ws_check] is the sheet read
    with openpyxl before the workbook is opened through COM.  A text in
    place of the list is iterated by character, and [ws_check.cell]
    fails on a character.  A float quantity passes the subtraction and
    the comparison; [range] or the slice then refuses it, after the last
    row has been looked up when rows are missing. *)
Definition _process_existing_item (ws_check : Worksheet)
  (update : gmap string Field)
  : result (list ComCall * Stats * gmap string Field) :=
  let! item_text := getitem update "item_text" in
  let! existing_rows := getitem update "existing_rows" in
  let! needed_quantity := getitem update "needed_quantity" in
  let! a_value := getitem update "a_value" in
  let! e_value := getitem update "e_value" in
  let! n_value := getitem update "n_value" in
  match existing_rows with
  | FRows rows =>
      let! parts := split_rows ws_check rows [] [] in
      let filled_rows := fst parts in
      let empty_rows := snd parts in
      let! needed :=
        match needed_quantity with
        | FVal (VFloat f _) =>
            if float_exceeds f (length empty_rows)
            then let! last_row := py_last rows in Raise TypeError
            else Raise TypeError
        | _ => field_int needed_quantity
        end in
      let deficit := Z.max 0 (needed - Z.of_nat (length empty_rows)) in
      let! topped :=
        (if 0 <? deficit
         then
           let! last_row := py_last rows in
           Ok (deficit_loop last_row a_value e_value n_value
                 (seq 0 (Z.to_nat deficit)) [] empty_rows rows 0%nat)
         else Ok ([], empty_rows, rows, 0%nat)) in
      let '(calls, empty_rows', rows', inserted_count) := topped in
      let rows_to_update := py_slice_to needed empty_rows' in
      Ok (calls ++
          flat_map
            (fun row => existing_item_writes row a_value e_value n_value)
            rows_to_update,
          {| inserted := inserted_count;
             updated := length rows_to_update;
             skipped := length filled_rows |},
          <["existing_rows" := FRows rows']> update)
  | FVal (VStr []) =>
      let! needed :=
        match needed_quantity with
        | FVal (VFloat f _) =>
            if float_exceeds f 0 then Raise IndexError else Raise TypeError
        | _ => field_int needed_quantity
        end in
      if 0 <? Z.max 0 (needed - 0) then Raise IndexError
      else Ok ([], {| inserted := 0; updated := 0; skipped := 0 |}, update)
  | FVal _ => Raise TypeError
  end.

(** The loop of [COMUpdater._process_updates]. *)
Fixpoint process_updates_loop (ws_check : Worksheet)
  (updates : list (gmap string Field)) (calls : list ComCall)
  (stats : Stats) (done : list (gmap string Field))
  : result (list ComCall * Stats * list (gmap string Field)) :=
  match updates with
  | [] => Ok (calls, stats, done)
  | update :: rest =>
      if is_new_item_flag update
      then
        let! r := _process_new_item update in
        process_updates_loop ws_check rest (calls ++ fst (fst r))
          {| inserted := inserted stats + snd (fst r);
             updated := updated stats;
             skipped := skipped stats |}
          (done ++ [snd r])
      else
        let! r := _process_existing_item ws_check update in
        process_updates_loop ws_check rest (calls ++ fst (fst r))
          {| inserted := inserted stats + inserted (snd (fst r));
             updated := updated stats + updated (snd (fst r));
             skipped := skipped stats + skipped (snd (fst r)) |}
          (done ++ [snd r])
  end.

(** [COMUpdater._process_updates]: the calls on the live sheet, the
    statistics, and the updates as the handlers leave them. *)
Definition _process_updates (ws_check : Worksheet)
  (updates : list (gmap string Field))
  : result (list ComCall * Stats * list (gmap string Field)) :=
  process_updates_loop ws_check updates []
    {| inserted := 0; updated := 0; skipped := 0 |} [].

End Updater.

(* ===================================================================== *)
(** ** Statements: the notions the properties are stated with            *)
(* ===================================================================== *)

(** No character of [s] is white space. *)
Definition spaceless (s : str) : Prop :=
  Forall (fun c => isspace c = false) s.

Section AxisNotions.

Variable upper : str -> str.
Variable config : PMSConfig.
Variable ws : Worksheet.
Variable row_idx : nat.

(** The axis number [n] lies in the configured range. *)
Definition in_axis_range (n : Z) : Prop :=
  AXIS_RANGE_START config <= n < AXIS_RANGE_END config.

(** Column [col] of the row holds a value whose normalized text contains
    the token [prefix ++ str(n)]. *)
Definition has_token (pattern_prefix : str) (col : nat) (n : Z) : Prop :=
  truthy (cell ws row_idx col) = true /\
  contains (pattern_prefix ++ str_of_Z n)
           (normalize_pnt_axis upper (cell ws row_idx col)) = true.

(** No column of [cols] holds a token for any number of the range. *)
Definition no_token (pattern_prefix : str) (cols : list nat) : Prop :=
  forall col n, In col cols -> in_axis_range n ->
                ~ has_token pattern_prefix col n.

End AxisNotions.

(** The rows from the first one that satisfies [p]. *)
Fixpoint skip_to (p : nat -> bool) (rows : list nat) : list nat :=
  match rows with
  | [] => []
  | r :: rest => if p r then rows else skip_to p rest
  end.

(** The rows of [rows] before the first one that satisfies [p]. *)
Fixpoint take_until (p : nat -> bool) (rows : list nat) : list nat :=
  match rows with
  | [] => []
  | r :: rest => if p r then [] else r :: take_until p rest
  end.

Section PathNotions.

Variable config : PMSConfig.
Variable ws : Worksheet.

(** The test of [_find_parent_section] on one row for one constraint: the
    text cell holds a value, the outline level is the constraint's and the
    stripped text contains the constraint's text. *)
Definition row_matches (c : Z * str) (row_idx : nat) : bool :=
  match cell ws row_idx (TEXT_COL (PMS config)) with
  | VNone => false
  | v =>
      (get_outline_level (row_dimensions ws row_idx) =? fst c)
      && contains (snd c) (strip (py_str v))
  end.

(** First match wins: the anchor of the path [c :: rest] over [rows] is
    found by taking the first row that matches [c] and resolving [rest]
    over the rows after it; the anchor is the row of the last constraint. *)
Fixpoint first_match_anchor (c : Z * str) (rest : list (Z * str))
  (rows : list nat) : option nat :=
  match skip_to (row_matches c) rows with
  | [] => None
  | r :: after =>
      match rest with
      | [] => Some r
      | c' :: rest' => first_match_anchor c' rest' after
      end
  end.

(** Last match wins, as the specification words it: the anchor of a
    constraint is the last row that matches it, and the constraints that
    follow are resolved over the rows below that row. *)
Fixpoint last_match_anchor (c : Z * str) (rest : list (Z * str))
  (rows : list nat) : option nat :=
  match last (List.filter (row_matches c) rows) with
  | None => None
  | Some r =>
      match rest with
      | [] => Some r
      | c' :: rest' =>
          last_match_anchor c' rest'
            (List.filter (fun x => (r <? x)%nat) rows)
      end
  end.

(** The locator resolves the path [c :: rest] to the anchor that last match
    wins gives. *)
Definition anchors_on_last_match (c : Z * str) (rest : list (Z * str))
  : Prop :=
  _find_parent_section config ws (c :: rest)
  = Ok match last_match_anchor c rest (row_range 1 (max_row ws + 1)) with
       | Some r => (Some r, Some (r + 1)%nat)
       | None => (None, None)
       end.

End PathNotions.

Section LeafNotions.

Variable config : PMSConfig.
Variable ws : Worksheet.

(** The value of the text column in a row of sheet [w]. *)
Definition text_cell (w : Worksheet) (row_idx : nat) : PyVal :=
  cell w row_idx (TEXT_COL (PMS config)).

(** The outline level of a row of sheet [w]. *)
Definition level_of (w : Worksheet) (row_idx : nat) : Z :=
  get_outline_level (row_dimensions w row_idx).

(** A row that ends the section: its text cell holds a value and its
    outline level is at most the anchor's. *)
Definition is_boundary (parent_level : Z) (row_idx : nat) : bool :=
  match text_cell ws row_idx with
  | VNone => false
  | _ => level_of ws row_idx <=? parent_level
  end.

(** A leaf: its text cell holds a value and its outline level is the
    target level. *)
Definition is_leaf (target_level : Z) (row_idx : nat) : bool :=
  match text_cell ws row_idx with
  | VNone => false
  | _ => level_of ws row_idx =? target_level
  end.

(** The record collected for a leaf row. *)
Definition item_at (row_idx : nat) : FoundItem :=
  {| fi_row := row_idx;
     fi_level := level_of ws row_idx;
     fi_text := strip (py_str (text_cell ws row_idx)) |}.

End LeafNotions.

(** The row of the last collected item, if any. *)
Definition last_row (items : list FoundItem) : option nat :=
  option_map fi_row (last items).

(** The value is truthy and [int] refuses it with [e]: text that is no
    number, a float that is NaN or infinite, or an object that is no
    number. *)
Definition int_refuses (v : PyVal) (e : exn) : Prop :=
  match v with
  | VStr s => s <> [] /\ int_of_str s = None /\ e = ValueError
  | VFloat S754_nan _ => e = ValueError
  | VFloat (S754_infinity _) _ => e = OverflowError
  | VObj _ truth => truth = true /\ e = TypeError
  | _ => False
  end.

(** The number a finite float denotes lies between the integer [n] and
    the next integer away from zero: [n] is the float without its
    fraction. *)
Definition truncates (s : bool) (m : positive) (e n : Z) : Prop :=
  (if s then n <= 0 else 0 <= n) /\
  if 0 <=? e then Z.abs n = Z.pos m * 2 ^ e
  else Z.abs n * 2 ^ (- e) <= Z.pos m < (Z.abs n + 1) * 2 ^ (- e).

Section RowNotions.

Variable lower upper : str -> str.
Variable config : PMSConfig.
Variable ws : Worksheet.

(** The comparison key of a source row, as [_extract_row_data] builds
    it from the item cell. *)
Definition row_key (row : nat) : str :=
  normalize_standard lower
    (VStr (multiline_to_single
             (VStr (strip (py_str (cell ws row (ITEM_COL (PNT config)))))))).

(** The row is kept: its item cell is truthy and its key is not empty. *)
Definition row_kept (row : nat) : Prop :=
  truthy (cell ws row (ITEM_COL (PNT config))) = true /\ row_key row <> [].

(** The quantity cell holds a value that is truthy and that [int]
    refuses with [e]: text that is no number, a float that is NaN or
    infinite, or an object that is no number. *)
Definition quantity_rejected (row : nat) (e : exn) : Prop :=
  int_refuses (cell ws row (QUANTITY_COL (PNT config))) e.

(** The outcome of reading one source row. *)
Definition row_data (row : nat) : result (option ItemData) :=
  _extract_row_data lower upper config ws row.

(** The entry a row adds to the unidentified list. *)
Definition unidentified_at (row : nat) : list Unidentified :=
  match row_data row with
  | Ok (Some d) =>
      match axis d with
      | None => [ {| un_row := row; un_item := single_line d |} ]
      | Some _ => []
      end
  | _ => []
  end.

(** The record a row adds to the group of axis [a]. *)
Definition group_at (a : Z) (row : nat) : list ItemData :=
  match row_data row with
  | Ok (Some d) =>
      match axis d with
      | Some a' => if a' =? a then [d] else []
      | None => []
      end
  | _ => []
  end.

End RowNotions.

(** [items_by_axis.get(a, [])] *)
Definition group (a : Z) (items_by_axis : odict Z (list ItemData))
  : list ItemData :=
  default [] (od_get Z.eqb a items_by_axis).

(** The keys are distinct and no group is empty. *)
Definition well_grouped (items_by_axis : odict Z (list ItemData)) : Prop :=
  NoDup (map fst items_by_axis) /\
  forall a items, In (a, items) items_by_axis ->
                  items <> [] /\ group a items_by_axis = items.

(** The source rows that are read: the configured range. *)
Definition source_rows (config : PMSConfig) : list nat :=
  row_range (ROW_START (PNT config)) (ROW_END (PNT config)).

(** The row and column numbers the extraction reads are numbers that
    [ws.cell] accepts: 1 or more. *)
Definition valid_source_config (config : PMSConfig) : Prop :=
  (1 <= ROW_START (PNT config))%nat /\
  (1 <= ITEM_COL (PNT config))%nat /\
  (1 <= QUANTITY_COL (PNT config))%nat /\
  (1 <= M_VALUE_COL (PNT config))%nat /\
  (1 <= fst (G2_CELL (PNT config)))%nat /\
  (1 <= snd (G2_CELL (PNT config)))%nat /\
  Forall (fun col => (1 <= col)%nat) (AXIS_SEARCH_COLS (PNT config)).

(** The fields that an Existing and a New update share, with the values
    taken from the source item. *)
Definition common_fields (mohor_name : str) (pnt_data : ItemData)
  (g2_value : PyVal) (update : gmap string Field) : Prop :=
  update !! "mohor"%string = Some (FVal (VStr mohor_name)) /\
  update !! "needed_quantity"%string
  = Some (FVal (VInt (quantity pnt_data))) /\
  update !! "a_value"%string = Some (FVal (VStr (single_line pnt_data))) /\
  update !! "e_value"%string = Some (FVal g2_value) /\
  update !! "n_value"%string = Some (FVal (m_value pnt_data)).

(** The candidates of an item: the locations recorded under its key whose
    axis name is the item's. *)
Definition candidates (mohor_name : str) (pnt_data : ItemData)
  (item_locations : gmap str (list Location)) : list Location :=
  mohor_locations_of mohor_name
    (default [] (item_locations !! normalized pnt_data)).


(** A word: a non-empty text without white space. *)
Definition word (p : str) : Prop := p <> [] /\ spaceless p.

(** The text is the join, by single ASCII blanks, of words. *)
Definition single_spaced (s : str) : Prop :=
  exists parts, Forall word parts /\ s = join (lit " ") parts.

(** The comparison key of a leaf of the target sheet. *)
Definition item_key (lower : str -> str) (item : FoundItem) : str :=
  normalize_standard lower (VStr (fi_text item)).

(** The location recorded for a leaf of the axis named [mohor_name]. *)
Definition location_of (mohor_name : str) (item : FoundItem) : Location :=
  {| loc_mohor := mohor_name;
     loc_row := fi_row item;
     loc_level := fi_level item;
     loc_original_text := fi_text item |}.

(** The leaves that [find_items] lists for an axis. *)
Definition axis_items (config : PMSConfig) (ws : Worksheet) (mohor_num : Z)
  : list FoundItem :=
  match find_items config ws (get_search_path (Hierarchy config) mohor_num)
          (TARGET_LEVEL (Hierarchy config)) with
  | Ok items => items
  | Raise _ => []
  end.

(** The locations of the leaves of an axis whose key is [k]. *)
Definition axis_locations (lower : str -> str) (config : PMSConfig)
  (ws : Worksheet) (k : str) (mohor_num : Z) : list Location :=
  map (location_of (mohor_name_of mohor_num))
    (List.filter (fun item => bool_decide (item_key lower item = k))
       (axis_items config ws mohor_num)).

(** [item_locations.get(k, [])] *)
Definition locations_at (item_locations : gmap str (list Location))
  (k : str) : list Location :=
  default [] (item_locations !! k).

(** No key of the index holds an empty list. *)
Definition no_empty_list (m : gmap str (list Location)) : Prop :=
  forall k, m !! k = Some [] -> False.


(** The index records the row under some key. *)
Definition indexed_row (item_locations : gmap str (list Location))
  (row : nat) : Prop :=
  exists k locs loc,
    item_locations !! k = Some locs /\ In loc locs /\ loc_row loc = row.

(** An update as the planner hands it to the updater: a non-empty list of
    rows, an integer quantity, every field the handlers read but
    [g_value]; a new update also carries [g_value], the rows of an
    existing one are rows of the index. *)
Definition update_ready (item_locations : gmap str (list Location))
  (update : gmap string Field) : Prop :=
  exists rows q,
    update !! "existing_rows"%string = Some (FRows rows) /\
    update !! "needed_quantity"%string = Some (FVal (VInt q)) /\
    rows <> [] /\
    is_Some (update !! "item_text"%string) /\
    is_Some (update !! "a_value"%string) /\
    is_Some (update !! "e_value"%string) /\
    is_Some (update !! "n_value"%string) /\
    if is_new_item_flag update
    then is_Some (update !! "g_value"%string)
    else Forall (indexed_row item_locations) rows.

(** The rows of [rows] whose date cell is empty, and those whose date cell
    is filled. *)
Definition empty_rows_of (config : PMSConfig) (ws_check : Worksheet)
  (rows : list nat) : list nat :=
  List.filter (date_cell_empty config ws_check) rows.

Definition filled_rows_of (config : PMSConfig) (ws_check : Worksheet)
  (rows : list nat) : list nat :=
  List.filter (fun row => negb (date_cell_empty config ws_check row)) rows.

(** The update [update'] is [update] with rows added at the end of its
    list of rows. *)
Definition rows_extended (update update' : gmap string Field) : Prop :=
  exists rows new_rows,
    update !! "existing_rows"%string = Some (FRows rows) /\
    update' = <["existing_rows"%string := FRows (rows ++ new_rows)]> update.

(* ===================================================================== *)
(** ** Example data                                                      *)
(* ===================================================================== *)

(** The default text of the level-4 constraint. *)
Definition level_4_default : str :=
  [1576; 1604; 1575; 1587; 1578; 32; 1608; 32; 1575; 1605; 1575; 1583; 1607;
   32; 1587; 1575; 1586; 1740; 32; 1587; 1591; 1581; 32; 32; 1608; 32; 1575;
   1593; 1605; 1575; 1604; 32; 1585; 1606; 1711; 32; 32; 1604; 1575; 1740;
   1607; 32; 1583; 1608; 1605]%N.

(** The settings [_load_from_env_dict] falls back on. *)
Definition default_config : PMSConfig :=
  {| AXIS_RANGE_START := 19;
     AXIS_RANGE_END := 46;
     PNT := {| ITEM_COL := 3; QUANTITY_COL := 9; M_VALUE_COL := 13;
               G2_CELL := (2%nat, 7%nat);
               AXIS_SEARCH_COLS := [3; 4; 5]%nat;
               ROW_START := 7; ROW_END := 31 |};
     PMS := {| TEXT_COL := 1; DATE_COL := 5; G_COL := 7; N_COL := 14 |};
     Hierarchy := {| LEVEL_1_PATTERN := mohor_word;
                     LEVEL_3_TEXT := lit "GLASS FLAKE";
                     LEVEL_4_TEXT := level_4_default;
                     TARGET_LEVEL := 5 |} |}.

(** A target row: outline level and the text of column 1. *)
Definition pms_row (level : Z) (text : str) : Z * list (nat * PyVal) :=
  (level, [(1%nat, VStr text)]).

(** A row whose only cell, in column 1, is empty, at outline level
    [level]. *)
Definition blank_row (level : Z) : Z * list (nat * PyVal) :=
  (level, [(1%nat, VNone)]).

(** A target sheet in which the section of axis 19 occurs twice. *)
Definition two_sections : Worksheet :=
  sheet_of_rows
    [ pms_row 1 (mohor_name_of 19);
      pms_row 3 (lit "GLASS FLAKE");
      pms_row 4 level_4_default;
      pms_row 5 (lit "Primer Coat");
      pms_row 1 (mohor_name_of 19);
      pms_row 3 (lit "GLASS FLAKE");
      pms_row 4 level_4_default;
      pms_row 5 (lit "Tie Coat") ].

(** A section whose last leaf is followed by an empty row that belongs to
    the same outline group. *)
Definition blank_leaf_row : Worksheet :=
  sheet_of_rows
    [ pms_row 1 (mohor_name_of 19);
      pms_row 3 (lit "GLASS FLAKE");
      pms_row 4 level_4_default;
      pms_row 5 (lit "Primer Coat");
      blank_row 5 ].

(** A section in which an empty row without outline level separates two
    leaves. *)
Definition blank_separator_row : Worksheet :=
  sheet_of_rows
    [ pms_row 1 (mohor_name_of 19);
      pms_row 3 (lit "GLASS FLAKE");
      pms_row 4 level_4_default;
      blank_row 0;
      pms_row 5 (lit "Primer Coat");
      pms_row 5 (lit "Tie Coat") ].

(** A source sheet whose rows start at row 7; each row lists its cells. *)
Definition pnt_sheet (rows : list (list (nat * PyVal))) : Worksheet :=
  sheet_of_rows (repeat (blank_row 0) 6 ++ map (fun cells => (0, cells)) rows).

(** An S token in the item column and an AXIS token in the next one. *)
Definition s_then_axis : Worksheet :=
  pnt_sheet [ [ (3%nat, VStr (lit "S19 item"));
                (4%nat, VStr (lit "AXIS-20")) ] ].

(** The settings with the axis numbers starting at 0. *)
Definition config_from_zero : PMSConfig :=
  {| AXIS_RANGE_START := 0;
     AXIS_RANGE_END := AXIS_RANGE_END default_config;
     PNT := PNT default_config;
     PMS := PMS default_config;
     Hierarchy := Hierarchy default_config |}.

(** An S token for axis 7 in the item column and the AXIS token of axis 0
    in the next one. *)
Definition s_then_axis_zero : Worksheet :=
  pnt_sheet [ [ (3%nat, VStr (lit "S7 beam"));
                (4%nat, VStr (lit "AXIS 0")) ] ].

(** A row whose quantity cell holds text that is no number. *)
Definition text_quantity : Worksheet :=
  pnt_sheet [ [ (3%nat, VStr (lit "AXIS 19 Primer Coat"));
                (9%nat, VStr (lit "abc"));
                (13%nat, VInt 5) ] ].

(** A row whose item cell holds three blanks. *)
Definition blank_item : Worksheet :=
  pnt_sheet [ [ (3%nat, VStr (lit "   ")); (9%nat, VInt 2) ] ].

(** A row of axis 50 and a row of axis 19. *)
Definition axis_out_of_range : Worksheet :=
  pnt_sheet [ [ (3%nat, VStr (lit "AXIS 50 Tie Coat")); (9%nat, VInt 1) ];
              [ (3%nat, VStr (lit "AXIS 19 Primer Coat")); (9%nat, VInt 3);
                (13%nat, VInt 12) ] ].

(** Axis 19, GLASS FLAKE, the level-4 section, and two leaves
    "Primer Coat" at rows 40 and 41. *)
Definition scenario_target : Worksheet :=
  sheet_of_rows
    (repeat (blank_row 0) 36 ++
     [ pms_row 1 (mohor_name_of 19);
       pms_row 3 (lit "GLASS FLAKE");
       pms_row 4 level_4_default;
       pms_row 5 (lit "Primer Coat");
       pms_row 5 (lit "Primer Coat") ]).

(** "Primer Coat", axis 19, quantity 3; "Tie Coat", axis 19, quantity 1. *)
Definition scenario_source : Worksheet :=
  pnt_sheet [ [ (3%nat, VStr (lit "Primer Coat"));
                (4%nat, VStr (lit "AXIS 19"));
                (9%nat, VInt 3); (13%nat, VInt 12) ];
              [ (3%nat, VStr (lit "Tie Coat"));
                (4%nat, VStr (lit "AXIS-19"));
                (9%nat, VInt 1); (13%nat, VInt 8) ] ].

(** A section with an empty row and a sub-section among its leaves,
    followed by the next level-3 section. *)
Definition span_sheet : Worksheet :=
  sheet_of_rows
    [ pms_row 1 (mohor_name_of 19);
      pms_row 3 (lit "GLASS FLAKE");
      pms_row 4 level_4_default;
      pms_row 5 (lit "Primer Coat");
      blank_row 0;
      pms_row 6 (lit "detail");
      pms_row 5 (lit "Tie Coat");
      pms_row 3 (lit "EPOXY");
      pms_row 5 (lit "Top Coat") ].

(** The cells of rows 7 to 30 and the cell G2 of [axis_out_of_range] in
    a sheet of 100 rows, all at outline level 3, whose other cells all
    hold an item text. *)
Definition axis_out_of_range_framed : Worksheet :=
  {| max_row := 100;
     row_dimensions := fun _ => {| outlineLevel := Some 3 |};
     cell := fun r col =>
       if ((r <? 7)%nat || (31 <=? r)%nat)
          && negb ((r =? 2)%nat && (col =? 7)%nat)
       then VStr (lit "AXIS 19 Finish Coat")
       else cell axis_out_of_range r col |}.

(** The target sheet of the scenario as it is read before the update: the
    date cell of row 40 is filled, that of row 41 is empty. *)
Definition scenario_check : Worksheet :=
  sheet_of_rows
    (repeat (blank_row 0) 39 ++
     [ (5, [ (1%nat, VStr (lit "Primer Coat"));
             (5%nat, VStr (lit "2024-05-01")) ]);
       pms_row 5 (lit "Primer Coat") ]).

(** An update for a new item: template row 41, two rows needed. *)
Definition new_update_41 : gmap string Field :=
  <["item_text"%string := FVal (VStr (new_mark ++ lit "Tie Coat"))]>
  (<["existing_rows"%string := FRows [41%nat]]>
  (<["needed_quantity"%string := FVal (VInt 2)]>
  (<["a_value"%string := FVal (VStr (lit "Tie Coat"))]>
  (<["e_value"%string := FVal (VStr (lit "G2"))]>
  (<["n_value"%string := FVal (VInt 8)]>
  (<["g_value"%string := FVal (VInt 8)]>
  (<["is_new_item"%string := FVal (VBool true)]> ∅))))))).

(** An update for an existing item at rows 40 and 41, three rows
    needed. *)
Definition existing_update_40_41 : gmap string Field :=
  <["item_text"%string := FVal (VStr (lit "Primer Coat"))]>
  (<["existing_rows"%string := FRows [40%nat; 41%nat]]>
  (<["needed_quantity"%string := FVal (VInt 3)]>
  (<["a_value"%string := FVal (VStr (lit "Primer Coat"))]>
  (<["e_value"%string := FVal (VStr (lit "G2"))]>
  (<["n_value"%string := FVal (VInt 12)]>
  (<["is_new_item"%string := FVal (VBool false)]> ∅)))))).

(** The default settings after [detect_pnt_range] has set the range of
    rows to row 8 alone. *)
Definition config_row_8 : PMSConfig :=
  {| AXIS_RANGE_START := AXIS_RANGE_START default_config;
     AXIS_RANGE_END := AXIS_RANGE_END default_config;
     PNT := {| ITEM_COL := 3; QUANTITY_COL := 9; M_VALUE_COL := 13;
               G2_CELL := (2%nat, 7%nat);
               AXIS_SEARCH_COLS := [3; 4; 5]%nat;
               ROW_START := 8; ROW_END := 9 |};
     PMS := PMS default_config;
     Hierarchy := Hierarchy default_config |}.

(** Rows whose quantity cells hold the float 2.7, a date and the
    fullwidth text "12". *)
Definition other_quantities : Worksheet :=
  pnt_sheet
    [ [ (3%nat, VStr (lit "AXIS 19 Primer Coat"));
        (9%nat, VFloat (S754_finite false 6079859496950170 (-51))
                  (lit "2.7")) ];
      [ (3%nat, VStr (lit "AXIS 19 Tie Coat"));
        (9%nat, VObj (lit "2024-05-01 00:00:00") true) ];
      [ (3%nat, VStr (lit "AXIS 19 Finish Coat"));
        (9%nat, VStr [65297; 65298]%N) ] ].

(** A source item of axis 19 that no example sheet lists: "Finish
    Coat", quantity 1. *)
Definition finish_coat : ItemData :=
  {| pnt_row := 7; quantity := 1; m_value := VInt 8;
     original := lit "Finish Coat";
     single_line := lit "Finish Coat";
     normalized := lit "finishcoat";
     axis := Some 19 |}.

(* ===================================================================== *)
(** ** Text: helper lemmas                                                *)
(* ===================================================================== *)

Lemma replace_same (c : N) (s : str) : replace c [c] s = s.
Proof.
  induction s as [|a s IH]; simpl; [reflexivity|].
  rewrite IH.
  destruct (N.eqb_spec a c); subst; reflexivity.
Qed.

Lemma remove_spaces_spaceless (s : str) : spaceless (remove_spaces s).
Proof.
  induction s as [|a s IH]; simpl; [constructor|].
  destruct (isspace a) eqn:E; simpl; [exact IH|].
  constructor; assumption.
Qed.

Lemma remove_spaces_id (s : str) : spaceless s -> remove_spaces s = s.
Proof.
  induction 1 as [|a s Ha _ IH]; simpl; [reflexivity|].
  rewrite Ha. simpl. f_equal. exact IH.
Qed.

Lemma lstrip_spaceless (s : str) : spaceless s -> lstrip s = s.
Proof.
  destruct 1 as [|a s Ha _]; simpl; [reflexivity|].
  rewrite Ha. reflexivity.
Qed.

Lemma spaceless_rev (s : str) : spaceless s -> spaceless (rev s).
Proof.
  unfold spaceless. rewrite !List.Forall_forall.
  intros H c Hc. apply H. apply List.in_rev. exact Hc.
Qed.

Lemma strip_spaceless (s : str) : spaceless s -> strip s = s.
Proof.
  intros H. unfold strip, rstrip.
  rewrite (lstrip_spaceless s H).
  rewrite (lstrip_spaceless (rev s) (spaceless_rev s H)).
  apply rev_involutive.
Qed.

Lemma ascii_lower_nil : ascii_lower [] = [].
Proof. reflexivity. Qed.

Lemma ascii_lower_idem (s : str) : ascii_lower (ascii_lower s) = ascii_lower s.
Proof.
  unfold ascii_lower. rewrite List.map_map. apply List.map_ext.
  intros c.
  destruct ((65 <=? c)%N && (c <=? 90)%N) eqn:E; [|rewrite E; reflexivity].
  apply andb_true_iff in E. destruct E as [E1 E2].
  apply N.leb_le in E1. apply N.leb_le in E2.
  replace ((c + 32 <=? 90)%N) with false; [rewrite andb_false_r; reflexivity|].
  symmetry. apply N.leb_gt. lia.
Qed.

Lemma ascii_lower_spaceless (s : str) :
  spaceless s -> spaceless (ascii_lower s).
Proof.
  induction 1 as [|c s Hc _ IH]; simpl; constructor; [|exact IH].
  destruct ((65 <=? c)%N && (c <=? 90)%N) eqn:E; [|exact Hc].
  apply andb_true_iff in E. destruct E as [E1 E2].
  apply N.leb_le in E1. apply N.leb_le in E2.
  unfold isspace.
  repeat match goal with
  | |- context [(?a <=? ?b)%N] =>
      destruct (N.leb_spec a b); try lia
  | |- context [(?a =? ?b)%N] =>
      destruct (N.eqb_spec a b); try lia
  end; reflexivity.
Qed.

(* ===================================================================== *)
(** ** TextNormalizer: properties                                         *)
(* ===================================================================== *)

Section NormalizerProperties.

Variable lower : str -> str.

(** What the proof uses of [str.lower]: it maps the empty text to itself,
    lowering twice is lowering once, and it creates no white space. *)
Hypothesis lower_nil : lower [] = [].
Hypothesis lower_idem : forall s, lower (lower s) = lower s.
Hypothesis lower_spaceless : forall s, spaceless s -> spaceless (lower s).

Lemma normalize_standard_spaceless (x : PyVal) :
  spaceless (normalize_standard lower x).
Proof.
  destruct x; simpl; try constructor;
    apply lower_spaceless;
    rewrite !replace_same; apply remove_spaces_spaceless.
Qed.

Lemma normalize_standard_str (s : str) :
  normalize_standard lower (VStr s) = lower (remove_spaces (strip s)).
Proof. simpl. rewrite !replace_same. reflexivity. Qed.

(** C8. The key normalization is idempotent: normalizing a key that
    [normalize_standard] produced gives the same key, for every input
    value [x] (a missing value, a number or any text). *)
Theorem normalize_standard_idempotent (x : PyVal) :
  normalize_standard lower (VStr (normalize_standard lower x))
  = normalize_standard lower x.
Proof.
  rewrite normalize_standard_str.
  pose proof (normalize_standard_spaceless x) as Hs.
  rewrite (strip_spaceless _ Hs), (remove_spaces_id _ Hs).
  destruct x; simpl; [apply lower_nil | apply lower_idem ..].
Qed.

End NormalizerProperties.

(** The normalization of a key over the ASCII case mapping, on a text with
    leading blanks, inner blanks, a line break and capitals. *)
Lemma normalize_standard_idempotent_witness :
  normalize_standard ascii_lower
    (VStr (normalize_standard ascii_lower (VStr (lit "  Primer  Coat 2 "))))
  = normalize_standard ascii_lower (VStr (lit "  Primer  Coat 2 ")).
Proof.
  apply (normalize_standard_idempotent ascii_lower
           ascii_lower_nil ascii_lower_idem ascii_lower_spaceless).
Defined.

Example normalize_standard_primer :
  normalize_standard ascii_lower (VStr (lit "  Primer  Coat 2 "))
  = lit "primercoat2".
Proof. reflexivity. Qed.

(* ===================================================================== *)
(** ** AxisExtractor: properties                                          *)
(* ===================================================================== *)

Lemma range_spec (a b n : Z) : In n (range a b) <-> a <= n < b.
Proof.
  unfold range. rewrite List.in_map_iff. split.
  - intros (i & <- & Hi). apply List.in_seq in Hi. lia.
  - intros H. exists (Z.to_nat (n - a)). split; [lia|].
    apply List.in_seq. lia.
Qed.

Section AxisProperties.

Variable upper : str -> str.
Variable config : PMSConfig.
Variable ws : Worksheet.
Variable row_idx : nat.

Local Abbreviation in_axis_range := (in_axis_range config).
Local Abbreviation has_token := (has_token upper ws row_idx).
Local Abbreviation no_token := (no_token upper config ws row_idx).

Lemma search_numbers_None (p s : str) (nums : list Z) :
  search_numbers p s nums = None <->
  forall n, In n nums -> contains (p ++ str_of_Z n) s = false.
Proof.
  induction nums as [|m nums IH]; simpl.
  - split; [intros _ n []|reflexivity].
  - destruct (contains (p ++ str_of_Z m) s) eqn:E.
    + split; [discriminate|]. intros H. specialize (H m (or_introl eq_refl)).
      congruence.
    + rewrite IH. split.
      * intros H n [<-|Hn]; [exact E|exact (H n Hn)].
      * intros H n Hn. apply H. right. exact Hn.
Qed.

Lemma search_numbers_seq (p s : str) (a : Z) (k j : nat) (n : Z) :
  search_numbers p s (map (fun i => a + Z.of_nat i) (seq j k)) = Some n ->
  a + Z.of_nat j <= n < a + Z.of_nat j + Z.of_nat k /\
  contains (p ++ str_of_Z n) s = true /\
  forall m, a + Z.of_nat j <= m < n -> contains (p ++ str_of_Z m) s = false.
Proof.
  revert j. induction k as [|k IH]; intros j; simpl; [discriminate|].
  destruct (contains (p ++ str_of_Z (a + Z.of_nat j)) s) eqn:E.
  - intros [= <-]. split; [lia|]. split; [exact E|]. intros m Hm. lia.
  - intros H. apply IH in H. destruct H as (Hr & Hc & Hleast).
    split; [lia|]. split; [exact Hc|].
    intros m Hm.
    destruct (Z.eq_dec m (a + Z.of_nat j)) as [->|Hne]; [exact E|].
    apply Hleast. lia.
Qed.

(** The inner loop returns the least matching number of the range. *)
Lemma search_numbers_range (p s : str) (n : Z) :
  search_numbers p s
    (range (AXIS_RANGE_START config) (AXIS_RANGE_END config)) = Some n ->
  in_axis_range n /\
  contains (p ++ str_of_Z n) s = true /\
  forall m, AXIS_RANGE_START config <= m < n ->
            contains (p ++ str_of_Z m) s = false.
Proof.
  unfold range, in_axis_range. intros H. apply search_numbers_seq in H.
  destruct H as (Hr & Hc & Hl). split; [lia|]. split; [exact Hc|].
  intros m Hm. apply Hl. lia.
Qed.

Lemma search_columns_None (p : str) (cols : list nat) :
  search_columns upper config ws row_idx p cols = None <-> no_token p cols.
Proof.
  unfold no_token, has_token. induction cols as [|col cols IH]; simpl.
  - split; [intros _ c n []|reflexivity].
  - destruct (truthy (cell ws row_idx col)) eqn:Et; simpl.
    + destruct (search_numbers p _ _) as [n|] eqn:Es.
      * split; [discriminate|]. intros H.
        apply search_numbers_range in Es. destruct Es as (Hr & Hc & _).
        exfalso. apply (H col n (or_introl eq_refl) Hr). split; assumption.
      * rewrite IH. rewrite search_numbers_None in Es. split.
        -- intros H c n [<-|Hc] Hr [Ht Hm].
           ++ rewrite Es in Hm; [discriminate|]. apply range_spec. exact Hr.
           ++ apply (H c n Hc Hr). split; assumption.
        -- intros H c n Hc. apply H. right. exact Hc.
    + rewrite IH. split.
      * intros H c n [<-|Hc] Hr [Ht Hm]; [congruence|].
        apply (H c n Hc Hr). split; assumption.
      * intros H c n Hc. apply H. right. exact Hc.
Qed.

(** The outer loop returns the least number of the first column, in the
    declared order, that holds any token. *)
Lemma search_columns_Some (p : str) (cols : list nat) (n : Z) :
  search_columns upper config ws row_idx p cols = Some n ->
  exists before col after,
    cols = before ++ col :: after /\
    no_token p before /\
    has_token p col n /\
    in_axis_range n /\
    forall m, AXIS_RANGE_START config <= m < n -> ~ has_token p col m.
Proof.
  induction cols as [|col cols IH]; simpl; [discriminate|].
  destruct (truthy (cell ws row_idx col)) eqn:Et; simpl.
  - destruct (search_numbers p _ _) as [k|] eqn:Es.
    + intros [= ->]. apply search_numbers_range in Es.
      destruct Es as (Hr & Hc & Hl).
      exists [], col, cols. split; [reflexivity|].
      split; [intros c m []|]. split; [split; assumption|].
      split; [exact Hr|]. intros m Hm [_ Hcm]. rewrite (Hl m Hm) in Hcm.
      discriminate.
    + intros H. destruct (IH H) as (b & c & a & -> & Hb & Hrest).
      exists (col :: b), c, a. split; [reflexivity|]. split; [|exact Hrest].
      rewrite search_numbers_None in Es.
      intros c' m [<-|Hc'] Hr [Ht Hm].
      * rewrite Es in Hm; [discriminate|]. apply range_spec. exact Hr.
      * apply (Hb c' m Hc' Hr). split; assumption.
  - intros H. destruct (IH H) as (b & c & a & -> & Hb & Hrest).
    exists (col :: b), c, a. split; [reflexivity|]. split; [|exact Hrest].
    intros c' m [<-|Hc'] Hr [Ht Hm]; [congruence|].
    apply (Hb c' m Hc' Hr). split; assumption.
Qed.

(** When 0 is no axis number of the configured range, the row's axis is
    what the AXIS pass over all columns finds, and the S pass is consulted
    only when no column holds an AXIS token; the result is none or a
    number of the range; a pass returns the least number of the range whose
    token the first column with any token holds. *)
Theorem extract_from_row_axis_first :
  ~ in_axis_range 0 ->
  (forall n, _search_pattern upper config ws row_idx (lit "AXIS") = Some n ->
             extract_from_row upper config ws row_idx = Some n) /\
  ((exists col n, In col (AXIS_SEARCH_COLS (PNT config)) /\
                  in_axis_range n /\ has_token (lit "AXIS") col n) ->
   extract_from_row upper config ws row_idx
   = _search_pattern upper config ws row_idx (lit "AXIS")) /\
  (no_token (lit "AXIS") (AXIS_SEARCH_COLS (PNT config)) ->
   extract_from_row upper config ws row_idx
   = _search_pattern upper config ws row_idx (lit "S")) /\
  (forall n, extract_from_row upper config ws row_idx = Some n ->
             in_axis_range n) /\
  (forall p n,
     _search_pattern upper config ws row_idx p = Some n ->
     exists before col after,
       AXIS_SEARCH_COLS (PNT config) = before ++ col :: after /\
       no_token p before /\ has_token p col n /\ in_axis_range n /\
       forall m, AXIS_RANGE_START config <= m < n -> ~ has_token p col m).
Proof.
  intros H0.
  assert (Hax : forall n,
    _search_pattern upper config ws row_idx (lit "AXIS") = Some n ->
    extract_from_row upper config ws row_idx = Some n).
  { intros n Hn. unfold extract_from_row. rewrite Hn. simpl.
    destruct (Z.eqb_spec n 0) as [->|Hne]; [|reflexivity].
    exfalso. apply H0. unfold _search_pattern in Hn.
    apply search_columns_Some in Hn.
    destruct Hn as (_ & _ & _ & _ & _ & _ & Hr & _). exact Hr. }
  split; [exact Hax|]. split; [|split; [|split]].
  4:{ intros p n Hn. unfold _search_pattern in Hn.
      exact (search_columns_Some p _ n Hn). }
  - intros (col & n & Hcol & Hr & Ht).
    destruct (_search_pattern upper config ws row_idx (lit "AXIS"))
      as [k|] eqn:Ek.
    + apply Hax. reflexivity.
    + exfalso. unfold _search_pattern in Ek.
      rewrite search_columns_None in Ek. exact (Ek col n Hcol Hr Ht).
  - intros Hno. unfold extract_from_row.
    replace (_search_pattern upper config ws row_idx (lit "AXIS"))
      with (@None Z); [reflexivity|].
    symmetry. apply search_columns_None. exact Hno.
  - intros n. unfold extract_from_row.
    destruct (_search_pattern upper config ws row_idx (lit "AXIS"))
      as [k|] eqn:Ek; simpl.
    + destruct (Z.eqb_spec k 0) as [->|Hne]; simpl.
      * intros Hs. unfold _search_pattern in Hs.
        apply search_columns_Some in Hs.
        destruct Hs as (_ & _ & _ & _ & _ & _ & Hr & _). exact Hr.
      * intros [= <-]. unfold _search_pattern in Ek.
        apply search_columns_Some in Ek.
        destruct Ek as (_ & _ & _ & _ & _ & _ & Hr & _). exact Hr.
    + intros Hs. unfold _search_pattern in Hs.
      apply search_columns_Some in Hs.
      destruct Hs as (_ & _ & _ & _ & _ & _ & Hr & _). exact Hr.
Qed.

End AxisProperties.

(* ===================================================================== *)
(** ** PMSHierarchySearcher: path resolution                              *)
(* ===================================================================== *)

Lemma drop_cons_inv {A} (l : list A) (i : nat) (x : A) (rest : list A) :
  drop i l = x :: rest ->
  l !! i = Some x /\ drop (S i) l = rest /\ (i < length l)%nat.
Proof.
  revert i. induction l as [|a l IH]; intros i; destruct i; simpl;
    try discriminate.
  - intros [= -> ->]. split; [reflexivity|].
    split; [apply drop_0 | lia].
  - intros H. destruct (IH i H) as (H1 & H2 & H3).
    split; [exact H1|]. split; [exact H2 | lia].
Qed.

Section PathResolution.

Variable config : PMSConfig.
Variable ws : Worksheet.

Local Abbreviation row_matches := (row_matches config ws).
Local Abbreviation first_match_anchor := (first_match_anchor config ws).

Lemma skip_to_spec (p : nat -> bool) (rows : list nat) (r : nat)
  (after : list nat) :
  skip_to p rows = r :: after ->
  exists before, rows = before ++ r :: after /\ p r = true /\
                 forall x, In x before -> p x = false.
Proof.
  induction rows as [|a rows IH]; simpl; [discriminate|].
  destruct (p a) eqn:E.
  - intros [= -> ->]. exists []. split; [reflexivity|].
    split; [exact E|]. intros x [].
  - intros H. destruct (IH H) as (b & -> & Hr & Hb).
    exists (a :: b). split; [reflexivity|]. split; [exact Hr|].
    intros x [<-|Hx]; [exact E | exact (Hb x Hx)].
Qed.

Lemma skip_to_nil (p : nat -> bool) (rows : list nat) :
  skip_to p rows = [] -> forall x, In x rows -> p x = false.
Proof.
  induction rows as [|a rows IH]; simpl; [intros _ x []|].
  destruct (p a) eqn:E; [discriminate|].
  intros H x [<-|Hx]; [exact E | exact (IH H x Hx)].
Qed.

(** The loop of the code, started at constraint [current_idx] over
    consecutive rows, is the first-match resolution of the constraints
    that are left. *)
Lemma find_parent_loop_first_match (search_path : list (Z * str)) :
  forall (n a current_idx : nat) (parent_row : option nat)
         (c : Z * str) (rest : list (Z * str)),
    drop current_idx search_path = c :: rest ->
    find_parent_loop config ws search_path (seq a n) current_idx parent_row
    = Ok match first_match_anchor c rest (seq a n) with
         | Some r => (Some r, Some (r + 1)%nat)
         | None => (None, None)
         end.
Proof.
  induction n as [|n IH]; intros a idx parent c rest Hdrop;
    destruct (drop_cons_inv _ _ _ _ Hdrop) as (Hlook & Hnext & Hlt).
  - simpl. apply Nat.ltb_lt in Hlt. rewrite Hlt.
    destruct rest; reflexivity.
  - cbn [seq find_parent_loop].
    replace (length search_path <=? idx)%nat with false
      by (symmetry; apply Nat.leb_gt; exact Hlt).
    rewrite Hlook.
    assert (Hstep : forall b : bool,
      b = row_matches c a ->
      (if b
       then find_parent_loop config ws search_path (seq (S a) n)
              (S idx) (Some a)
       else find_parent_loop config ws search_path (seq (S a) n) idx parent)
      = Ok match first_match_anchor c rest (a :: seq (S a) n) with
           | Some r => (Some r, Some (r + 1)%nat)
           | None => (None, None)
           end).
    { intros b ->. destruct (row_matches c a) eqn:Em.
      - destruct rest as [|c' rest'].
        + cbn [first_match_anchor skip_to]. rewrite Em.
          assert (Hlen : length search_path = S idx).
          { apply (f_equal (@length _)) in Hnext.
            rewrite length_drop in Hnext. simpl in Hnext. lia. }
          destruct n as [|n]; cbn [seq find_parent_loop].
          * replace (S idx <? length search_path)%nat with false
              by (symmetry; apply Nat.ltb_ge; lia).
            reflexivity.
          * replace (length search_path <=? S idx)%nat with true
              by (symmetry; apply Nat.leb_le; lia).
            do 3 f_equal. lia.
        + rewrite (IH (S a) (S idx) (Some a) c' rest' Hnext).
          cbn [first_match_anchor skip_to]. rewrite Em. reflexivity.
      - rewrite (IH (S a) idx parent c rest Hdrop).
        destruct rest; cbn [first_match_anchor skip_to]; rewrite Em;
          reflexivity. }
    unfold row_matches in Hstep. destruct c as [target_level target_text].
    simpl fst in Hstep. simpl snd in Hstep.
    destruct (cell ws a (TEXT_COL (PMS config))) eqn:Ec;
      [exact (Hstep false eq_refl) | exact (Hstep _ eq_refl) ..].
Qed.

(** A path with at least one constraint resolves to its first-match
    anchor; the locator never raises on it. *)
Lemma find_parent_section_resolves (c : Z * str) (rest : list (Z * str)) :
  _find_parent_section config ws (c :: rest)
  = Ok match first_match_anchor c rest (row_range 1 (max_row ws + 1)) with
       | Some r => (Some r, Some (r + 1)%nat)
       | None => (None, None)
       end.
Proof.
  unfold _find_parent_section, row_range.
  apply find_parent_loop_first_match. reflexivity.
Qed.

End PathResolution.

(* ===================================================================== *)
(** ** Example data                                                       *)
(* ===================================================================== *)

(* ===================================================================== *)
(** ** C1: which row anchors a constraint                                 *)
(* ===================================================================== *)

Section LastMatch.

Variable config : PMSConfig.
Variable ws : Worksheet.

(** C1 (amended). Path resolution is first match wins: for every sheet and
    every path with at least one constraint, the locator returns the
    anchor obtained by taking, for each constraint in turn, the first row
    below the previous anchor that matches it (unresolved when some
    constraint has no such row); the sub-scan starts at the row after the
    anchor.  In particular the anchor of a one-constraint path matches the
    constraint and no row above it does. *)
Theorem find_parent_section_first_match (c : Z * str)
  (rest : list (Z * str)) :
  _find_parent_section config ws (c :: rest)
  = Ok match first_match_anchor config ws c rest
               (row_range 1 (max_row ws + 1)) with
       | Some r => (Some r, Some (r + 1)%nat)
       | None => (None, None)
       end
  /\
  forall r,
    _find_parent_section config ws [c] = Ok (Some r, Some (r + 1)%nat) ->
    (1 <= r <= max_row ws)%nat /\
    row_matches config ws c r = true /\
    forall r', (1 <= r' < r)%nat -> row_matches config ws c r' = false.
Proof.
  pose proof (find_parent_section_resolves config ws c) as Heq.
  split; [apply Heq|].
  intros r Hr. rewrite Heq in Hr. cbn [first_match_anchor] in Hr.
  destruct (skip_to (row_matches config ws c) (row_range 1 (max_row ws + 1)))
    as [|r0 after] eqn:Es; [discriminate|].
  injection Hr as ->.
  destruct (skip_to_spec _ _ _ _ Es) as (before & Hrows & Hm & Hb).
  unfold row_range in Hrows.
  assert (Hin : In r (seq 1 (max_row ws + 1 - 1))).
  { rewrite Hrows. apply List.in_or_app. right. left. reflexivity. }
  apply List.in_seq in Hin.
  split; [lia|]. split; [exact Hm|].
  intros r' Hr'. apply Hb.
  assert (Hin' : In r' (seq 1 (max_row ws + 1 - 1)))
    by (apply List.in_seq; lia).
  rewrite Hrows in Hin'. apply List.in_app_or in Hin'.
  destruct Hin' as [Hin'|Hin']; [exact Hin'|]. exfalso.
  (* the rows are increasing, so a row after [r] is not below it *)
  assert (Hsorted : forall (l1 l2 : list nat) a n x,
    seq a n = l1 ++ x :: l2 -> forall y, In y (x :: l2) -> (x <= y)%nat).
  { clear. intros l1. induction l1 as [|b l1 IH]; intros l2 a n x Hl y Hy.
    - destruct n as [|n]; [discriminate|]. simpl in Hl.
      injection Hl as -> <-. destruct Hy as [<-|Hy]; [lia|].
      apply List.in_seq in Hy. lia.
    - destruct n as [|n]; [discriminate|]. simpl in Hl.
      injection Hl as _ Hl. exact (IH _ _ _ _ Hl y Hy). }
  pose proof (Hsorted _ _ _ _ _ Hrows r' Hin'). lia.
Qed.

End LastMatch.

(** C1, counterexample. The section of axis 19 occurs twice (level-1 rows
    1 and 5, both matching); last match wins would anchor the path in the
    second section, at row 7, but the locator anchors in the first one, at
    row 3, and starts the sub-scan at row 4. *)
Lemma find_parent_section_last_match_counterexample :
  let path := get_search_path (Hierarchy default_config) 19 in
  row_matches default_config two_sections (1, mohor_name_of 19) 1 = true /\
  row_matches default_config two_sections (1, mohor_name_of 19) 5 = true /\
  last_match_anchor default_config two_sections
    (1, mohor_name_of 19)
    [(3, lit "GLASS FLAKE"); (4, level_4_default)]
    (row_range 1 (max_row two_sections + 1)) = Some 7%nat /\
  _find_parent_section default_config two_sections path
  = Ok (Some 3%nat, Some 4%nat) /\
  ~ anchors_on_last_match default_config two_sections
      (1, mohor_name_of 19)
      [(3, lit "GLASS FLAKE"); (4, level_4_default)].
Proof.
  cbv zeta. split; [vm_compute; reflexivity|].
  split; [vm_compute; reflexivity|].
  split; [vm_compute; reflexivity|].
  split; [vm_compute; reflexivity|].
  unfold anchors_on_last_match. vm_compute. discriminate.
Qed.

(* ===================================================================== *)
(** ** PMSHierarchySearcher: leaf enumeration                             *)
(* ===================================================================== *)

Lemma take_until_seq_lt (p : nat -> bool) (n a b x : nat) :
  In b (seq a n) -> p b = true -> In x (take_until p (seq a n)) ->
  (x < b)%nat.
Proof.
  revert a. induction n as [|n IH]; intros a; simpl; [intros []|].
  destruct (p a) eqn:E; [intros _ _ []|].
  intros [<-|Hb] Hp; [congruence|].
  intros [<-|Hx].
  - apply List.in_seq in Hb. lia.
  - exact (IH (S a) Hb Hp Hx).
Qed.

Section LeafEnumeration.

Variable config : PMSConfig.
Variable ws : Worksheet.

Local Abbreviation text_cell := (text_cell config).
Local Abbreviation is_boundary := (is_boundary config ws).
Local Abbreviation is_leaf := (is_leaf config ws).
Local Abbreviation item_at := (item_at config ws).

Lemma extract_target_loop_span (parent_level target_level : Z)
  (rows : list nat) (found_items : list FoundItem) :
  extract_target_loop config ws parent_level target_level rows found_items
  = found_items ++
    map item_at (List.filter (is_leaf target_level)
                   (take_until (is_boundary parent_level) rows)).
Proof.
  revert found_items. induction rows as [|r rows IH]; intros acc.
  - simpl. rewrite app_nil_r. reflexivity.
  - assert (Hstep :
      extract_target_loop config ws parent_level target_level (r :: rows) acc
      = if is_boundary parent_level r then acc
        else if is_leaf target_level r
        then extract_target_loop config ws parent_level target_level rows
               (acc ++ [item_at r])
        else extract_target_loop config ws parent_level target_level rows
               acc).
    { cbn [extract_target_loop].
      unfold is_boundary, is_leaf, item_at, text_cell, level_of.
      destruct (cell ws r (TEXT_COL (PMS config))); try reflexivity;
        destruct (_ <=? parent_level); reflexivity. }
    rewrite Hstep. cbn [take_until].
    destruct (is_boundary parent_level r);
      [simpl; rewrite app_nil_r; reflexivity|].
    cbn [List.filter]. destruct (is_leaf target_level r); rewrite IH.
    + rewrite <- app_assoc. reflexivity.
    + reflexivity.
Qed.

(** The loop reads the outline level of a row only when its text cell
    holds a value. *)
Lemma extract_target_loop_blank_levels (ws' : Worksheet)
  (parent_level target_level : Z) (rows : list nat) :
  (forall r, text_cell ws' r = text_cell ws r) ->
  (forall r, text_cell ws r <> VNone -> level_of ws' r = level_of ws r) ->
  forall found_items,
    extract_target_loop config ws' parent_level target_level rows found_items
    = extract_target_loop config ws parent_level target_level rows
        found_items.
Proof.
  intros Hcell Hlevel. induction rows as [|r rows IH]; intros acc;
    [reflexivity|].
  cbn [extract_target_loop].
  pose proof (Hcell r) as Hc. pose proof (Hlevel r) as Hl.
  unfold text_cell, level_of in Hc, Hl. rewrite Hc.
  destruct (cell ws r (TEXT_COL (PMS config))) eqn:Ec; [apply IH| ..];
    (rewrite Hl by discriminate;
     destruct (_ <=? parent_level); [reflexivity|];
     destruct (_ =? target_level); apply IH).
Qed.

(** C3. Leaf enumeration from [start_row] under the anchor [parent_row]:
    - the result is, in row order, the record of every row before the
      first boundary row (text cell with a value, outline level at most
      the anchor's) whose text cell holds a value and whose outline level
      is the target level;
    - every collected row lies above every boundary row of the scanned
      range, so leaves below a boundary are not collected;
    - rows whose text cell is empty are skipped without their outline level
      being read: a sheet with the same text cells and the same levels on
      the rows that hold text (and the same anchor level and last row)
      gives the same result, whatever the levels of its blank rows. *)
Theorem extract_target_items_span (parent_row start_row : nat)
  (target_level : Z) :
  let rows := row_range start_row (max_row ws + 1) in
  let parent_level := level_of ws parent_row in
  _extract_target_items config ws parent_row start_row target_level
  = map item_at (List.filter (is_leaf target_level)
                   (take_until (is_boundary parent_level) rows))
  /\
  (forall b item,
     In b rows -> is_boundary parent_level b = true ->
     In item (_extract_target_items config ws parent_row start_row
                target_level) ->
     (fi_row item < b)%nat /\ text_cell ws (fi_row item) <> VNone /\
     fi_level item = target_level)
  /\
  (forall ws' : Worksheet,
     max_row ws' = max_row ws ->
     level_of ws' parent_row = level_of ws parent_row ->
     (forall r, text_cell ws' r = text_cell ws r) ->
     (forall r, text_cell ws r <> VNone -> level_of ws' r = level_of ws r) ->
     _extract_target_items config ws' parent_row start_row target_level
     = _extract_target_items config ws parent_row start_row target_level).
Proof.
  intros rows parent_level.
  assert (Heq :
    _extract_target_items config ws parent_row start_row target_level
    = map item_at (List.filter (is_leaf target_level)
                     (take_until (is_boundary parent_level) rows))).
  { unfold _extract_target_items. rewrite extract_target_loop_span.
    reflexivity. }
  split; [exact Heq|]. split.
  - intros b item Hb Hbound Hitem. rewrite Heq in Hitem.
    apply List.in_map_iff in Hitem. destruct Hitem as (r & <- & Hr).
    apply List.filter_In in Hr. destruct Hr as [Hr Hleaf].
    split; [|split].
    + simpl. unfold rows, row_range in *.
      exact (take_until_seq_lt _ _ _ _ _ Hb Hbound Hr).
    + simpl. unfold is_leaf in Hleaf. intros Hnone.
      rewrite Hnone in Hleaf. discriminate.
    + simpl. unfold is_leaf in Hleaf.
      destruct (text_cell ws r); [discriminate| ..];
        apply Z.eqb_eq; exact Hleaf.
  - intros ws' Hmax Hpl Hcell Hlevel.
    unfold _extract_target_items. unfold level_of in Hpl.
    rewrite Hpl, Hmax.
    apply extract_target_loop_blank_levels; assumption.
Qed.

(** On rows that all hold text, the walk of
    [find_last_level5_in_section] and the enumeration agree. *)
Lemma last_level5_loop_agrees (section_level : Z) (rows : list nat) :
  (forall r, In r rows -> text_cell ws r <> VNone) ->
  forall found_items,
    last_level5_loop config ws section_level rows (last_row found_items)
    = last_row (extract_target_loop config ws section_level
                  (TARGET_LEVEL (Hierarchy config)) rows found_items).
Proof.
  induction rows as [|r rows IH]; intros Hrows acc; [reflexivity|].
  cbn [last_level5_loop extract_target_loop].
  assert (Hr : text_cell ws r <> VNone) by (apply Hrows; left; reflexivity).
  assert (Hrest : forall x, In x rows -> text_cell ws x <> VNone)
    by (intros x Hx; apply Hrows; right; exact Hx).
  unfold text_cell in Hr.
  destruct (cell ws r (TEXT_COL (PMS config))) eqn:Ec; [congruence| ..];
    (destruct (_ <=? section_level); [reflexivity|];
     destruct (_ =? TARGET_LEVEL (Hierarchy config));
       [|exact (IH Hrest acc)];
     rewrite <- IH by exact Hrest;
     unfold last_row; rewrite last_snoc; reflexivity).
Qed.

(** When every row of the sheet holds text, the last leaf that
    [find_last_level5_in_section] returns is the row of the last item
    that [find_items] lists for the same axis. *)
Theorem find_last_level5_agrees_without_blank_rows (mohor_num : Z) :
  (forall r, text_cell ws r <> VNone) ->
  find_last_level5_in_section config ws mohor_num
  = bind (find_items config ws
            (get_search_path (Hierarchy config) mohor_num)
            (TARGET_LEVEL (Hierarchy config)))
         (fun items => Ok (last_row items)).
Proof.
  intros Hfull. unfold find_last_level5_in_section, find_items.
  destruct (_find_parent_section config ws _) as [[[p|] [s|]]|e];
    simpl; try reflexivity.
  f_equal. unfold _extract_target_items.
  rewrite <- last_level5_loop_agrees; [reflexivity|].
  intros r _. apply Hfull.
Qed.

End LeafEnumeration.

(** C2. The two walks below an anchor disagree on rows whose text cell is
    empty.  With an empty row at the target level after the last leaf,
    [find_last_level5_in_section] returns the empty row 5 while the last
    listed leaf is row 4; with an empty row without outline level before
    the leaves, it stops at once and returns none while the enumeration
    lists rows 5 and 6. *)
Theorem find_last_level5_blank_rows :
  (find_last_level5_in_section default_config blank_leaf_row 19
   = Ok (Some 5%nat)
   /\ bind (find_items default_config blank_leaf_row
              (get_search_path (Hierarchy default_config) 19) 5)
           (fun items => Ok (map fi_row items))
      = Ok [4%nat])
  /\
  (find_last_level5_in_section default_config blank_separator_row 19
   = Ok None
   /\ bind (find_items default_config blank_separator_row
              (get_search_path (Hierarchy default_config) 19) 5)
           (fun items => Ok (map fi_row items))
      = Ok [5%nat; 6%nat]).
Proof. repeat split; vm_compute; reflexivity. Qed.

(* ===================================================================== *)
(** ** PNTItemExtractor: one row                                          *)
(* ===================================================================== *)

Section RowData.

Variable lower upper : str -> str.
Variable config : PMSConfig.
Variable ws : Worksheet.

Local Abbreviation row_key := (row_key lower config ws).
Local Abbreviation row_kept := (row_kept lower config ws).
Local Abbreviation quantity_rejected := (quantity_rejected config ws).

Lemma int_refuses_spec (v : PyVal) (e : exn) :
  int_refuses v e <-> truthy v = true /\ py_int v = Raise e.
Proof.
  destruct v as [|b|z|s|f repr|repr truth]; cbn [int_refuses truthy py_int].
  - split; [intros [] | intros [H _]; discriminate].
  - split; [intros [] | intros [_ H]; discriminate].
  - split; [intros [] | intros [_ H]; discriminate].
  - split.
    + intros (Hs & Hnone & ->). rewrite Hnone.
      split; [destruct s; [contradiction | reflexivity] | reflexivity].
    + intros [Ht H]. destruct (int_of_str s); [discriminate|].
      injection H as <-.
      split; [intros ->; discriminate | split; reflexivity].
  - destruct f as [sg|sg| |sg m ex]; cbn [float_int].
    + split; [intros [] | intros [H _]; discriminate].
    + split; [intros ->; split; reflexivity | intros [_ H]; congruence].
    + split; [intros ->; split; reflexivity | intros [_ H]; congruence].
    + split; [intros [] | intros [_ H]; discriminate].
  - split; [intros [-> ->]; split; reflexivity|].
    intros [-> H]. split; [reflexivity | congruence].
Qed.

Lemma py_int_truthy (v : PyVal) :
  truthy v = true ->
  (exists z, py_int v = Ok z) \/ (exists e, int_refuses v e).
Proof.
  intros Ht. destruct (py_int v) as [z|e] eqn:E.
  - left. exists z. reflexivity.
  - right. exists e. apply int_refuses_spec. split; assumption.
Qed.

Lemma float_int_truncates (s : bool) (m : positive) (e n : Z) :
  float_int (S754_finite s m e) = Ok n -> truncates s m e n.
Proof.
  cbn [float_int]. intros [= <-]. unfold truncates.
  destruct (0 <=? e) eqn:Ee.
  - apply Z.leb_le in Ee.
    assert (Hpow : 0 < 2 ^ e) by (apply Z.pow_pos_nonneg; lia).
    destruct s; split; nia.
  - apply Z.leb_gt in Ee.
    assert (Hpow : 0 < 2 ^ (- e)) by (apply Z.pow_pos_nonneg; lia).
    pose proof (Z.mul_div_le (Z.pos m) (2 ^ (- e)) Hpow) as Hle.
    pose proof (Z.mul_succ_div_gt (Z.pos m) (2 ^ (- e)) Hpow) as Hgt.
    assert (Hq : 0 <= Z.pos m / 2 ^ (- e)) by (apply Z.div_pos; lia).
    destruct s; (split; [lia|]).
    + rewrite Z.abs_opp, Z.abs_eq by exact Hq. nia.
    + rewrite Z.abs_eq by exact Hq. nia.
Qed.

(** C4 (amended). Reading a source row, at row and column numbers that
    [ws.cell] accepts:
    - a row that is not kept (falsy item cell or empty key) gives no
      record;
    - on a kept row the quantity is 0 when the quantity cell is missing
      or otherwise falsy, the integer itself when the cell holds an
      integer, the integer [int] parses when it holds text, and the
      number without its fraction when it holds a finite float; the
      auxiliary value is the value of its cell, unchanged;
    - the read is not total: it raises exactly on a kept row whose
      quantity cell holds a truthy value that [int] refuses, with the
      exception of [int]: ValueError for text that is no number and for
      NaN, OverflowError for an infinite float, TypeError for a date or
      any other object; on every other kept row it returns a record. *)
Theorem extract_row_data_quantity (row : nat) :
  valid_source_config config -> (1 <= row)%nat ->
  let q := cell ws row (QUANTITY_COL (PNT config)) in
  let r := _extract_row_data lower upper config ws row in
  (r = Ok None <-> ~ row_kept row) /\
  (forall d, r = Ok (Some d) ->
     m_value d = cell ws row (M_VALUE_COL (PNT config)) /\
     (truthy q = false -> quantity d = 0) /\
     (forall z, q = VInt z -> quantity d = z) /\
     (forall s, q = VStr s -> s <> [] -> int_of_str s = Some (quantity d)) /\
     (forall s m e repr,
        q = VFloat (S754_finite s m e) repr ->
        truncates s m e (quantity d)))
  /\
  (forall e, r = Raise e <-> row_kept row /\ quantity_rejected row e) /\
  (row_kept row -> (forall e, ~ quantity_rejected row e) ->
   exists d, r = Ok (Some d)).
Proof.
  intros _ _ q r. subst q r.
  unfold _extract_row_data, row_kept, quantity_rejected.
  fold (row_key row).
  destruct (truthy (cell ws row (ITEM_COL (PNT config)))) eqn:Eitem;
    cbn [negb bind].
  2:{ split; [split; [intros _ [H _]; discriminate | reflexivity]|].
      split; [intros d H; discriminate|].
      split; [|intros [H _]; discriminate].
      intros e. split; [discriminate|]. intros ([H _] & _).
      discriminate. }
  destruct (row_key row) as [|k key] eqn:Ekey.
  { split; [split; [intros _ [_ H]; apply H; reflexivity | reflexivity]|].
    split; [intros d H; discriminate|].
    split; [|intros [_ H]; exfalso; apply H; reflexivity].
    intros e. split; [discriminate|]. intros ([_ H] & _).
    exfalso. apply H. reflexivity. }
  assert (Hkept : true = true /\ k :: key <> [])
    by (split; [reflexivity | discriminate]).
  set (q := cell ws row (QUANTITY_COL (PNT config))).
  destruct (truthy q) eqn:Eq.
  - destruct (py_int q) as [z|e0] eqn:Ez; cbn [bind].
    + split; [split; [discriminate | intros H; exfalso; exact (H Hkept)]|].
      split.
      { intros d [= <-]. cbn [m_value quantity].
        split; [reflexivity|]. split; [discriminate|]. split.
        - intros z' Hq. rewrite Hq in Ez. cbn in Ez. congruence.
        - split.
          + intros s Hq Hs. rewrite Hq in Ez. cbn [py_int] in Ez.
            destruct (int_of_str s); congruence.
          + intros s m e repr Hq. rewrite Hq in Ez. cbn [py_int] in Ez.
            apply float_int_truncates. exact Ez. }
      split; [|intros _ _; eexists; reflexivity].
      intros e. split; [discriminate|].
      intros (_ & Hrej). apply int_refuses_spec in Hrej.
      destruct Hrej as [_ Hrej]. congruence.
    + split; [split; [discriminate | intros H; exfalso; exact (H Hkept)]|].
      split; [intros d H; discriminate|].
      assert (Hrej : int_refuses q e0)
        by (apply int_refuses_spec; split; assumption).
      split; [|intros _ H; exfalso; exact (H e0 Hrej)].
      intros e. split.
      * intros [= <-]. split; [exact Hkept | exact Hrej].
      * intros (_ & Hrej'). apply int_refuses_spec in Hrej'.
        destruct Hrej' as [_ Hrej']. congruence.
  - cbn [bind].
    split; [split; [discriminate | intros H; exfalso; exact (H Hkept)]|].
    split.
    { intros d [= <-]. cbn [m_value quantity].
      split; [reflexivity|]. split; [reflexivity|]. split.
      - intros z Hq. rewrite Hq in Eq. cbn in Eq.
        destruct (Z.eqb_spec z 0); [congruence | discriminate].
      - split.
        + intros s Hq Hs. rewrite Hq in Eq. cbn in Eq.
          destruct s; [congruence | discriminate].
        + intros s m e repr Hq. rewrite Hq in Eq. discriminate. }
    split; [|intros _ _; eexists; reflexivity].
    intros e. split; [discriminate|].
    intros (_ & Hrej). apply int_refuses_spec in Hrej.
    destruct Hrej as [Ht _]. congruence.
Qed.

End RowData.

(* ===================================================================== *)
(** ** Ordered dicts: lemmas                                              *)
(* ===================================================================== *)

Section OrderedDict.

Context {K V : Type}.
Variable eqb : K -> K -> bool.
Hypothesis eqb_eq : forall a b, eqb a b = true <-> a = b.

Lemma eqb_refl_true (a : K) : eqb a a = true.
Proof. apply eqb_eq. reflexivity. Qed.

Lemma eqb_neq_false (a b : K) : a <> b -> eqb a b = false.
Proof.
  intros H. destruct (eqb a b) eqn:E; [|reflexivity].
  apply eqb_eq in E. contradiction.
Qed.

Lemma od_get_set_eq (k : K) (v : V) (d : odict K V) :
  od_get eqb k (od_set eqb k v d) = Some v.
Proof.
  induction d as [|[k' v'] d IH]; simpl.
  - rewrite eqb_refl_true. reflexivity.
  - destruct (eqb k k') eqn:E; simpl; rewrite E; [reflexivity | exact IH].
Qed.

Lemma od_get_set_ne (k k' : K) (v : V) (d : odict K V) :
  k' <> k -> od_get eqb k' (od_set eqb k v d) = od_get eqb k' d.
Proof.
  intros Hne. induction d as [|[k0 v0] d IH]; simpl.
  - rewrite (eqb_neq_false _ _ Hne). reflexivity.
  - destruct (eqb k k0) eqn:E; simpl.
    + apply eqb_eq in E. subst k0.
      rewrite (eqb_neq_false _ _ Hne). reflexivity.
    + destruct (eqb k' k0); [reflexivity | exact IH].
Qed.

Lemma od_get_None_keys (k : K) (d : odict K V) :
  od_get eqb k d = None <-> ~ In k (map fst d).
Proof.
  induction d as [|[k0 v0] d IH]; simpl.
  - split; [intros _ [] | reflexivity].
  - destruct (eqb k k0) eqn:E.
    + apply eqb_eq in E. subst. split; [discriminate|].
      intros H. exfalso. apply H. left. reflexivity.
    + rewrite IH. split.
      * intros H [Hk|Hk]; [|exact (H Hk)].
        subst. rewrite eqb_refl_true in E. discriminate.
      * intros H Hk. apply H. right. exact Hk.
Qed.

Lemma od_set_keys (k : K) (v : V) (d : odict K V) :
  map fst (od_set eqb k v d)
  = match od_get eqb k d with
    | Some _ => map fst d
    | None => map fst d ++ [k]
    end.
Proof.
  induction d as [|[k0 v0] d IH]; simpl; [reflexivity|].
  destruct (eqb k k0) eqn:E; simpl; [reflexivity|].
  rewrite IH. destruct (od_get eqb k d); reflexivity.
Qed.

Lemma od_set_NoDup (k : K) (v : V) (d : odict K V) :
  NoDup (map fst d) -> NoDup (map fst (od_set eqb k v d)).
Proof.
  intros Hd. rewrite od_set_keys.
  destruct (od_get eqb k d) eqn:E; [exact Hd|].
  apply od_get_None_keys in E.
  apply NoDup_ListNoDup. apply NoDup_ListNoDup in Hd.
  apply List.NoDup_app; [exact Hd | constructor; [intros []|constructor] |].
  intros x Hx [<-|[]]. exact (E Hx).
Qed.

Lemma od_get_In (k : K) (v : V) (d : odict K V) :
  NoDup (map fst d) -> (In (k, v) d <-> od_get eqb k d = Some v).
Proof.
  induction d as [|[k0 v0] d IH]; simpl; intros Hd.
  - split; [intros [] | discriminate].
  - apply NoDup_cons in Hd. destruct Hd as [Hk0 Hd].
    destruct (eqb k k0) eqn:E.
    + apply eqb_eq in E. subst k0. split.
      * intros [[= <-]|H]; [reflexivity|]. exfalso. apply Hk0.
        apply list_elem_of_In. apply List.in_map_iff.
        exists (k, v). split; [reflexivity | exact H].
      * intros [= <-]. left. reflexivity.
    + rewrite <- (IH Hd). split.
      * intros [[= <- <-]|H]; [|exact H].
        rewrite eqb_refl_true in E. discriminate.
      * intros H. right. exact H.
Qed.

End OrderedDict.

(* ===================================================================== *)
(** ** Lists built row by row                                             *)
(* ===================================================================== *)

Section RowLists.

Context {B : Type}.
Variable f : nat -> list B.
Variable key : B -> nat.
Hypothesis key_f : forall x b, In b (f x) -> key b = x.

Lemma filter_key_same (r : nat) :
  List.filter (fun b => Nat.eqb (key b) r) (f r) = f r.
Proof.
  pose proof (key_f r) as H. induction (f r) as [|b l IH]; [reflexivity|].
  simpl. rewrite (H b (or_introl eq_refl)), Nat.eqb_refl. f_equal.
  apply IH. intros b' Hb'. apply H. right. exact Hb'.
Qed.

Lemma filter_key_other (r x : nat) :
  x <> r -> List.filter (fun b => Nat.eqb (key b) r) (f x) = [].
Proof.
  intros Hne. pose proof (key_f x) as H.
  induction (f x) as [|b l IH]; [reflexivity|].
  simpl. rewrite (H b (or_introl eq_refl)).
  destruct (Nat.eqb_spec x r); [contradiction|].
  apply IH. intros b' Hb'. apply H. right. exact Hb'.
Qed.

Lemma filter_flat_map_key (rows : list nat) (r : nat) :
  List.NoDup rows -> In r rows ->
  List.filter (fun b => Nat.eqb (key b) r) (flat_map f rows) = f r.
Proof.
  induction 1 as [|x rows Hx Hnd IH]; [intros []|].
  simpl. rewrite List.filter_app. intros [->|Hr].
  - rewrite filter_key_same.
    assert (Hrest : List.filter (fun b => Nat.eqb (key b) r)
                      (flat_map f rows) = []).
    { clear IH Hnd. induction rows as [|y rows IH]; [reflexivity|].
      simpl. rewrite List.filter_app.
      rewrite filter_key_other by (intros ->; apply Hx; left; reflexivity).
      apply IH. intros H. apply Hx. right. exact H. }
    rewrite Hrest. apply app_nil_r.
  - rewrite filter_key_other by (intros ->; contradiction).
    apply IH. exact Hr.
Qed.

Lemma in_flat_map_key (rows : list nat) (b : B) :
  In b (flat_map f rows) -> In (key b) rows /\ In b (f (key b)).
Proof.
  rewrite List.in_flat_map. intros (x & Hx & Hb).
  rewrite (key_f x b Hb). split; assumption.
Qed.

End RowLists.

(* ===================================================================== *)
(** ** PNTItemExtractor: all rows                                         *)
(* ===================================================================== *)

Section Quarantine.

Variable lower upper : str -> str.
Variable config : PMSConfig.
Variable ws : Worksheet.

Local Abbreviation row_data := (row_data lower upper config ws).
Local Abbreviation unidentified_at := (unidentified_at lower upper config ws).
Local Abbreviation group_at := (group_at lower upper config ws).
Local Abbreviation source_rows := (source_rows config).

Lemma row_data_pnt_row (row : nat) (d : ItemData) :
  row_data row = Ok (Some d) -> pnt_row d = row.
Proof.
  unfold row_data, _extract_row_data.
  destruct (negb _); [discriminate|].
  destruct (normalize_standard _ _); [discriminate|].
  destruct (if truthy _ then _ else _); simpl; [|discriminate].
  intros [= <-]. reflexivity.
Qed.

Lemma unidentified_at_key (row : nat) (u : Unidentified) :
  In u (unidentified_at row) -> un_row u = row.
Proof.
  unfold unidentified_at. destruct (row_data row) as [[d|]|]; try intros [].
  destruct (axis d); [intros []|]. intros [<-|[]]. reflexivity.
Qed.

Lemma group_at_key (a : Z) (row : nat) (d : ItemData) :
  In d (group_at a row) -> pnt_row d = row.
Proof.
  unfold group_at. destruct (row_data row) as [[d'|]|] eqn:E; try intros [].
  destruct (axis d'); [|intros []].
  destruct (_ =? a); [|intros []]. intros [<-|[]].
  apply row_data_pnt_row. exact E.
Qed.

Lemma group_od_append (a a' : Z) (d : ItemData)
  (items_by_axis : odict Z (list ItemData)) :
  group a (od_append Z.eqb a' d items_by_axis)
  = group a items_by_axis ++ (if a' =? a then [d] else []).
Proof.
  unfold group, od_append.
  destruct (Z.eqb_spec a' a) as [->|Hne].
  - destruct (od_get Z.eqb a items_by_axis) as [xs|] eqn:E;
      rewrite (od_get_set_eq Z.eqb Z.eqb_eq); reflexivity.
  - assert (Hne' : a <> a') by congruence.
    destruct (od_get Z.eqb a' items_by_axis);
      rewrite (od_get_set_ne Z.eqb Z.eqb_eq) by exact Hne';
      rewrite app_nil_r; reflexivity.
Qed.

Lemma well_grouped_nil : well_grouped [].
Proof. split; [constructor | intros a items []]. Qed.

Lemma well_grouped_od_append (a : Z) (d : ItemData)
  (items_by_axis : odict Z (list ItemData)) :
  well_grouped items_by_axis ->
  well_grouped (od_append Z.eqb a d items_by_axis).
Proof.
  intros [Hnd Hne].
  assert (Hnd' : NoDup (map fst (od_append Z.eqb a d items_by_axis))).
  { unfold od_append. destruct (od_get Z.eqb a items_by_axis);
      apply (od_set_NoDup Z.eqb Z.eqb_eq); exact Hnd. }
  split; [exact Hnd'|].
  intros a' items Hin.
  assert (Hget : od_get Z.eqb a' (od_append Z.eqb a d items_by_axis)
                 = Some items)
    by (apply (od_get_In Z.eqb Z.eqb_eq); assumption).
  split; [|unfold group; rewrite Hget; reflexivity].
  unfold od_append in Hget.
  destruct (Z.eq_dec a' a) as [->|Hneq].
  - destruct (od_get Z.eqb a items_by_axis);
      rewrite (od_get_set_eq Z.eqb Z.eqb_eq) in Hget;
      injection Hget as <-; [|discriminate].
    intros H. apply app_eq_nil in H. destruct H as [_ H]. discriminate.
  - destruct (od_get Z.eqb a items_by_axis);
      rewrite (od_get_set_ne Z.eqb Z.eqb_eq) in Hget by exact Hneq;
      apply (od_get_In Z.eqb Z.eqb_eq) in Hget; try exact Hnd;
      exact (proj1 (Hne a' items Hget)).
Qed.

(** What the loop leaves in its two accumulators. *)
Lemma extract_items_loop_spec (rows : list nat) :
  forall items_by_axis unidentified items_by_axis' unidentified',
    extract_items_loop lower upper config ws rows items_by_axis unidentified
    = Ok (items_by_axis', unidentified') ->
    unidentified' = unidentified ++ flat_map unidentified_at rows /\
    (forall a, group a items_by_axis'
               = group a items_by_axis ++ flat_map (group_at a) rows) /\
    (well_grouped items_by_axis -> well_grouped items_by_axis').
Proof.
  induction rows as [|r rows IH]; intros iba un iba' un'.
  - simpl. intros [= <- <-]. split; [rewrite app_nil_r; reflexivity|].
    split; [intros a; rewrite app_nil_r; reflexivity | tauto].
  - cbn [extract_items_loop flat_map]. unfold unidentified_at, group_at.
    unfold row_data.
    destruct (_extract_row_data lower upper config ws r) as [[d|]|e];
      simpl; [| |discriminate].
    + destruct (axis d) as [a0|] eqn:Ea.
      * intros H. apply IH in H. destruct H as (Hun & Hgr & Hwg).
        split; [exact Hun|]. split.
        -- intros a. rewrite Hgr, group_od_append, <- app_assoc.
           reflexivity.
        -- intros Hw. apply Hwg. apply well_grouped_od_append. exact Hw.
      * intros H. apply IH in H. destruct H as (Hun & Hgr & Hwg).
        split; [rewrite Hun, <- app_assoc; reflexivity|].
        split; [exact Hgr | exact Hwg].
    + intros H. apply IH in H. exact H.
Qed.

(** The loop completes exactly when no row raises. *)
Lemma extract_items_loop_total (rows : list nat) :
  forall items_by_axis unidentified,
    (exists res,
       extract_items_loop lower upper config ws rows items_by_axis
         unidentified = Ok res) <->
    (forall r e, In r rows -> row_data r <> Raise e).
Proof.
  induction rows as [|r rows IH]; intros iba un.
  - simpl. split; [intros _ r e [] | intros _; eexists; reflexivity].
  - cbn [extract_items_loop]. unfold row_data in *.
    destruct (_extract_row_data lower upper config ws r) as [[d|]|e] eqn:E;
      simpl.
    + destruct (axis d); rewrite IH; split.
      * intros H x e [<-|Hx]; [rewrite E; discriminate | exact (H x e Hx)].
      * intros H x e Hx. apply H. right. exact Hx.
      * intros H x e [<-|Hx]; [rewrite E; discriminate | exact (H x e Hx)].
      * intros H x e Hx. apply H. right. exact Hx.
    + rewrite IH. split.
      * intros H x e [<-|Hx]; [rewrite E; discriminate | exact (H x e Hx)].
      * intros H x e Hx. apply H. right. exact Hx.
    + split; [intros [res H]; discriminate|].
      intros H. exfalso. apply (H r e (or_introl eq_refl)). exact E.
Qed.

(** The two collections partition the rows that give a record, for any
    list of distinct rows. *)
Lemma extract_items_loop_partition (rows : list nat) :
  List.NoDup rows ->
  forall items_by_axis unidentified,
    extract_items_loop lower upper config ws rows [] []
    = Ok (items_by_axis, unidentified) ->
    unidentified = flat_map unidentified_at rows /\
    (forall a, group a items_by_axis = flat_map (group_at a) rows) /\
    well_grouped items_by_axis /\
    (forall r d,
       In r rows -> row_data r = Ok (Some d) -> axis d = None ->
       List.filter (fun u => Nat.eqb (un_row u) r) unidentified
       = [ {| un_row := r; un_item := single_line d |} ] /\
       forall a d', In d' (group a items_by_axis) -> pnt_row d' <> r) /\
    (forall r d a,
       In r rows -> row_data r = Ok (Some d) -> axis d = Some a ->
       List.filter (fun d' => Nat.eqb (pnt_row d') r) (group a items_by_axis)
       = [d] /\
       (forall a' d', a' <> a -> In d' (group a' items_by_axis) ->
                      pnt_row d' <> r) /\
       forall u, In u unidentified -> un_row u <> r).
Proof.
  intros Hnd iba un Eloop.
  apply extract_items_loop_spec in Eloop.
  destruct Eloop as (Hun & Hgr & Hwg). cbn [app] in Hun.
  assert (Hgr' : forall a, group a iba = flat_map (group_at a) rows)
    by (intros a; rewrite Hgr; reflexivity).
  split; [exact Hun|]. split; [exact Hgr'|].
  split; [apply Hwg, well_grouped_nil|]. split.
  - intros r d Hr Hd Hax. split.
    + rewrite Hun.
      rewrite (filter_flat_map_key unidentified_at un_row
                 unidentified_at_key rows r Hnd Hr).
      unfold unidentified_at. rewrite Hd, Hax. reflexivity.
    + intros a d' Hd' Heq. rewrite Hgr' in Hd'.
      apply (in_flat_map_key (group_at a) pnt_row (group_at_key a)) in Hd'.
      destruct Hd' as [_ Hd']. rewrite Heq in Hd'.
      unfold group_at in Hd'. rewrite Hd, Hax in Hd'. exact Hd'.
  - intros r d a Hr Hd Hax. split; [|split].
    + rewrite Hgr'.
      rewrite (filter_flat_map_key (group_at a) pnt_row (group_at_key a)
                 rows r Hnd Hr).
      unfold group_at. rewrite Hd, Hax, Z.eqb_refl. reflexivity.
    + intros a' d' Hne Hd' Heq. rewrite Hgr' in Hd'.
      apply (in_flat_map_key (group_at a') pnt_row (group_at_key a'))
        in Hd'.
      destruct Hd' as [_ Hd']. rewrite Heq in Hd'.
      unfold group_at in Hd'. rewrite Hd, Hax in Hd'.
      destruct (Z.eqb_spec a a'); [congruence | exact Hd'].
    + intros u Hu Heq. rewrite Hun in Hu.
      apply (in_flat_map_key unidentified_at un_row unidentified_at_key)
        in Hu.
      destruct Hu as [_ Hu]. rewrite Heq in Hu.
      unfold unidentified_at in Hu. rewrite Hd, Hax in Hu. exact Hu.
Qed.

Lemma extract_all_items_loop :
  extract_all_items lower upper config ws
  = bind (extract_items_loop lower upper config ws source_rows [] [])
         (fun r => Ok (fst r, snd r,
                       clean_g2_value
                         (cell ws (fst (G2_CELL (PNT config)))
                            (snd (G2_CELL (PNT config)))))).
Proof. reflexivity. Qed.

(** C9 (amended). Whatever the configured range of rows is (on row and
    column numbers that [ws.cell] accepts), source extraction completes
    exactly when no row of the range raises, and when it completes:
    - the unidentified list holds, in row order, one entry for every row
      that gives a record (truthy item cell, non-empty key) without an
      axis, and nothing else;
    - the group of each axis holds, in row order, the record of every
      row that gives a record with that axis, and nothing else; the keys
      of the groups are distinct and no group is empty;
    - so a row without axis occurs exactly once in the unidentified list
      and in no group, and a row with an axis occurs exactly once in the
      group of its axis, in no other group and not in the unidentified
      list. *)
Theorem extract_all_items_partition :
  valid_source_config config ->
  ((exists res, extract_all_items lower upper config ws = Ok res) <->
   (forall r e, In r source_rows -> row_data r <> Raise e))
  /\
  forall items_by_axis unidentified g2_value,
    extract_all_items lower upper config ws
    = Ok (items_by_axis, unidentified, g2_value) ->
    unidentified = flat_map unidentified_at source_rows /\
    (forall a, group a items_by_axis = flat_map (group_at a) source_rows) /\
    well_grouped items_by_axis /\
    (forall r d,
       In r source_rows -> row_data r = Ok (Some d) -> axis d = None ->
       List.filter (fun u => Nat.eqb (un_row u) r) unidentified
       = [ {| un_row := r; un_item := single_line d |} ] /\
       forall a d', In d' (group a items_by_axis) -> pnt_row d' <> r) /\
    (forall r d a,
       In r source_rows -> row_data r = Ok (Some d) -> axis d = Some a ->
       List.filter (fun d' => Nat.eqb (pnt_row d') r) (group a items_by_axis)
       = [d] /\
       (forall a' d', a' <> a -> In d' (group a' items_by_axis) ->
                      pnt_row d' <> r) /\
       forall u, In u unidentified -> un_row u <> r).
Proof.
  intros _. rewrite extract_all_items_loop.
  assert (Hnd : List.NoDup source_rows) by apply List.seq_NoDup.
  pose proof (extract_items_loop_total source_rows [] []) as Htotal.
  pose proof (extract_items_loop_partition source_rows Hnd) as Hpart.
  generalize dependent source_rows. intros rows _ Htotal Hpart.
  destruct (extract_items_loop lower upper config ws rows [] [])
    as [[iba0 un0]|e]; simpl.
  - split.
    + rewrite <- Htotal. split; intros _; eexists; reflexivity.
    + intros iba un g2 [= <- <- _]. apply Hpart. reflexivity.
  - split; [|intros iba un g2 H; discriminate].
    rewrite <- Htotal. split; intros [res H]; discriminate.
Qed.

End Quarantine.

(* ===================================================================== *)
(** ** UpdatePlanner: properties                                          *)
(* ===================================================================== *)

Lemma last_level5_loop_in (config : PMSConfig) (ws : Worksheet)
  (section_level : Z) (rows : list nat) :
  forall last_level5 x,
    last_level5_loop config ws section_level rows last_level5 = Some x ->
    last_level5 = Some x \/ In x rows.
Proof.
  induction rows as [|r rows IH]; intros acc x; simpl; [tauto|].
  destruct (_ <=? section_level); [tauto|].
  destruct (_ =? TARGET_LEVEL (Hierarchy config)); intros H;
    apply IH in H.
  - destruct H as [[= <-]|H]; right; [left; reflexivity | right; exact H].
  - destruct H as [H|H]; [left; exact H | right; right; exact H].
Qed.

Lemma first_match_anchor_in (config : PMSConfig) (ws : Worksheet)
  (rest : list (Z * str)) :
  forall c rows r,
    first_match_anchor config ws c rest rows = Some r -> In r rows.
Proof.
  induction rest as [|c' rest IH]; intros c rows r;
    cbn [first_match_anchor];
    destruct (skip_to (row_matches config ws c) rows) as [|r0 after] eqn:Es;
    try discriminate;
    destruct (skip_to_spec _ _ _ _ Es) as (before & -> & _ & _).
  - intros [= <-]. apply List.in_or_app. right. left. reflexivity.
  - intros H. apply IH in H. apply List.in_or_app. right. right. exact H.
Qed.

(** The search for the last leaf never raises, and a row it returns is a
    row of the sheet below the anchor (so never row 0). *)
Lemma find_last_level5_total (config : PMSConfig) (ws : Worksheet)
  (mohor_num : Z) :
  exists o, find_last_level5_in_section config ws mohor_num = Ok o /\
            forall row, o = Some row -> (2 <= row <= max_row ws)%nat.
Proof.
  unfold find_last_level5_in_section, get_search_path.
  rewrite find_parent_section_resolves.
  destruct (first_match_anchor _ _ _ _ _) as [r|] eqn:Ea; simpl.
  - eexists. split; [reflexivity|]. intros row Hrow.
    apply last_level5_loop_in in Hrow. destruct Hrow as [|Hin];
      [discriminate|].
    apply first_match_anchor_in in Ea.
    unfold row_range in Hin, Ea.
    apply List.in_seq in Hin. apply List.in_seq in Ea. lia.
  - eexists. split; [reflexivity|]. intros row H. discriminate.
Qed.

Section Planner.

Variable config : PMSConfig.
Variable ws : Worksheet.

Lemma create_existing_update_fields (mohor_name : str) (pnt_data : ItemData)
  (locations : list Location) (g2_value : PyVal) :
  exists update warning,
    _create_existing_update mohor_name pnt_data locations g2_value
    = Existing update warning /\
    common_fields mohor_name pnt_data g2_value update /\
    update !! "item_text"%string
    = Some (FVal (VStr (single_line pnt_data))) /\
    update !! "existing_rows"%string = Some (FRows (map loc_row locations)) /\
    update !! "is_new_item"%string = Some (FVal (VBool false)) /\
    update !! "g_value"%string = None.
Proof.
  unfold _create_existing_update, common_fields.
  destruct (_ <? _); do 2 eexists; (split; [reflexivity|]);
    repeat split; reflexivity.
Qed.

Lemma create_new_update_outcome (mohor_name : str) (mohor_num : Z)
  (pnt_data : ItemData) (g2_value : PyVal) :
  exists res,
    _create_new_update config ws mohor_name mohor_num pnt_data g2_value
    = Ok res /\
    match find_last_level5_in_section config ws mohor_num with
    | Ok (Some row) =>
        exists update,
          res = New update /\
          common_fields mohor_name pnt_data g2_value update /\
          update !! "item_text"%string
          = Some (FVal (VStr (new_mark ++ single_line pnt_data))) /\
          update !! "existing_rows"%string = Some (FRows [row]) /\
          update !! "is_new_item"%string = Some (FVal (VBool true)) /\
          update !! "g_value"%string = Some (FVal (m_value pnt_data))
    | _ =>
        res = Not_found {| nf_item := single_line pnt_data;
                           nf_mohor := mohor_name;
                           nf_reason := reason_not_found |}
    end.
Proof.
  unfold _create_new_update.
  destruct (find_last_level5_total config ws mohor_num) as (o & Ho & Hrow).
  rewrite Ho. cbn [bind]. destruct o as [row|].
  - assert (Hpos : Nat.eqb row 0 = false).
    { apply Nat.eqb_neq. specialize (Hrow row eq_refl). lia. }
    unfold truthy_row. rewrite Hpos. cbn [negb].
    eexists. split; [reflexivity|].
    eexists. split; [reflexivity|]. unfold common_fields.
    repeat split; reflexivity.
  - eexists. split; reflexivity.
Qed.

(** Matching one source item of axis [mohor_num], named [mohor_name],
    never raises and gives exactly one of three outcomes:
    - Existing, when the index holds under the item's key at least one
      location whose axis name is [mohor_name]; the target rows are the
      rows of those locations in index order;
    - otherwise New, when [find_last_level5_in_section] returns a row:
      anchored at that row, with the same text, date and numeric values
      an Existing update carries and one more field, [g_value], set from
      the auxiliary value;
    - otherwise Unresolvable, with the item, the axis name and the reason.
    A location under another axis name is no candidate, so when every
    location of the key lies under another axis the outcome is not
    Existing. *)
Lemma match_item_cases (mohor_name : str) (mohor_num : Z)
  (pnt_data : ItemData) (item_locations : gmap str (list Location))
  (g2_value : PyVal) :
  let found := candidates mohor_name pnt_data item_locations in
  exists res,
    _match_item config ws mohor_name mohor_num pnt_data item_locations
      g2_value = Ok res /\
    Forall (fun loc => loc_mohor loc = mohor_name) found /\
    (forall loc,
       In loc (default [] (item_locations !! normalized pnt_data)) ->
       loc_mohor loc = mohor_name -> In loc found) /\
    match found with
    | _ :: _ =>
        exists update warning,
          res = Existing update warning /\
          common_fields mohor_name pnt_data g2_value update /\
          update !! "existing_rows"%string = Some (FRows (map loc_row found))
          /\ update !! "g_value"%string = None
    | [] =>
        match find_last_level5_in_section config ws mohor_num with
        | Ok (Some row) =>
            exists update,
              res = New update /\
              common_fields mohor_name pnt_data g2_value update /\
              update !! "existing_rows"%string = Some (FRows [row]) /\
              update !! "g_value"%string = Some (FVal (m_value pnt_data))
        | _ =>
            res = Not_found {| nf_item := single_line pnt_data;
                               nf_mohor := mohor_name;
                               nf_reason := reason_not_found |}
        end
    end.
Proof.
  intros found. subst found. unfold candidates, _match_item.
  assert (Hfilter : forall locs,
    Forall (fun loc => loc_mohor loc = mohor_name)
      (mohor_locations_of mohor_name locs) /\
    (forall loc, In loc locs -> loc_mohor loc = mohor_name ->
                 In loc (mohor_locations_of mohor_name locs))).
  { intros locs. unfold mohor_locations_of. split.
    - apply List.Forall_forall. intros loc Hloc.
      apply List.filter_In in Hloc. destruct Hloc as [_ Hb].
      apply bool_decide_eq_true in Hb. exact Hb.
    - intros loc Hin Hm. apply List.filter_In. split; [exact Hin|].
      apply bool_decide_eq_true. exact Hm. }
  assert (Hnew :
    exists res,
      _create_new_update config ws mohor_name mohor_num pnt_data g2_value
      = Ok res /\
      match find_last_level5_in_section config ws mohor_num with
      | Ok (Some row) =>
          exists update,
            res = New update /\
            common_fields mohor_name pnt_data g2_value update /\
            update !! "existing_rows"%string = Some (FRows [row]) /\
            update !! "g_value"%string = Some (FVal (m_value pnt_data))
      | _ =>
          res = Not_found {| nf_item := single_line pnt_data;
                             nf_mohor := mohor_name;
                             nf_reason := reason_not_found |}
      end).
  { destruct (create_new_update_outcome mohor_name mohor_num pnt_data
                g2_value) as (res & Hres & Hcase).
    exists res. split; [exact Hres|].
    destruct (find_last_level5_in_section config ws mohor_num)
      as [[row|]|e]; try exact Hcase.
    destruct Hcase as (u & Hu & Hc & _ & Hrows & _ & Hg).
    exists u. split; [exact Hu|]. split; [exact Hc|]. split; assumption. }
  destruct (item_locations !! normalized pnt_data) as [locs|] eqn:Elook;
    simpl.
  - destruct (Hfilter locs) as [Hall Hin].
    destruct (mohor_locations_of mohor_name locs) as [|loc found] eqn:Ef.
    + destruct Hnew as (res & Hres & Hcase).
      exists res. split; [exact Hres|]. split; [exact Hall|].
      split; [exact Hin | exact Hcase].
    + destruct (create_existing_update_fields mohor_name pnt_data
                  (loc :: found) g2_value)
        as (u & w & Hu & Hc & _ & Hrows & _ & Hg).
      eexists. split; [reflexivity|]. split; [exact Hall|].
      split; [exact Hin|]. exists u, w.
      split; [exact Hu|]. split; [exact Hc|]. split; assumption.
  - destruct Hnew as (res & Hres & Hcase).
    exists res. split; [exact Hres|]. split; [constructor|].
    split; [intros loc []|]. exact Hcase.
Qed.

(** C7. An Existing outcome carries all its field values whether or not
    rows are missing, and a deficit warning with the needed quantity, the
    number of available rows and deficit = max(0, needed - available) is
    emitted exactly when fewer rows are available than needed. *)
Theorem create_existing_update_deficit (mohor_name : str)
  (pnt_data : ItemData) (locations : list Location) (g2_value : PyVal) :
  let needed := quantity pnt_data in
  let available := Z.of_nat (length locations) in
  exists update warning,
    _create_existing_update mohor_name pnt_data locations g2_value
    = Existing update warning /\
    update = <["mohor" := FVal (VStr mohor_name)]>
             (<["item_text" := FVal (VStr (single_line pnt_data))]>
             (<["existing_rows" := FRows (map loc_row locations)]>
             (<["needed_quantity" := FVal (VInt needed)]>
             (<["a_value" := FVal (VStr (single_line pnt_data))]>
             (<["e_value" := FVal g2_value]>
             (<["n_value" := FVal (m_value pnt_data)]>
             (<["is_new_item" := FVal (VBool false)]> ∅))))))) /\
    (is_Some warning <-> available < needed) /\
    (forall w, warning = Some w ->
       w_item w = single_line pnt_data /\ w_mohor w = mohor_name /\
       w_needed w = needed /\ w_available w = available /\
       w_deficit w = Z.max 0 (needed - available) /\ 0 < w_deficit w) /\
    (warning = None -> Z.max 0 (needed - available) = 0).
Proof.
  intros needed available. subst needed available.
  unfold _create_existing_update.
  destruct (Z.ltb_spec (Z.of_nat (length locations)) (quantity pnt_data))
    as [Hlt|Hge].
  - do 2 eexists. split; [reflexivity|]. split; [reflexivity|].
    split; [split; [intros _; exact Hlt | intros _; eexists; reflexivity]|].
    split; [|discriminate].
    intros w [= <-]. simpl. repeat split; lia.
  - do 2 eexists. split; [reflexivity|]. split; [reflexivity|].
    split; [split; [intros [w H]; discriminate | lia]|].
    split; [intros w H; discriminate | intros _; lia].
Qed.

End Planner.

(** The deficit of the specification's example: three rows needed, rows 5
    and 9 available. *)
Example create_existing_update_deficit_example :
  let item := {| pnt_row := 7; quantity := 3; m_value := VInt 12;
                 original := lit "Primer Coat";
                 single_line := lit "Primer Coat";
                 normalized := lit "primercoat"; axis := Some 19 |} in
  let loc r := {| loc_mohor := mohor_name_of 19; loc_row := r;
                  loc_level := 5; loc_original_text := lit "Primer Coat" |} in
  exists update w,
    _create_existing_update (mohor_name_of 19) item [loc 5%nat; loc 9%nat]
      (VStr (lit "G2"))
    = Existing update (Some w) /\
    update !! "existing_rows"%string = Some (FRows [5%nat; 9%nat]) /\
    w_needed w = 3 /\ w_available w = 2 /\ w_deficit w = 1.
Proof. cbv zeta. do 2 eexists. repeat split; reflexivity. Qed.

(* ===================================================================== *)
(** ** The update plan and the fields its consumer reads                  *)
(* ===================================================================== *)

Section PlanProperties.

Variable config : PMSConfig.
Variable ws : Worksheet.






End PlanProperties.

(* ===================================================================== *)
(** ** Source sheets: examples                                            *)
(* ===================================================================== *)

(** On the default range the axis of [s_then_axis] is 20: the AXIS token
    of the second column wins over the S token of the first. *)
Lemma extract_from_row_axis_first_example :
  ~ in_axis_range default_config 0 /\
  extract_from_row ascii_upper default_config s_then_axis 7 = Some 20 /\
  _search_pattern ascii_upper default_config s_then_axis 7 (lit "S")
  = Some 19.
Proof.
  assert (H0 : ~ in_axis_range default_config 0)
    by (unfold in_axis_range; simpl; lia).
  split; [exact H0|]. split.
  - destruct (extract_from_row_axis_first ascii_upper default_config
                s_then_axis 7 H0) as (Haxis & _).
    apply Haxis. vm_compute. reflexivity.
  - vm_compute. reflexivity.
Defined.

(** C6. When the index holds no candidate for an item, the planner does
    not anchor the item at the last leaf of its axis's section: it takes
    what [find_last_level5_in_section] returns, and that walk does not
    skip the rows whose text cell is empty as the enumeration of the
    leaves does.  On [blank_separator_row] the section of axis 19 has the
    leaves of rows 5 and 6, the index of the sheet holds no candidate for
    "Finish Coat", and the item is reported as not found instead of New
    at row 6.  On [blank_leaf_row] the last leaf is row 4 and the item is
    New at row 5, the empty row. *)
Theorem match_item_blank_rows :
  (exists item_locations,
     structure_extract_all_items ascii_lower default_config
       blank_separator_row = Ok item_locations /\
     candidates (mohor_name_of 19) finish_coat item_locations = [] /\
     bind (find_items default_config blank_separator_row
             (get_search_path (Hierarchy default_config) 19) 5)
          (fun items => Ok (last_row items))
     = Ok (Some 6%nat) /\
     _match_item default_config blank_separator_row (mohor_name_of 19) 19
       finish_coat item_locations (VStr [])
     = Ok (Not_found {| nf_item := lit "Finish Coat";
                        nf_mohor := mohor_name_of 19;
                        nf_reason := reason_not_found |}))
  /\
  (exists item_locations update,
     structure_extract_all_items ascii_lower default_config
       blank_leaf_row = Ok item_locations /\
     candidates (mohor_name_of 19) finish_coat item_locations = [] /\
     bind (find_items default_config blank_leaf_row
             (get_search_path (Hierarchy default_config) 19) 5)
          (fun items => Ok (last_row items))
     = Ok (Some 4%nat) /\
     _match_item default_config blank_leaf_row (mohor_name_of 19) 19
       finish_coat item_locations (VStr [])
     = Ok (New update) /\
     update !! "existing_rows"%string = Some (FRows [5%nat])).
Proof.
  split.
  - eexists. split; [vm_compute; reflexivity|].
    split; [vm_compute; reflexivity|].
    split; vm_compute; reflexivity.
  - do 2 eexists. split; [vm_compute; reflexivity|].
    split; [vm_compute; reflexivity|].
    split; [vm_compute; reflexivity|].
    split; [vm_compute; reflexivity|]. reflexivity.
Qed.

(** C5. With 0 in the configured range, a row that holds the AXIS token of
    axis 0 is not given axis 0: the AXIS pass finds 0, the test [if mohor:]
    takes it for no match, and the S pass returns axis 7 from the S token
    of an earlier column. *)
Theorem extract_from_row_axis_zero :
  in_axis_range config_from_zero 0 /\
  has_token ascii_upper s_then_axis_zero 7 (lit "AXIS") 4 0 /\
  _search_pattern ascii_upper config_from_zero s_then_axis_zero 7
    (lit "AXIS") = Some 0 /\
  _search_pattern ascii_upper config_from_zero s_then_axis_zero 7
    (lit "S") = Some 7 /\
  extract_from_row ascii_upper config_from_zero s_then_axis_zero 7 = Some 7.
Proof.
  split; [unfold in_axis_range; simpl; lia|].
  split; [split; vm_compute; reflexivity|].
  repeat split; vm_compute; reflexivity.
Qed.

(** C4, counterexample. The quantity cell of row 7 holds the text "abc":
    reading the row raises [ValueError], so no record with quantity 0 is
    produced, and the whole extraction raises. *)
Lemma extract_row_data_quantity_counterexample :
  cell text_quantity 7 (QUANTITY_COL (PNT default_config)) = VStr (lit "abc")
  /\
  _extract_row_data ascii_lower ascii_upper default_config text_quantity 7
  = Raise ValueError /\
  extract_all_items ascii_lower ascii_upper default_config text_quantity
  = Raise ValueError /\
  ~ exists d,
      _extract_row_data ascii_lower ascii_upper default_config
        text_quantity 7 = Ok (Some d) /\ quantity d = 0.
Proof.
  split; [reflexivity|].
  assert (H : _extract_row_data ascii_lower ascii_upper default_config
                text_quantity 7 = Raise ValueError)
    by (vm_compute; reflexivity).
  split; [exact H|]. split; [vm_compute; reflexivity|].
  intros (d & Hd & _). rewrite H in Hd. discriminate.
Qed.

(** The range of rows is the configured one: with the range set to row 8
    alone, row 7 of [axis_out_of_range] is not read and nothing is
    unidentified. *)
Example extract_all_items_row_8 :
  exists item,
    extract_all_items ascii_lower ascii_upper config_row_8 axis_out_of_range
    = Ok ([(19, [item])], [], []) /\
    pnt_row item = 8%nat.
Proof.
  eexists. split; [vm_compute; reflexivity | reflexivity].
Qed.

(** Quantity cells that hold no integer: the float 2.7 gives 2, a date
    raises [TypeError], and the text "12" in fullwidth digits gives 12. *)
Example extract_row_data_other_quantities :
  (exists d,
     _extract_row_data ascii_lower ascii_upper default_config
       other_quantities 7 = Ok (Some d) /\ quantity d = 2) /\
  _extract_row_data ascii_lower ascii_upper default_config
    other_quantities 8 = Raise TypeError /\
  (exists d,
     _extract_row_data ascii_lower ascii_upper default_config
       other_quantities 9 = Ok (Some d) /\ quantity d = 12).
Proof.
  split; [eexists; split; vm_compute; reflexivity|].
  split; [vm_compute; reflexivity|].
  eexists. split; vm_compute; reflexivity.
Qed.

(** C9, counterexample. The item cell of row 7 holds three blanks: the
    text is not empty and no axis is found, yet the row is dropped and the
    unidentified list stays empty. *)
Lemma extract_all_items_partition_counterexample :
  cell blank_item 7 (ITEM_COL (PNT default_config)) = VStr (lit "   ") /\
  extract_from_row ascii_upper default_config blank_item 7 = None /\
  extract_all_items ascii_lower ascii_upper default_config blank_item
  = Ok ([], [], []) /\
  ~ exists items_by_axis unidentified g2 u,
      extract_all_items ascii_lower ascii_upper default_config blank_item
      = Ok (items_by_axis, unidentified, g2) /\
      In u unidentified /\ un_row u = 7%nat.
Proof.
  split; [reflexivity|]. split; [vm_compute; reflexivity|].
  assert (H : extract_all_items ascii_lower ascii_upper default_config
                blank_item = Ok ([], [], []))
    by (vm_compute; reflexivity).
  split; [exact H|].
  intros (iba & un & g2 & u & Hex & Hin & _). rewrite H in Hex.
  injection Hex as <- <- <-. destruct Hin.
Qed.

(** The row of axis 50, outside the range 19 to 45, lands in the
    unidentified list; the row of axis 19 lands in the group of 19. *)
Example extract_all_items_axis_50 :
  exists item,
    extract_all_items ascii_lower ascii_upper default_config
      axis_out_of_range
    = Ok ([(19, [item])],
          [ {| un_row := 7; un_item := lit "AXIS 50 Tie Coat" |} ], [])
    /\ pnt_row item = 8%nat /\ quantity item = 3 /\ m_value item = VInt 12
    /\ axis item = Some 19
    /\ normalized item = lit "axis19primercoat".
Proof.
  eexists. split; [vm_compute; reflexivity|].
  split; [reflexivity|]. split; [reflexivity|]. split; [reflexivity|].
  split; reflexivity.
Qed.

(* ===================================================================== *)
(** ** The scenarios of the specification, end to end                     *)
(* ===================================================================== *)

Example scenario_existing_and_new :
  exists existing new w,
    run_planning ascii_lower ascii_upper default_config
      scenario_target scenario_source
    = Ok ({| updates := [existing; new]; not_found := [];
             warnings := [w] |}, []) /\
    existing !! "existing_rows"%string = Some (FRows [40%nat; 41%nat]) /\
    existing !! "is_new_item"%string = Some (FVal (VBool false)) /\
    existing !! "g_value"%string = None /\
    w_needed w = 3 /\ w_available w = 2 /\ w_deficit w = 1 /\
    new !! "existing_rows"%string = Some (FRows [41%nat]) /\
    new !! "needed_quantity"%string = Some (FVal (VInt 1)) /\
    new !! "is_new_item"%string = Some (FVal (VBool true)) /\
    new !! "g_value"%string = Some (FVal (VInt 8)).
Proof.
  do 3 eexists. split; [vm_compute; reflexivity|].
  repeat (split; [reflexivity|]). reflexivity.
Qed.

(* ===================================================================== *)
(** ** The theorems at work on the example sheets                         *)
(* ===================================================================== *)

(** On the sheet with two sections of axis 19, the anchor of the level-1
    constraint is row 1, a row that matches it. *)
Lemma find_parent_section_first_match_witness :
  _find_parent_section default_config two_sections [(1, mohor_name_of 19)]
  = Ok (Some 1%nat, Some 2%nat) /\
  row_matches default_config two_sections (1, mohor_name_of 19) 1 = true.
Proof.
  assert (H : _find_parent_section default_config two_sections
                [(1, mohor_name_of 19)] = Ok (Some 1%nat, Some 2%nat))
    by (vm_compute; reflexivity).
  split; [exact H|].
  destruct (find_parent_section_first_match default_config two_sections
              (1, mohor_name_of 19) []) as [_ Hfirst].
  destruct (Hfirst 1%nat H) as (_ & Hmatch & _). exact Hmatch.
Defined.

(** Below the anchor at row 3 the leaves are rows 4 and 7: the empty row 5
    and the sub-section row 6 are passed over, the level-3 row 8 ends the
    section and the leaf at row 9 is not reached. *)
Lemma extract_target_items_span_witness :
  is_boundary default_config span_sheet 4 8 = true /\
  map fi_row (_extract_target_items default_config span_sheet 3 4 5)
  = [4%nat; 7%nat].
Proof.
  split; [vm_compute; reflexivity|].
  destruct (extract_target_items_span default_config span_sheet 3 4 5)
    as [Heq _].
  rewrite Heq. vm_compute. reflexivity.
Defined.

(** Row 8 of the sheet [axis_out_of_range] holds the integer 3 in its
    quantity cell: it is kept, its quantity is 3 and its auxiliary value
    is the integer 12 of its cell. *)
Lemma extract_row_data_quantity_witness :
  valid_source_config default_config /\
  exists d,
    _extract_row_data ascii_lower ascii_upper default_config
      axis_out_of_range 8 = Ok (Some d) /\
    quantity d = 3 /\ m_value d = VInt 12.
Proof.
  assert (Hvalid : valid_source_config default_config)
    by (unfold valid_source_config; simpl; repeat split; try lia;
        repeat constructor; lia).
  split; [exact Hvalid|].
  destruct (extract_row_data_quantity ascii_lower ascii_upper default_config
              axis_out_of_range 8 Hvalid) as (_ & Hvalues & _ & Htotal);
    [lia|].
  destruct Htotal as [d Hd].
  - split; [reflexivity | vm_compute; discriminate].
  - intros e Hrej. vm_compute in Hrej. exact Hrej.
  - exists d. split; [exact Hd|].
    destruct (Hvalues d Hd) as (Hm & _ & Hint & _).
    split; [apply Hint; reflexivity | exact Hm].
Defined.

(** On the sheet [axis_out_of_range] the extraction completes; row 7, of
    axis 50, occurs once in the unidentified list. *)
Lemma extract_all_items_partition_witness :
  exists items_by_axis unidentified g2_value,
    extract_all_items ascii_lower ascii_upper default_config
      axis_out_of_range = Ok (items_by_axis, unidentified, g2_value) /\
    List.filter (fun u => Nat.eqb (un_row u) 7) unidentified
    = [ {| un_row := 7; un_item := lit "AXIS 50 Tie Coat" |} ].
Proof.
  destruct (extract_all_items ascii_lower ascii_upper default_config
              axis_out_of_range) as [[[iba un] g2]|e] eqn:E;
    [|vm_compute in E; discriminate].
  exists iba, un, g2. split; [reflexivity|].
  assert (Hvalid : valid_source_config default_config)
    by (unfold valid_source_config; simpl; repeat split; try lia;
        repeat constructor; lia).
  destruct (extract_all_items_partition ascii_lower ascii_upper
              default_config axis_out_of_range Hvalid) as [_ Hpart].
  destruct (Hpart iba un g2 E) as (_ & _ & _ & Hnone & _).
  refine (proj1 (Hnone 7%nat
    {| pnt_row := 7; quantity := 1; m_value := VNone;
       original := lit "AXIS 50 Tie Coat";
       single_line := lit "AXIS 50 Tie Coat";
       normalized := lit "axis50tiecoat"; axis := None |} _ _ _)).
  - vm_compute. tauto.
  - vm_compute. reflexivity.
  - reflexivity.
Defined.
(* ===================================================================== *)
(** ** Text: splitting on white space and joining                         *)
(* ===================================================================== *)

Lemma spaceless_nil : spaceless [].
Proof. constructor. Qed.

Lemma spaceless_app (a b : str) :
  spaceless a -> spaceless b -> spaceless (a ++ b).
Proof. unfold spaceless. intros Ha Hb. apply Forall_app. split; assumption. Qed.

Lemma spaceless_cons_inv (c : N) (s : str) :
  spaceless (c :: s) -> isspace c = false /\ spaceless s.
Proof. unfold spaceless. intros H. apply Forall_cons in H. exact H. Qed.

Lemma split_from_words (s : str) :
  forall cur, spaceless cur -> Forall word (split_from s cur).
Proof.
  induction s as [|c s IH]; intros cur Hcur; simpl.
  - destruct cur as [|x cur]; [constructor|].
    constructor; [|constructor]. split.
    + intros H. apply (f_equal (@length N)) in H.
      rewrite length_rev in H. discriminate.
    + apply spaceless_rev. exact Hcur.
  - destruct (isspace c) eqn:Ec.
    + destruct cur as [|x cur]; [apply IH; constructor|].
      constructor; [|apply IH; constructor]. split.
      * intros H. apply (f_equal (@length N)) in H.
        rewrite length_rev in H. discriminate.
      * apply spaceless_rev. exact Hcur.
    + apply IH. constructor; assumption.
Qed.

Lemma split_from_word (p : str) :
  spaceless p ->
  forall s cur, split_from (p ++ s) cur = split_from s (rev p ++ cur).
Proof.
  induction p as [|c p IH]; intros Hp s cur; [reflexivity|].
  apply spaceless_cons_inv in Hp. destruct Hp as [Hc Hp].
  simpl. rewrite Hc. rewrite (IH Hp). rewrite <- app_assoc. reflexivity.
Qed.

Lemma join_cons (sep p q : str) (parts : list str) :
  join sep (p :: q :: parts) = p ++ sep ++ join sep (q :: parts).
Proof. reflexivity. Qed.

Lemma split_from_blank (s cur : str) (x : N) :
  split_from (lit " " ++ s) (x :: cur)
  = rev (x :: cur) :: split_from s [].
Proof. reflexivity. Qed.

(** Splitting a join of words gives the words back. *)
Lemma split_join (parts : list str) :
  Forall word parts -> split (join (lit " ") parts) = parts.
Proof.
  unfold split. induction 1 as [|p parts [Hne Hp] Hparts IH];
    [reflexivity|].
  destruct parts as [|q parts].
  - simpl. rewrite <- (app_nil_r p) at 1.
    rewrite (split_from_word p Hp). simpl. rewrite app_nil_r.
    destruct (rev p) eqn:Er.
    + apply (f_equal (@length N)) in Er. rewrite length_rev in Er.
      destruct p; [contradiction | discriminate].
    + rewrite <- Er, rev_involutive. reflexivity.
  - rewrite join_cons, (split_from_word p Hp), app_nil_r.
    destruct (rev p) eqn:Er.
    + apply (f_equal (@length N)) in Er. rewrite length_rev in Er.
      destruct p; [contradiction | discriminate].
    + rewrite split_from_blank, <- Er, rev_involutive. f_equal. exact IH.
Qed.

Lemma remove_spaces_app (a b : str) :
  remove_spaces (a ++ b) = remove_spaces a ++ remove_spaces b.
Proof. apply List.filter_app. Qed.

Lemma concat_split_from (s : str) :
  forall cur, spaceless cur ->
    concat (split_from s cur) = rev cur ++ remove_spaces s.
Proof.
  induction s as [|c s IH]; intros cur Hcur; simpl.
  - destruct cur; simpl; rewrite ?app_nil_r; reflexivity.
  - destruct (isspace c) eqn:Ec; simpl.
    + destruct cur as [|x cur]; simpl.
      * apply (IH [] spaceless_nil).
      * rewrite (IH [] spaceless_nil). reflexivity.
    + rewrite IH by (constructor; assumption).
      simpl. rewrite <- app_assoc. reflexivity.
Qed.

Lemma remove_spaces_join (parts : list str) :
  remove_spaces (join (lit " ") parts) = remove_spaces (concat parts).
Proof.
  induction parts as [|p parts IH]; [reflexivity|].
  destruct parts as [|q parts].
  - simpl. rewrite app_nil_r. reflexivity.
  - rewrite join_cons.
    change (concat (p :: q :: parts)) with (p ++ concat (q :: parts)).
    rewrite !remove_spaces_app, IH. reflexivity.
Qed.

(** Collapsing white space does not change what is left when all white
    space is removed. *)
Lemma remove_spaces_join_split (s : str) :
  remove_spaces (join (lit " ") (split s)) = remove_spaces s.
Proof.
  rewrite remove_spaces_join. unfold split.
  rewrite (concat_split_from s [] spaceless_nil). simpl.
  apply remove_spaces_id. apply remove_spaces_spaceless.
Qed.

Lemma remove_spaces_lstrip (s : str) :
  remove_spaces (lstrip s) = remove_spaces s.
Proof.
  induction s as [|c s IH]; [reflexivity|]. simpl.
  destruct (isspace c) eqn:Ec; simpl; [exact IH|].
  rewrite Ec. reflexivity.
Qed.

Lemma remove_spaces_rev (s : str) :
  remove_spaces (rev s) = rev (remove_spaces s).
Proof.
  induction s as [|c s IH]; [reflexivity|]. simpl.
  rewrite remove_spaces_app, IH. simpl.
  destruct (isspace c); simpl; [apply app_nil_r | reflexivity].
Qed.

Lemma remove_spaces_strip (s : str) :
  remove_spaces (strip s) = remove_spaces s.
Proof.
  unfold strip, rstrip.
  rewrite remove_spaces_rev, remove_spaces_lstrip, remove_spaces_rev.
  rewrite rev_involutive. apply remove_spaces_lstrip.
Qed.

Lemma remove_spaces_replace (old : N) (new s : str) :
  isspace old = true -> remove_spaces new = [] ->
  remove_spaces (replace old new s) = remove_spaces s.
Proof.
  intros Hold Hnew. induction s as [|c s IH]; [reflexivity|].
  simpl. rewrite remove_spaces_app, IH.
  destruct (N.eqb_spec c old) as [->|Hne].
  - rewrite Hnew, Hold. reflexivity.
  - simpl. destruct (isspace c); reflexivity.
Qed.

Lemma replace_absent (old : N) (new s : str) :
  ~ In old s -> replace old new s = s.
Proof.
  induction s as [|c s IH]; intros H; [reflexivity|]. simpl.
  destruct (N.eqb_spec c old) as [->|Hne].
  - exfalso. apply H. left. reflexivity.
  - simpl. f_equal. apply IH. intros Hin. apply H. right. exact Hin.
Qed.

Lemma join_In (parts : list str) (c : N) :
  In c (join (lit " ") parts) ->
  c = 32%N \/ exists p, In p parts /\ In c p.
Proof.
  induction parts as [|p parts IH]; [intros []|].
  destruct parts as [|q parts].
  - simpl. intros H. right. exists p. split; [left; reflexivity | exact H].
  - rewrite join_cons. intros H. apply List.in_app_or in H.
    destruct H as [H|H].
    + right. exists p. split; [left; reflexivity | exact H].
    + apply List.in_app_or in H. destruct H as [[<-|[]]|H];
        [left; reflexivity|].
      destruct (IH H) as [->|(p' & Hp' & Hc)]; [left; reflexivity|].
      right. exists p'. split; [right; exact Hp' | exact Hc].
Qed.

(** The white space of a single-spaced text is made of ASCII blanks. *)
Lemma single_spaced_spaces (s : str) (c : N) :
  single_spaced s -> In c s -> isspace c = true -> c = 32%N.
Proof.
  intros (parts & Hparts & ->) Hc Hs.
  destruct (join_In parts c Hc) as [->|(p & Hp & Hcp)]; [reflexivity|].
  rewrite List.Forall_forall in Hparts.
  destruct (Hparts p Hp) as [_ Hsp].
  unfold spaceless in Hsp. rewrite List.Forall_forall in Hsp.
  rewrite (Hsp c Hcp) in Hs. discriminate.
Qed.

Lemma lstrip_join (parts : list str) :
  Forall word parts -> lstrip (join (lit " ") parts) = join (lit " ") parts.
Proof.
  destruct 1 as [|p parts [Hne Hp] _]; [reflexivity|].
  destruct p as [|c p]; [contradiction|].
  apply spaceless_cons_inv in Hp. destruct Hp as [Hc _].
  destruct parts; simpl; rewrite Hc; reflexivity.
Qed.

Lemma join_snoc (parts : list str) (p q : str) :
  join (lit " ") ((p :: parts) ++ [q])
  = join (lit " ") (p :: parts) ++ lit " " ++ q.
Proof.
  revert p. induction parts as [|r parts IH]; intros p; [reflexivity|].
  change (join (lit " ") ((p :: r :: parts) ++ [q]))
    with (p ++ lit " " ++ join (lit " ") ((r :: parts) ++ [q])).
  rewrite IH, join_cons. rewrite <- !app_assoc. reflexivity.
Qed.

Lemma rev_join (parts : list str) :
  rev (join (lit " ") parts) = join (lit " ") (rev (map (@rev N) parts)).
Proof.
  induction parts as [|p parts IH]; [reflexivity|].
  destruct parts as [|q parts]; [reflexivity|].
  rewrite join_cons, !rev_app_distr, IH.
  cbn [map rev].
  destruct (rev (map (@rev N) parts) ++ [rev q]) as [|x l] eqn:E.
  - destruct (rev (map (@rev N) parts)); discriminate.
  - rewrite join_snoc. rewrite <- app_assoc. reflexivity.
Qed.

(** Stripping leaves a single-spaced text as it is. *)
Lemma strip_single_spaced (s : str) : single_spaced s -> strip s = s.
Proof.
  intros (parts & Hparts & ->). unfold strip, rstrip.
  rewrite (lstrip_join parts Hparts), rev_join, lstrip_join.
  - rewrite <- rev_join. apply rev_involutive.
  - rewrite List.Forall_forall in *. intros p Hp.
    apply List.in_rev in Hp. apply List.in_map_iff in Hp.
    destruct Hp as (q & <- & Hq). destruct (Hparts q Hq) as [Hne Hsp].
    split; [|apply spaceless_rev; exact Hsp].
    intros H. apply Hne. apply (f_equal (@rev N)) in H.
    rewrite rev_involutive in H. exact H.
Qed.

Lemma join_split_single_spaced (s : str) :
  single_spaced (join (lit " ") (split s)).
Proof.
  exists (split s). split; [|reflexivity].
  apply split_from_words. constructor.
Qed.

(** Collapsing white space twice is collapsing it once. *)
Lemma join_split_idem (s : str) :
  single_spaced s -> join (lit " ") (split s) = s.
Proof.
  intros (parts & Hparts & ->). rewrite (split_join parts Hparts).
  reflexivity.
Qed.

(* ===================================================================== *)
(** ** TextNormalizer: the single-line form and the key                   *)
(* ===================================================================== *)

Lemma single_spaced_nil : single_spaced [].
Proof. exists []. split; [constructor | reflexivity]. Qed.

Lemma single_spaced_no_break (s : str) (c : N) :
  single_spaced s -> isspace c = true -> c <> 32%N -> ~ In c s.
Proof.
  intros Hs Hc Hne Hin. apply Hne.
  exact (single_spaced_spaces s c Hs Hin Hc).
Qed.

Lemma multiline_to_single_single_spaced (v : PyVal) :
  single_spaced (multiline_to_single v) /\
  multiline_to_single v
  = match v with
    | VNone => []
    | _ => join (lit " ")
             (split (replace 13 [32%N] (replace 10 [32%N] (py_str v))))
    end.
Proof.
  destruct v; simpl; try (split; [apply single_spaced_nil | reflexivity]);
    rewrite strip_single_spaced by apply join_split_single_spaced;
    (split; [apply join_split_single_spaced | reflexivity]).
Qed.

Lemma multiline_to_single_fixed (s : str) :
  single_spaced s -> multiline_to_single (VStr s) = s.
Proof.
  intros Hs. simpl.
  rewrite (replace_absent 10 [32%N] s)
    by (apply single_spaced_no_break; [exact Hs | reflexivity | discriminate]).
  rewrite (replace_absent 13 [32%N] s)
    by (apply single_spaced_no_break; [exact Hs | reflexivity | discriminate]).
  rewrite (join_split_idem s Hs). apply strip_single_spaced. exact Hs.
Qed.

(** X1. [multiline_to_single] is idempotent: the single-line form of a
    single-line form is that form, for every value. *)
Theorem multiline_to_single_idempotent (v : PyVal) :
  multiline_to_single (VStr (multiline_to_single v)) = multiline_to_single v.
Proof.
  apply multiline_to_single_fixed.
  apply multiline_to_single_single_spaced.
Qed.

(** X2. The single-line form is a sequence of words joined by single ASCII
    blanks: it has no leading or trailing white space (stripping it
    changes nothing), it holds no line break, and every white space
    character in it is the ASCII blank. *)
Theorem multiline_to_single_shape (v : PyVal) :
  single_spaced (multiline_to_single v) /\
  strip (multiline_to_single v) = multiline_to_single v /\
  ~ In 10%N (multiline_to_single v) /\
  ~ In 13%N (multiline_to_single v) /\
  forall c, In c (multiline_to_single v) -> isspace c = true -> c = 32%N.
Proof.
  destruct (multiline_to_single_single_spaced v) as [Hs _].
  split; [exact Hs|]. split; [apply strip_single_spaced; exact Hs|].
  split; [apply single_spaced_no_break;
          [exact Hs | reflexivity | discriminate]|].
  split; [apply single_spaced_no_break;
          [exact Hs | reflexivity | discriminate]|].
  intros c. apply single_spaced_spaces. exact Hs.
Qed.

(** X3. The cleaned administrative value has the same shape: words joined
    by single ASCII blanks, nothing to strip, no other white space. *)
Theorem clean_g2_value_shape (v : PyVal) :
  single_spaced (clean_g2_value v) /\
  strip (clean_g2_value v) = clean_g2_value v /\
  forall c, In c (clean_g2_value v) -> isspace c = true -> c = 32%N.
Proof.
  assert (Hs : single_spaced (clean_g2_value v)).
  { destruct v; simpl; try apply single_spaced_nil;
      rewrite strip_single_spaced by apply join_split_single_spaced;
      apply join_split_single_spaced. }
  split; [exact Hs|]. split; [apply strip_single_spaced; exact Hs|].
  intros c. apply single_spaced_spaces. exact Hs.
Qed.

Section KeyProperties.

Variable lower : str -> str.

Lemma normalize_standard_text (s : str) :
  normalize_standard lower (VStr s) = lower (remove_spaces s).
Proof. simpl. rewrite !replace_same, remove_spaces_strip. reflexivity. Qed.

Lemma normalize_standard_value (v : PyVal) :
  v <> VNone ->
  normalize_standard lower v = lower (remove_spaces (py_str v)).
Proof.
  destruct v; [congruence| ..]; intros _; simpl;
    rewrite !replace_same, remove_spaces_strip; reflexivity.
Qed.

Lemma remove_spaces_multiline (s : str) :
  remove_spaces (multiline_to_single (VStr s)) = remove_spaces s.
Proof.
  destruct (multiline_to_single_single_spaced (VStr s)) as [_ ->].
  rewrite remove_spaces_join_split. simpl.
  rewrite !remove_spaces_replace; reflexivity.
Qed.

(** X4. The key does not see line breaks or spacing: the key of the
    single-line form of a text is the key of the text, and two texts that
    agree once their white space is removed have the same key. *)
Theorem normalize_standard_multiline (s t : str) :
  normalize_standard lower (VStr (multiline_to_single (VStr s)))
  = normalize_standard lower (VStr s) /\
  (remove_spaces s = remove_spaces t ->
   normalize_standard lower (VStr (multiline_to_single (VStr s)))
   = normalize_standard lower (VStr t)).
Proof.
  assert (H : normalize_standard lower (VStr (multiline_to_single (VStr s)))
              = normalize_standard lower (VStr s))
    by (rewrite !normalize_standard_text, remove_spaces_multiline;
        reflexivity).
  split; [exact H|].
  intros Heq. rewrite H, !normalize_standard_text, Heq. reflexivity.
Qed.

End KeyProperties.

(* ===================================================================== *)
(** ** AxisExtractor: what a pass can and cannot return                   *)
(* ===================================================================== *)

Lemma startswith_In (p s : str) (c : N) :
  startswith p s = true -> In c p -> In c s.
Proof.
  revert s. induction p as [|a p IH]; intros s; [intros _ []|].
  destruct s as [|b s]; [discriminate|]. simpl.
  intros H. apply andb_true_iff in H. destruct H as [Hab Hp].
  apply N.eqb_eq in Hab. subst b.
  intros [<-|Hc]; [left; reflexivity | right; exact (IH s Hp Hc)].
Qed.

(** A text that contains a pattern holds every character of it. *)
Lemma contains_In (p s : str) (c : N) :
  contains p s = true -> In c p -> In c s.
Proof.
  induction s as [|b s IH]; simpl.
  - rewrite orb_false_r. destruct p; [intros _ [] | discriminate].
  - intros H Hc. apply orb_true_iff in H. destruct H as [H|H].
    + exact (startswith_In p (b :: s) c H Hc).
    + right. exact (IH H Hc).
Qed.

Lemma contains_cons (p s : str) (b : N) :
  contains p s = true -> contains p (b :: s) = true.
Proof. intros H. simpl. rewrite H. apply orb_true_r. Qed.

Lemma contains_startswith (p s : str) :
  startswith p s = true -> contains p s = true.
Proof. intros H. destruct s; simpl; rewrite H; reflexivity. Qed.

(** A text that contains [a ++ b] contains [b]. *)
Lemma contains_app_r (a b s : str) :
  contains (a ++ b) s = true -> contains b s = true.
Proof.
  assert (Hstart : forall a s,
    startswith (a ++ b) s = true -> contains b s = true).
  { clear. induction a as [|x a IH]; intros s H.
    - apply contains_startswith. exact H.
    - destruct s as [|y s]; [discriminate|]. simpl in H.
      apply andb_true_iff in H. destruct H as [_ H].
      apply contains_cons. exact (IH s H). }
  induction s as [|y s IH].
  - simpl. rewrite orb_false_r. intros H. exact (Hstart a [] H).
  - intros H. simpl in H. apply orb_true_iff in H. destruct H as [H|H].
    + exact (Hstart a (y :: s) H).
    + apply contains_cons. exact (IH H).
Qed.

Lemma replace_nil_In (c x : N) (s : str) :
  In x (replace c [] s) -> In x s /\ x <> c.
Proof.
  induction s as [|a s IH]; [intros []|]. simpl.
  destruct (N.eqb_spec a c) as [->|Hne]; simpl.
  - intros H. destruct (IH H) as [H1 H2]. split; [right; exact H1 | exact H2].
  - intros [<-|H]; [split; [left; reflexivity | exact Hne]|].
    destruct (IH H) as [H1 H2]. split; [right; exact H1 | exact H2].
Qed.

(** The text the axis search looks into holds no blank and no hyphen. *)
Lemma normalize_pnt_axis_chars (upper : str -> str) (v : PyVal) :
  ~ In 32%N (normalize_pnt_axis upper v) /\
  ~ In 45%N (normalize_pnt_axis upper v).
Proof.
  destruct v; simpl; try (split; intros []); split; intros H;
    apply replace_nil_In in H; destruct H as [H Hne];
    try (apply replace_nil_In in H; destruct H as [_ Hne']);
    congruence.
Qed.

Lemma str_of_Z_negative (n : Z) : n < 0 -> In 45%N (str_of_Z n).
Proof.
  destruct n as [|p|p]; try lia. intros _.
  unfold str_of_Z. simpl. left. reflexivity.
Qed.

Lemma search_numbers_Some (p s : str) (nums : list Z) (n : Z) :
  search_numbers p s nums = Some n ->
  In n nums /\ contains (p ++ str_of_Z n) s = true.
Proof.
  induction nums as [|m nums IH]; simpl; [discriminate|].
  destruct (contains (p ++ str_of_Z m) s) eqn:E.
  - intros [= <-]. split; [left; reflexivity | exact E].
  - intros H. destruct (IH H) as [H1 H2]. split; [right; exact H1 | exact H2].
Qed.

Section AxisResults.

Variable upper : str -> str.
Variable config : PMSConfig.
Variable ws : Worksheet.
Variable row_idx : nat.

Lemma has_token_nonnegative (p : str) (col : nat) (n : Z) :
  has_token upper ws row_idx p col n -> 0 <= n.
Proof.
  intros [_ Hc]. destruct (Z.lt_ge_cases n 0) as [Hneg|Hpos]; [|exact Hpos].
  exfalso.
  destruct (normalize_pnt_axis_chars upper (cell ws row_idx col))
    as [_ Hhyphen].
  apply Hhyphen. apply (contains_In _ _ 45%N Hc).
  apply List.in_or_app. right. apply str_of_Z_negative. exact Hneg.
Qed.

Lemma search_pattern_Some (p : str) (n : Z) :
  _search_pattern upper config ws row_idx p = Some n ->
  in_axis_range config n /\ 0 <= n /\
  exists col, In col (AXIS_SEARCH_COLS (PNT config)) /\
              has_token upper ws row_idx p col n.
Proof.
  unfold _search_pattern. intros H.
  apply search_columns_Some in H.
  destruct H as (before & col & after & Hcols & _ & Htok & Hr & _).
  split; [exact Hr|]. split; [exact (has_token_nonnegative p col n Htok)|].
  exists col. split; [|exact Htok].
  rewrite Hcols. apply List.in_or_app. right. left. reflexivity.
Qed.

Lemma extract_from_row_Some (n : Z) :
  extract_from_row upper config ws row_idx = Some n ->
  in_axis_range config n /\ 0 <= n /\
  exists col, In col (AXIS_SEARCH_COLS (PNT config)) /\
              has_token upper ws row_idx (lit "S") col n.
Proof.
  unfold extract_from_row.
  destruct (_search_pattern upper config ws row_idx (lit "AXIS"))
    as [k|] eqn:Ek; simpl.
  - destruct (Z.eqb_spec k 0) as [->|Hne]; simpl.
    + intros H. destruct (search_pattern_Some _ _ H) as (Hr & Hn & Hcol).
      split; [exact Hr|]. split; [exact Hn | exact Hcol].
    + intros [= <-].
      destruct (search_pattern_Some _ _ Ek) as (Hr & Hn & col & Hcol & Ht).
      split; [exact Hr|]. split; [exact Hn|].
      exists col. split; [exact Hcol|].
      destruct Ht as [Ht Hc]. split; [exact Ht|].
      apply (contains_app_r (lit "AXI")).
      rewrite app_assoc. exact Hc.
  - intros H. destruct (search_pattern_Some _ _ H) as (Hr & Hn & Hcol).
    split; [exact Hr|]. split; [exact Hn | exact Hcol].
Qed.

(** X5. Whatever the configuration, an axis that is extracted is a
    number of the configured range, it is not negative (the hyphen of a
    negative number never survives the normalization of the cell), and
    some search column holds its token with the AXIS or the S prefix. *)
Theorem extract_from_row_result (n : Z) :
  extract_from_row upper config ws row_idx = Some n ->
  in_axis_range config n /\ 0 <= n /\
  exists col, In col (AXIS_SEARCH_COLS (PNT config)) /\
              has_token upper ws row_idx (lit "S") col n.
Proof. apply extract_from_row_Some. Qed.

(** X6. No axis is found for a row exactly when no search column holds
    an S token of a number of the range: an AXIS token is an S token too,
    so a row with any token is never left without axis. *)
Theorem extract_from_row_None :
  extract_from_row upper config ws row_idx = None <->
  no_token upper config ws row_idx (lit "S") (AXIS_SEARCH_COLS (PNT config)).
Proof.
  rewrite <- search_columns_None. fold (_search_pattern upper config ws
                                          row_idx (lit "S")).
  unfold extract_from_row.
  destruct (_search_pattern upper config ws row_idx (lit "AXIS"))
    as [k|] eqn:Ek; simpl; [|tauto].
  assert (HS : _search_pattern upper config ws row_idx (lit "S") <> None).
  { intros HnoS. unfold _search_pattern in HnoS.
    rewrite search_columns_None in HnoS.
    destruct (search_pattern_Some _ _ Ek) as (Hr & _ & col & Hcol & Ht).
    apply (HnoS col k Hcol Hr).
    destruct Ht as [Ht Hc]. split; [exact Ht|].
    apply (contains_app_r (lit "AXI")). rewrite app_assoc. exact Hc. }
  destruct (k =? 0); simpl.
  - tauto.
  - split; [discriminate|]. intros H. contradiction.
Qed.

End AxisResults.

(* ===================================================================== *)
(** ** PMSHierarchySearcher: anchors and leaves                           *)
(* ===================================================================== *)

Lemma skip_to_seq (p : nat -> bool) (n a r : nat) (after : list nat) :
  skip_to p (seq a n) = r :: after ->
  (a <= r < a + n)%nat /\ after = seq (S r) (a + n - S r).
Proof.
  revert a. induction n as [|n IH]; intros a; simpl; [discriminate|].
  destruct (p a).
  - intros [= <- <-]. split; [lia|]. f_equal. lia.
  - intros H. destruct (IH (S a) H) as [Hr Hafter].
    split; [lia|]. rewrite Hafter. f_equal. lia.
Qed.

Section Anchors.

Variable config : PMSConfig.
Variable ws : Worksheet.

(** The first row below [r0] that matches the constraint [c]. *)
Lemma first_match_anchor_snoc (rest : list (Z * str)) (c' : Z * str) :
  forall c n a,
    first_match_anchor config ws c (rest ++ [c']) (seq a n)
    = match first_match_anchor config ws c rest (seq a n) with
      | Some r0 =>
          head (skip_to (row_matches config ws c')
                        (seq (S r0) (a + n - S r0)))
      | None => None
      end.
Proof.
  induction rest as [|c1 rest IH]; intros c n a;
    cbn [app first_match_anchor];
    destruct (skip_to (row_matches config ws c) (seq a n))
      as [|r after] eqn:Es; try reflexivity;
    destruct (skip_to_seq _ _ _ _ _ Es) as [Hr ->].
  - destruct (skip_to (row_matches config ws c') _); reflexivity.
  - rewrite IH. 
    destruct (first_match_anchor config ws c1 rest _) as [r0|] eqn:E0;
      [|reflexivity].
    apply first_match_anchor_in in E0. apply List.in_seq in E0.
    do 3 f_equal. lia.
Qed.


(** X8. Resolving a path extended by one constraint is resolving the
    path and then taking the first row strictly below its anchor that
    matches the new constraint: anchors descend strictly, and an
    unresolved path stays unresolved however it is extended. *)
Theorem find_parent_section_extend (c : Z * str) (rest : list (Z * str))
  (c' : Z * str) :
  _find_parent_section config ws (c :: rest ++ [c'])
  = match _find_parent_section config ws (c :: rest) with
    | Ok (Some r0, _) =>
        Ok match skip_to (row_matches config ws c')
                   (row_range (S r0) (max_row ws + 1)) with
           | r :: _ => (Some r, Some (r + 1)%nat)
           | [] => (None, None)
           end
    | _ => Ok (None, None)
    end
  /\
  forall r,
    _find_parent_section config ws (c :: rest ++ [c'])
    = Ok (Some r, Some (r + 1)%nat) ->
    exists r0,
      _find_parent_section config ws (c :: rest)
      = Ok (Some r0, Some (r0 + 1)%nat) /\
      (r0 < r <= max_row ws)%nat /\
      row_matches config ws c' r = true /\
      forall x, (r0 < x < r)%nat -> row_matches config ws c' x = false.
Proof.
  assert (Heq :
    _find_parent_section config ws (c :: rest ++ [c'])
    = match _find_parent_section config ws (c :: rest) with
      | Ok (Some r0, _) =>
          Ok match skip_to (row_matches config ws c')
                     (row_range (S r0) (max_row ws + 1)) with
             | r :: _ => (Some r, Some (r + 1)%nat)
             | [] => (None, None)
             end
      | _ => Ok (None, None)
      end).
  { rewrite !find_parent_section_resolves. unfold row_range.
    rewrite first_match_anchor_snoc.
    destruct (first_match_anchor config ws c rest _) as [r0|];
      [|reflexivity].
    replace (1 + (max_row ws + 1 - 1) - S r0)%nat
      with (max_row ws + 1 - S r0)%nat by lia.
    destruct (skip_to _ _); reflexivity. }
  split; [exact Heq|].
  intros r Hr. rewrite Heq in Hr.
  rewrite find_parent_section_resolves in Hr |- *.
  destruct (first_match_anchor config ws c rest _) as [r0|];
    [|discriminate].
  exists r0. split; [reflexivity|].
  destruct (skip_to (row_matches config ws c')
              (row_range (S r0) (max_row ws + 1))) as [|r1 after] eqn:Es;
    [discriminate|].
  injection Hr as ->.
  unfold row_range in Es.
  destruct (skip_to_seq _ _ _ _ _ Es) as [Hb _].
  destruct (skip_to_spec _ _ _ _ Es) as (before & Hrows & Hm & Hbefore).
  split; [lia|]. split; [exact Hm|].
  intros x Hx. apply Hbefore.
  assert (Hin : In x (seq (S r0) (max_row ws + 1 - S r0)))
    by (apply List.in_seq; lia).
  rewrite Hrows in Hin. apply List.in_app_or in Hin.
  destruct Hin as [Hin|Hin]; [exact Hin|]. exfalso.
  assert (Hge : forall l1 l2 a n y z,
    seq a n = l1 ++ y :: l2 -> In z (y :: l2) -> (y <= z)%nat).
  { clear. induction l1 as [|b l1 IH]; intros l2 a n y z Hl Hz;
      (destruct n as [|n]; [discriminate|]); simpl in Hl.
    - injection Hl as -> <-. destruct Hz as [<-|Hz]; [lia|].
      apply List.in_seq in Hz. lia.
    - injection Hl as _ Hl. exact (IH _ _ _ _ _ Hl Hz). }
  pose proof (Hge _ _ _ _ _ _ Hrows Hin). lia.
Qed.

End Anchors.

Lemma take_until_In (p : nat -> bool) (rows : list nat) (x : nat) :
  In x (take_until p rows) -> In x rows /\ p x = false.
Proof.
  induction rows as [|r rows IH]; simpl; [intros []|].
  destruct (p r) eqn:E; [intros []|].
  intros [<-|H]; [split; [left; reflexivity | exact E]|].
  destruct (IH H) as [H1 H2]. split; [right; exact H1 | exact H2].
Qed.

Lemma StronglySorted_seq (a n : nat) : StronglySorted lt (seq a n).
Proof.
  revert a. induction n as [|n IH]; intros a; simpl; constructor.
  - apply IH.
  - apply List.Forall_forall. intros x Hx. apply List.in_seq in Hx. lia.
Qed.

Lemma StronglySorted_filter (p : nat -> bool) (l : list nat) :
  StronglySorted lt l -> StronglySorted lt (List.filter p l).
Proof.
  induction 1 as [|a l Hl IH Ha]; simpl; [constructor|].
  destruct (p a); [|exact IH]. constructor; [exact IH|].
  rewrite List.Forall_forall in *. intros x Hx.
  apply List.filter_In in Hx. apply Ha. exact (proj1 Hx).
Qed.

Lemma StronglySorted_take_until (p : nat -> bool) (l : list nat) :
  StronglySorted lt l -> StronglySorted lt (take_until p l).
Proof.
  induction 1 as [|a l Hl IH Ha]; simpl; [constructor|].
  destruct (p a); constructor; [exact IH|].
  rewrite List.Forall_forall in *. intros x Hx.
  apply take_until_In in Hx. apply Ha. exact (proj1 Hx).
Qed.


Section Leaves.

Variable config : PMSConfig.
Variable ws : Worksheet.

Lemma item_at_row (rows : list nat) :
  map fi_row (map (item_at config ws) rows) = rows.
Proof. rewrite List.map_map. simpl. apply List.map_id. Qed.

(** X9. On a path with at least one constraint [find_items] returns the
    leaves in strictly increasing row order, so no row is listed twice;
    every leaf lies below the anchor and within the sheet, holds text, is
    at the target level, and the target level is deeper than the
    anchor's level; an unresolved path gives no leaf. *)
Theorem find_items_leaves (c : Z * str) (rest : list (Z * str))
  (target_level : Z) :
  exists items,
    find_items config ws (c :: rest) target_level = Ok items /\
    StronglySorted lt (map fi_row items) /\
    match first_match_anchor config ws c rest
            (row_range 1 (max_row ws + 1)) with
    | None => items = []
    | Some r0 =>
        forall item, In item items ->
          (r0 < fi_row item <= max_row ws)%nat /\
          fi_level item = target_level /\
          level_of ws r0 < target_level /\
          text_cell config ws (fi_row item) <> VNone /\
          item = item_at config ws (fi_row item)
    end.
Proof.
  unfold find_items. rewrite find_parent_section_resolves.
  destruct (first_match_anchor config ws c rest _) as [r0|]; simpl.
  2:{ exists []. split; [reflexivity|]. split; [constructor | reflexivity]. }
  eexists. split; [reflexivity|].
  unfold _extract_target_items. rewrite extract_target_loop_span.
  cbn [app]. rewrite item_at_row. split.
  - apply StronglySorted_filter, StronglySorted_take_until,
      StronglySorted_seq.
  - intros item Hitem. apply List.in_map_iff in Hitem.
    destruct Hitem as (r & <- & Hr). apply List.filter_In in Hr.
    destruct Hr as [Hr Hleaf]. apply take_until_In in Hr.
    destruct Hr as [Hr Hb]. unfold row_range in Hr.
    apply List.in_seq in Hr. simpl.
    unfold is_leaf in Hleaf. unfold is_boundary in Hb.
    fold (level_of ws r0) in Hb.
    destruct (text_cell config ws r) eqn:Ec; [discriminate| ..];
      apply Z.eqb_eq in Hleaf; apply Z.leb_gt in Hb;
      (split; [lia|]); (split; [exact Hleaf|]); (split; [lia|]);
      (split; [discriminate | reflexivity]).
Qed.



End Leaves.

(* ===================================================================== *)
(** ** PMSStructureReader: the index                                      *)
(* ===================================================================== *)

Lemma lit_inj (a b : string) : lit a = lit b -> a = b.
Proof.
  unfold lit. revert b. induction a as [|x a IH]; intros [|y b]; simpl;
    try discriminate; [reflexivity|].
  intros [= Hxy Hab]. f_equal; [|apply IH; exact Hab].
  rewrite <- (ascii_N_embedding x), <- (ascii_N_embedding y), Hxy.
  reflexivity.
Qed.

Lemma string_of_int_inj (d d' : Decimal.int) :
  d <> Decimal.Pos Decimal.Nil -> d <> Decimal.Neg Decimal.Nil ->
  d' <> Decimal.Pos Decimal.Nil -> d' <> Decimal.Neg Decimal.Nil ->
  NilZero.string_of_int d = NilZero.string_of_int d' -> d = d'.
Proof.
  intros H1 H2 H3 H4 H.
  pose proof (NilZero.isi d H1 H2) as E.
  rewrite H, (NilZero.isi d' H3 H4) in E. congruence.
Qed.

Lemma to_int_not_nil (z : Z) :
  Z.to_int z <> Decimal.Pos Decimal.Nil /\
  Z.to_int z <> Decimal.Neg Decimal.Nil.
Proof.
  destruct z as [|p|p]; simpl; split; try discriminate;
    intros [= H]; exact (DecimalPos.Unsigned.to_uint_nonnil p H).
Qed.

(** Distinct integers have distinct decimal texts. *)
Lemma str_of_Z_inj (a b : Z) : str_of_Z a = str_of_Z b -> a = b.
Proof.
  unfold str_of_Z. intros H. apply lit_inj in H.
  destruct (to_int_not_nil a) as [Ha1 Ha2].
  destruct (to_int_not_nil b) as [Hb1 Hb2].
  apply (string_of_int_inj _ _ Ha1 Ha2 Hb1 Hb2) in H.
  apply DecimalZ.to_int_inj. exact H.
Qed.

(** Distinct axis numbers have distinct axis names. *)
Lemma mohor_name_of_inj (a b : Z) : mohor_name_of a = mohor_name_of b -> a = b.
Proof.
  unfold mohor_name_of. intros H.
  apply app_inv_head in H. apply app_inv_head in H.
  apply str_of_Z_inj. exact H.
Qed.

Lemma NoDup_range (a b : Z) : List.NoDup (range a b).
Proof.
  unfold range. generalize 0%nat as j. generalize (Z.to_nat (b - a)) as k.
  induction k as [|k IH]; intros j; simpl; constructor; [|apply IH].
  intros H. apply List.in_map_iff in H. destruct H as (i & Hi & Hin).
  apply List.in_seq in Hin. lia.
Qed.

Lemma filter_flat_map {A B} (p : B -> bool) (f : A -> list B) (l : list A) :
  List.filter p (flat_map f l) = flat_map (fun x => List.filter p (f x)) l.
Proof.
  induction l as [|x l IH]; [reflexivity|].
  simpl. rewrite List.filter_app, IH. reflexivity.
Qed.

Lemma flat_map_single {A B} (f : A -> list B) (l : list A) (n : A) :
  List.NoDup l -> In n l -> (forall x, In x l -> x <> n -> f x = []) ->
  flat_map f l = f n.
Proof.
  induction 1 as [|x l Hx Hnd IH]; [intros []|].
  intros Hin Hother. simpl. destruct Hin as [->|Hin].
  - assert (Hrest : flat_map f l = []).
    { clear IH. induction l as [|y l IHl]; [reflexivity|].
      simpl. rewrite (Hother y) by
        (try (right; left; reflexivity); intros ->; apply Hx; left;
         reflexivity).
      apply IHl.
      - intros H. apply Hx. right. exact H.
      - apply List.NoDup_cons_iff in Hnd. exact (proj2 Hnd).
      - intros z Hz. apply Hother. destruct Hz as [Hz|Hz];
          [left; exact Hz | right; right; exact Hz]. }
    rewrite Hrest. apply app_nil_r.
  - rewrite (Hother x (or_introl eq_refl)) by (intros ->; contradiction).
    apply IH; [exact Hin|]. intros y Hy. apply Hother. right. exact Hy.
Qed.

Lemma flat_map_none {A B} (f : A -> list B) (l : list A) :
  (forall x, In x l -> f x = []) -> flat_map f l = [].
Proof.
  induction l as [|x l IH]; intros H; [reflexivity|].
  simpl. rewrite (H x (or_introl eq_refl)). apply IH.
  intros y Hy. apply H. right. exact Hy.
Qed.

Lemma od_set_fresh {K V} (eqb : K -> K -> bool) (k : K) (v : V)
  (d : odict K V) :
  od_get eqb k d = None -> od_set eqb k v d = d ++ [(k, v)].
Proof.
  induction d as [|[k' v'] d IH]; simpl; [reflexivity|].
  destruct (eqb k k'); [discriminate|]. intros H. rewrite (IH H).
  reflexivity.
Qed.

Lemma bool_decide_eqb {K} `{EqDecision K} (a b : K) :
  bool_decide (a = b) = true <-> a = b.
Proof. apply bool_decide_eq_true. Qed.

Section Index.

Variable lower : str -> str.
Variable config : PMSConfig.
Variable ws : Worksheet.

Lemma find_items_axis (mohor_num : Z) :
  find_items config ws (get_search_path (Hierarchy config) mohor_num)
    (TARGET_LEVEL (Hierarchy config))
  = Ok (axis_items config ws mohor_num).
Proof.
  unfold axis_items, find_items, get_search_path.
  rewrite find_parent_section_resolves.
  destruct (first_match_anchor config ws _ _ _); reflexivity.
Qed.

Lemma axis_items_facts (mohor_num : Z) (item : FoundItem) :
  In item (axis_items config ws mohor_num) ->
  (2 <= fi_row item <= max_row ws)%nat /\
  fi_level item = TARGET_LEVEL (Hierarchy config).
Proof.
  unfold axis_items, find_items, get_search_path.
  rewrite find_parent_section_resolves.
  destruct (first_match_anchor config ws _ _ _) as [r0|] eqn:Ea; simpl;
    [|intros []].
  apply first_match_anchor_in in Ea. unfold row_range in Ea.
  apply List.in_seq in Ea.
  unfold _extract_target_items. rewrite extract_target_loop_span.
  cbn [app]. intros Hitem. apply List.in_map_iff in Hitem.
  destruct Hitem as (r & <- & Hr). apply List.filter_In in Hr.
  destruct Hr as [Hr Hleaf]. apply take_until_In in Hr.
  destruct Hr as [Hr _]. unfold row_range in Hr. apply List.in_seq in Hr.
  simpl. split; [lia|].
  unfold is_leaf in Hleaf.
  destruct (text_cell config ws r); [discriminate| ..];
    apply Z.eqb_eq; exact Hleaf.
Qed.

(** The entry an axis adds to [all_results]. *)
Lemma search_mohors_loop_spec (nums : list Z) :
  List.NoDup nums ->
  forall all_results,
    (forall n, In n nums -> ~ In (mohor_name_of n) (map fst all_results)) ->
    search_mohors_loop config ws nums all_results
    = Ok (all_results ++
          flat_map (fun n => match axis_items config ws n with
                             | [] => []
                             | items => [(mohor_name_of n, items)]
                             end) nums).
Proof.
  induction 1 as [|n nums Hn Hnd IH]; intros acc Hfresh.
  - simpl. rewrite app_nil_r. reflexivity.
  - cbn [search_mohors_loop flat_map]. rewrite find_items_axis.
    cbn [bind].
    destruct (axis_items config ws n) as [|item items] eqn:Ei.
    + apply IH. intros m Hm. apply Hfresh. right. exact Hm.
    + rewrite od_set_fresh.
      * rewrite IH; [rewrite <- app_assoc; reflexivity|].
        intros m Hm. rewrite List.map_app. intros Hin.
        apply List.in_app_or in Hin. destruct Hin as [Hin|[Heq|[]]].
        -- exact (Hfresh m (or_intror Hm) Hin).
        -- simpl in Heq. apply mohor_name_of_inj in Heq. subst m.
           contradiction.
      * apply (od_get_None_keys (fun a b => bool_decide (a = b))).
        -- intros a b. apply bool_decide_eq_true.
        -- apply Hfresh. left. reflexivity.
Qed.

Lemma locations_append_at (key : str) (loc : Location)
  (m : gmap str (list Location)) (k : str) :
  locations_at (locations_append key loc m) k
  = locations_at m k ++ (if bool_decide (key = k) then [loc] else []).
Proof.
  unfold locations_at, locations_append.
  destruct (m !! key) as [locs|] eqn:E.
  - destruct (decide (key = k)) as [->|Hne].
    + rewrite lookup_insert_eq, E, bool_decide_eq_true_2 by reflexivity.
      reflexivity.
    + rewrite lookup_insert_ne, bool_decide_eq_false_2 by assumption.
      rewrite app_nil_r. reflexivity.
  - destruct (decide (key = k)) as [->|Hne].
    + rewrite lookup_insert_eq, E, bool_decide_eq_true_2 by reflexivity.
      reflexivity.
    + rewrite lookup_insert_ne, bool_decide_eq_false_2 by assumption.
      rewrite app_nil_r. reflexivity.
Qed.

Lemma locations_append_no_empty (key : str) (loc : Location)
  (m : gmap str (list Location)) :
  no_empty_list m -> no_empty_list (locations_append key loc m).
Proof.
  unfold no_empty_list, locations_append. intros Hm k.
  destruct (m !! key) as [locs|] eqn:E;
    (destruct (decide (key = k)) as [->|Hne];
     [rewrite lookup_insert_eq | rewrite lookup_insert_ne by assumption;
                                 apply Hm]).
  - intros [= H]. destruct locs; discriminate.
  - intros [= H].
Qed.

Lemma add_items_at (mohor_name : str) (items : list FoundItem) :
  forall (m : gmap str (list Location)) (k : str),
    locations_at (add_items lower mohor_name items m) k
    = locations_at m k ++
      map (location_of mohor_name)
        (List.filter (fun item => bool_decide (item_key lower item = k))
           items).
Proof.
  unfold add_items.
  induction items as [|item items IH]; intros m k.
  - cbn [fold_left List.filter map]. rewrite app_nil_r. reflexivity.
  - cbn [fold_left List.filter]. rewrite IH, locations_append_at.
    change (normalize_standard lower (VStr (fi_text item)))
      with (item_key lower item).
    rewrite <- app_assoc. f_equal.
    destruct (bool_decide (item_key lower item = k)); reflexivity.
Qed.

Lemma add_items_no_empty (mohor_name : str) (items : list FoundItem) :
  forall m, no_empty_list m ->
            no_empty_list (add_items lower mohor_name items m).
Proof.
  unfold add_items.
  induction items as [|item items IH]; intros m Hm; [exact Hm|].
  simpl. apply IH. apply locations_append_no_empty. exact Hm.
Qed.

Lemma fold_add_items_at (results : odict str (list FoundItem)) :
  forall (m : gmap str (list Location)) (k : str),
    locations_at
      (fold_left (fun acc kv => add_items lower (fst kv) (snd kv) acc)
         results m) k
    = locations_at m k ++
      flat_map (fun kv =>
                  map (location_of (fst kv))
                    (List.filter
                       (fun item => bool_decide (item_key lower item = k))
                       (snd kv))) results.
Proof.
  induction results as [|kv results IH]; intros m k; simpl.
  - rewrite app_nil_r. reflexivity.
  - rewrite IH, add_items_at, <- app_assoc. reflexivity.
Qed.

Lemma fold_add_items_no_empty (results : odict str (list FoundItem)) :
  forall m, no_empty_list m ->
    no_empty_list
      (fold_left (fun acc kv => add_items lower (fst kv) (snd kv) acc)
         results m).
Proof.
  induction results as [|kv results IH]; intros m Hm; [exact Hm|].
  simpl. apply IH. apply add_items_no_empty. exact Hm.
Qed.

(** The index, key by key: the matching leaves of every axis of the
    range, axis after axis and in row order within an axis. *)
Lemma structure_index_at :
  exists item_locations,
    structure_extract_all_items lower config ws = Ok item_locations /\
    no_empty_list item_locations /\
    forall k,
      locations_at item_locations k
      = flat_map (axis_locations lower config ws k)
          (range (AXIS_RANGE_START config) (AXIS_RANGE_END config)).
Proof.
  unfold structure_extract_all_items, _search_all_mohors.
  rewrite (search_mohors_loop_spec _ (NoDup_range _ _) [])
    by (intros n _ []).
  cbn [bind app]. eexists. split; [reflexivity|]. split.
  - apply fold_add_items_no_empty. intros k H.
    rewrite lookup_empty in H. discriminate.
  - intros k. rewrite fold_add_items_at.
    unfold locations_at at 1. rewrite lookup_empty. cbn [default app].
    generalize (range (AXIS_RANGE_START config) (AXIS_RANGE_END config)).
    intros nums. induction nums as [|n nums IH]; [reflexivity|].
    cbn [flat_map]. rewrite List.flat_map_app, IH. f_equal.
    unfold axis_locations.
    destruct (axis_items config ws n); [reflexivity|].
    cbn [flat_map fst snd]. apply app_nil_r.
Qed.


Lemma candidates_axis (item_locations : gmap str (list Location))
  (n : Z) (pnt_data : ItemData) :
  (forall k,
     locations_at item_locations k
     = flat_map (axis_locations lower config ws k)
         (range (AXIS_RANGE_START config) (AXIS_RANGE_END config))) ->
  candidates (mohor_name_of n) pnt_data item_locations
  = if bool_decide (in_axis_range config n)
    then axis_locations lower config ws (normalized pnt_data) n
    else [].
Proof.
  intros Hat. unfold candidates, mohor_locations_of.
  fold (locations_at item_locations (normalized pnt_data)).
  rewrite Hat, filter_flat_map.
  assert (Hsame : forall k,
    List.filter (fun loc => bool_decide (loc_mohor loc = mohor_name_of n))
      (axis_locations lower config ws k n)
    = axis_locations lower config ws k n).
  { intros k. unfold axis_locations.
    induction (List.filter _ (axis_items config ws n)) as [|it l IH];
      [reflexivity|].
    simpl. rewrite bool_decide_eq_true_2 by reflexivity.
    f_equal. exact IH. }
  assert (Hother : forall k m, m <> n ->
    List.filter (fun loc => bool_decide (loc_mohor loc = mohor_name_of n))
      (axis_locations lower config ws k m) = []).
  { intros k m Hne. unfold axis_locations.
    induction (List.filter _ (axis_items config ws m)) as [|it l IH];
      [reflexivity|].
    simpl. rewrite bool_decide_eq_false_2; [exact IH|].
    intros H. apply mohor_name_of_inj in H. contradiction. }
  destruct (bool_decide (in_axis_range config n)) eqn:Er.
  - apply bool_decide_eq_true in Er.
    rewrite (flat_map_single _ _ n (NoDup_range _ _)).
    + apply Hsame.
    + apply range_spec. exact Er.
    + intros m _ Hne. apply Hother. exact Hne.
  - apply bool_decide_eq_false in Er. apply flat_map_none.
    intros m Hm. apply Hother. intros ->. apply Er.
    apply range_spec. exact Hm.
Qed.

(** X12. Matching against the index of a sheet: the candidates of a
    source item under axis [n] are the leaves of that axis's section
    whose key is the item's key, in row order (none when [n] is outside
    the range); when there is one, the outcome is Existing and its target
    rows are the rows of those leaves, and when there is none the item is
    treated as new. *)
Theorem match_item_against_index (n : Z) (pnt_data : ItemData)
  (g2_value : PyVal) :
  let matching :=
    List.filter
      (fun item => bool_decide (item_key lower item = normalized pnt_data))
      (axis_items config ws n) in
  exists item_locations,
    structure_extract_all_items lower config ws = Ok item_locations /\
    candidates (mohor_name_of n) pnt_data item_locations
    = (if bool_decide (in_axis_range config n)
       then map (location_of (mohor_name_of n)) matching else []) /\
    match (if bool_decide (in_axis_range config n) then matching else []) with
    | _ :: _ =>
        exists update warning,
          _match_item config ws (mohor_name_of n) n pnt_data item_locations
            g2_value = Ok (Existing update warning) /\
          update !! "existing_rows"%string
          = Some (FRows (map fi_row matching))
    | [] =>
        _match_item config ws (mohor_name_of n) n pnt_data item_locations
          g2_value
        = _create_new_update config ws (mohor_name_of n) n pnt_data g2_value
    end.
Proof.
  intros matching.
  destruct structure_index_at as (idx & Hidx & _ & Hat).
  exists idx. split; [exact Hidx|].
  pose proof (candidates_axis idx n pnt_data Hat) as Hc.
  unfold axis_locations in Hc. fold matching in Hc.
  split; [exact Hc|].
  unfold _match_item. unfold candidates in Hc.
  destruct (idx !! normalized pnt_data) as [locs|] eqn:Elook;
    cbn [from_option id] in Hc.
  - rewrite Hc.
    destruct (bool_decide (in_axis_range config n)); [|reflexivity].
    destruct matching as [|item rest] eqn:Em; [reflexivity|].
    cbn [map].
    destruct (create_existing_update_fields (mohor_name_of n) pnt_data
                (location_of (mohor_name_of n) item
                 :: map (location_of (mohor_name_of n)) rest) g2_value)
      as (u & w & Hu & _ & _ & Hrows & _).
    exists u, w. split; [rewrite Hu; reflexivity|].
    rewrite Hrows. do 2 f_equal. cbn [map]. f_equal.
    rewrite List.map_map. reflexivity.
  - destruct (bool_decide (in_axis_range config n)); [|reflexivity].
    simpl in Hc. destruct matching; [reflexivity | discriminate].
Qed.

End Index.

(* ===================================================================== *)
(** ** PNTItemExtractor: records, rows read, groups                       *)
(* ===================================================================== *)

Section Records.

Variable lower upper : str -> str.
Variable config : PMSConfig.

Lemma extract_row_data_fields (ws : Worksheet) (row : nat) (d : ItemData) :
  _extract_row_data lower upper config ws row = Ok (Some d) ->
  let item_value := cell ws row (ITEM_COL (PNT config)) in
  truthy item_value = true /\
  pnt_row d = row /\
  original d = strip (py_str item_value) /\
  single_line d = multiline_to_single (VStr (original d)) /\
  normalized d = normalize_standard lower (VStr (single_line d)) /\
  normalized d <> [] /\
  axis d = extract_from_row upper config ws row.
Proof.
  unfold _extract_row_data.
  destruct (truthy (cell ws row (ITEM_COL (PNT config)))) eqn:Et;
    [|discriminate]. cbn [negb].
  destruct (normalize_standard lower _) as [|k key] eqn:Ek; [discriminate|].
  destruct (if truthy _ then _ else _); [|discriminate]. cbn [bind].
  intros [= <-]. cbn [pnt_row original single_line normalized axis].
  split; [reflexivity|]. split; [reflexivity|]. split; [reflexivity|].
  split; [reflexivity|]. split; [symmetry; exact Ek|].
  split; [discriminate | reflexivity].
Qed.

(** X13. The key stored in a source record is the key of the raw item
    cell: stripping and the single-line form do not change it.  The key
    is not empty, it is what is left of the single-line text once its
    blanks are removed and it is lowered, and the single-line text is
    single-spaced. *)
Theorem extract_row_data_key (ws : Worksheet) (row : nat) (d : ItemData) :
  _extract_row_data lower upper config ws row = Ok (Some d) ->
  normalized d
  = normalize_standard lower (cell ws row (ITEM_COL (PNT config))) /\
  normalized d = lower (remove_spaces (single_line d)) /\
  normalized d <> [] /\
  single_spaced (single_line d) /\
  pnt_row d = row.
Proof.
  intros H. apply extract_row_data_fields in H. cbv zeta in H.
  destruct H as (Ht & Hrow & Ho & Hs & Hn & Hne & _).
  assert (Hv : cell ws row (ITEM_COL (PNT config)) <> VNone)
    by (intros E; rewrite E in Ht; discriminate).
  split; [|split; [|split; [exact Hne|split; [|exact Hrow]]]].
  - rewrite Hn, Hs, normalize_standard_text, remove_spaces_multiline.
    rewrite Ho, remove_spaces_strip.
    rewrite (normalize_standard_value lower _ Hv). reflexivity.
  - rewrite Hn. apply normalize_standard_text.
  - rewrite Hs. apply multiline_to_single_single_spaced.
Qed.

Lemma search_columns_ext (ws ws' : Worksheet) (row : nat) (p : str)
  (cols : list nat) :
  (forall col, cell ws' row col = cell ws row col) ->
  search_columns upper config ws' row p cols
  = search_columns upper config ws row p cols.
Proof.
  intros Hcell. induction cols as [|col cols IH]; [reflexivity|].
  cbn [search_columns]. rewrite Hcell, IH. reflexivity.
Qed.

Lemma extract_row_data_ext (ws ws' : Worksheet) (row : nat) :
  (forall col, cell ws' row col = cell ws row col) ->
  _extract_row_data lower upper config ws' row
  = _extract_row_data lower upper config ws row.
Proof.
  intros Hcell. unfold _extract_row_data, extract_from_row, _search_pattern.
  rewrite !(search_columns_ext ws ws' row _ _ Hcell), !Hcell. reflexivity.
Qed.

Lemma extract_items_loop_ext (ws ws' : Worksheet) (rows : list nat) :
  (forall r col, In r rows -> cell ws' r col = cell ws r col) ->
  forall items_by_axis unidentified,
    extract_items_loop lower upper config ws' rows items_by_axis unidentified
    = extract_items_loop lower upper config ws rows items_by_axis
        unidentified.
Proof.
  induction rows as [|r rows IH]; intros Hcell iba un; [reflexivity|].
  cbn [extract_items_loop].
  rewrite (extract_row_data_ext ws ws' r)
    by (intros col; apply Hcell; left; reflexivity).
  assert (Hrest : forall x col, In x rows -> cell ws' x col = cell ws x col)
    by (intros x col Hx; apply Hcell; right; exact Hx).
  destruct (_extract_row_data lower upper config ws r) as [[d|]|e];
    cbn [bind]; [|apply IH; exact Hrest | reflexivity].
  destruct (axis d); apply IH; exact Hrest.
Qed.

(** X14. The extraction reads the cell that [G2_CELL] names and the
    cells of the rows of the configured range, from [ROW_START] to
    [ROW_END - 1], and nothing else: two sheets that agree on those cells
    give the same result (or the same error), whatever their other rows,
    their number of rows and their outline levels are. *)
Theorem extract_all_items_rows_read (ws ws' : Worksheet) :
  cell ws' (fst (G2_CELL (PNT config))) (snd (G2_CELL (PNT config)))
  = cell ws (fst (G2_CELL (PNT config))) (snd (G2_CELL (PNT config))) ->
  (forall r col,
     (ROW_START (PNT config) <= r < ROW_END (PNT config))%nat ->
     cell ws' r col = cell ws r col) ->
  extract_all_items lower upper config ws'
  = extract_all_items lower upper config ws.
Proof.
  intros Hg2 Hcell. unfold extract_all_items. rewrite Hg2.
  rewrite (extract_items_loop_ext ws ws'); [reflexivity|].
  intros r col Hr. apply Hcell. unfold row_range in Hr.
  apply List.in_seq in Hr. lia.
Qed.

(** X15. After the extraction every group is filed under a number of the
    configured axis range that is not negative, every record of a group
    has that number as its axis, comes from a row of the configured range
    of rows ([ROW_START] to [ROW_END - 1]) and has a non-empty key; every
    unidentified entry comes from such a row too; the third result is the
    cleaned value of the cell that [G2_CELL] names. *)
Theorem extract_all_items_groups (ws : Worksheet)
  (items_by_axis : odict Z (list ItemData))
  (unidentified : list Unidentified) (g2_value : str) :
  extract_all_items lower upper config ws
  = Ok (items_by_axis, unidentified, g2_value) ->
  (forall a items,
     In (a, items) items_by_axis ->
     in_axis_range config a /\ 0 <= a /\ items <> [] /\
     forall d, In d items ->
       axis d = Some a /\
       (ROW_START (PNT config) <= pnt_row d < ROW_END (PNT config))%nat /\
       normalized d <> [] /\
       _extract_row_data lower upper config ws (pnt_row d) = Ok (Some d)) /\
  (forall u, In u unidentified ->
     (ROW_START (PNT config) <= un_row u < ROW_END (PNT config))%nat /\
     extract_from_row upper config ws (un_row u) = None) /\
  g2_value
  = clean_g2_value
      (cell ws (fst (G2_CELL (PNT config))) (snd (G2_CELL (PNT config)))).
Proof.
  unfold extract_all_items.
  destruct (extract_items_loop lower upper config ws
              (row_range (ROW_START (PNT config)) (ROW_END (PNT config)))
              [] [])
    as [[iba un]|e] eqn:Eloop; cbn [bind]; [|discriminate].
  intros [= <- <- <-].
  apply extract_items_loop_spec in Eloop.
  destruct Eloop as (Hun & Hgr & Hwg). cbn [app] in Hun.
  specialize (Hwg well_grouped_nil). destruct Hwg as [_ Hwg].
  assert (Hrow : forall r,
    In r (row_range (ROW_START (PNT config)) (ROW_END (PNT config))) ->
    (ROW_START (PNT config) <= r < ROW_END (PNT config))%nat).
  { intros r Hr. unfold row_range in Hr. apply List.in_seq in Hr. lia. }
  split; [|split; [|reflexivity]].
  - intros a items Hin. destruct (Hwg a items Hin) as [Hne Hgroup].
    assert (Hitems : forall d, In d items ->
      axis d = Some a /\
      (ROW_START (PNT config) <= pnt_row d < ROW_END (PNT config))%nat /\
      normalized d <> [] /\
      _extract_row_data lower upper config ws (pnt_row d) = Ok (Some d)).
    { intros d Hd. rewrite <- Hgroup, Hgr in Hd. cbn [app] in Hd.
      apply List.in_flat_map in Hd. destruct Hd as (r & Hr & Hd).
      unfold group_at, row_data in Hd.
      destruct (_extract_row_data lower upper config ws r)
        as [[d'|]|] eqn:Ed; try destruct Hd.
      destruct (axis d') as [a'|] eqn:Ea; [|destruct Hd].
      destruct (Z.eqb_spec a' a) as [->|]; [|destruct Hd].
      destruct Hd as [<-|[]].
      pose proof (extract_row_data_fields ws r d' Ed) as Hf.
      cbv zeta in Hf. destruct Hf as (_ & Hp & _ & _ & _ & Hk & _).
      rewrite Hp. split; [exact Ea|]. split; [exact (Hrow r Hr)|].
      split; [exact Hk | exact Ed]. }
    destruct items as [|d items]; [contradiction|].
    destruct (Hitems d (or_introl eq_refl)) as (Ha & _ & _ & Hd).
    apply extract_row_data_fields in Hd. cbv zeta in Hd.
    destruct Hd as (_ & _ & _ & _ & _ & _ & Hax).
    rewrite Ha in Hax. symmetry in Hax.
    destruct (extract_from_row_Some upper config ws _ a Hax)
      as (Hr & Hpos & _).
    split; [exact Hr|]. split; [exact Hpos|].
    split; [discriminate | exact Hitems].
  - intros u Hu. rewrite Hun in Hu. apply List.in_flat_map in Hu.
    destruct Hu as (r & Hr & Hu). unfold unidentified_at, row_data in Hu.
    destruct (_extract_row_data lower upper config ws r)
      as [[d|]|] eqn:Ed; try destruct Hu.
    destruct (axis d) eqn:Ea; [destruct Hu|].
    destruct Hu as [<-|[]]. simpl. split; [exact (Hrow r Hr)|].
    apply extract_row_data_fields in Ed. cbv zeta in Ed.
    destruct Ed as (_ & _ & _ & _ & _ & _ & Hax). congruence.
Qed.

End Records.

(* ===================================================================== *)
(** ** The updater                                                        *)
(* ===================================================================== *)

Lemma seq_shift_map_from (t k : nat) :
  forall s, map (fun i => (t + i + 1)%nat) (seq s k) = seq (t + s + 1) k.
Proof.
  induction k as [|k IH]; intros s; [reflexivity|].
  cbn [seq map]. f_equal. rewrite IH. f_equal. lia.
Qed.

Lemma seq_shift_map (t k : nat) :
  map (fun i => (t + i + 1)%nat) (seq 0 k) = seq (t + 1) k.
Proof.
  rewrite seq_shift_map_from. f_equal. lia.
Qed.

Lemma flat_map_map {A B C} (f : A -> B) (g : B -> list C) (l : list A) :
  flat_map g (map f l) = flat_map (fun x => g (f x)) l.
Proof.
  induction l as [|x l IH]; [reflexivity|].
  cbn [map flat_map]. rewrite IH. reflexivity.
Qed.

Lemma flat_map_seq_shift {C} (f : nat -> list C) (t k : nat) :
  flat_map (fun i => f (t + i + 1)%nat) (seq 0 k) = flat_map f (seq (t + 1) k).
Proof.
  rewrite <- seq_shift_map, flat_map_map. reflexivity.
Qed.

Lemma py_slice_to_length {A} (n : Z) (l : list A) :
  length (py_slice_to n l)
  = if 0 <=? n then Nat.min (Z.to_nat n) (length l)
    else Z.to_nat (Z.of_nat (length l) + n).
Proof.
  unfold py_slice_to. destruct (0 <=? n) eqn:En.
  - rewrite length_take. reflexivity.
  - rewrite length_take. apply Z.leb_gt in En. lia.
Qed.

Section UpdaterProperties.

Variable config : PMSConfig.


Lemma new_item_loop_spec (t : nat) (a e g n : Field) (turns : list nat) :
  forall calls rows cnt,
    new_item_loop config t a e g n turns calls rows cnt
    = (calls ++ flat_map
                  (fun i => new_item_calls config t (t + i + 1)%nat a e g n)
                  turns,
       rows ++ map (fun i => (t + i + 1)%nat) turns,
       (cnt + length turns)%nat).
Proof.
  induction turns as [|i turns IH]; intros calls rows cnt.
  - cbn [new_item_loop flat_map map length].
    rewrite !app_nil_r, Nat.add_0_r. reflexivity.
  - cbn [new_item_loop]. rewrite IH.
    cbn [flat_map map length]. rewrite <- !app_assoc.
    cbn [app]. f_equal. lia.
Qed.

Lemma deficit_loop_spec (t : nat) (a e n : Field) (turns : list nat) :
  forall calls empty_rows rows cnt,
    deficit_loop config t a e n turns calls empty_rows rows cnt
    = (calls ++ flat_map
                  (fun i => RowInsert (t + i + 1)
                            :: _copy_row_with_values t (t + i + 1)
                            ++ existing_item_writes config (t + i + 1)%nat
                                 a e n)
                  turns,
       empty_rows ++ map (fun i => (t + i + 1)%nat) turns,
       rows ++ map (fun i => (t + i + 1)%nat) turns,
       (cnt + length turns)%nat).
Proof.
  induction turns as [|i turns IH]; intros calls empty_rows rows cnt.
  - cbn [deficit_loop flat_map map length].
    rewrite !app_nil_r, Nat.add_0_r. reflexivity.
  - cbn [deficit_loop]. rewrite IH.
    cbn [flat_map map length]. rewrite <- !app_assoc.
    cbn [app]. f_equal. lia.
Qed.

Lemma split_rows_spec (ws_check : Worksheet) (rows : list nat) :
  (1 <= DATE_COL (PMS config))%nat ->
  Forall (fun row => (1 <= row)%nat) rows ->
  forall filled_rows empty_rows,
    split_rows config ws_check rows filled_rows empty_rows
    = Ok (filled_rows ++ filled_rows_of config ws_check rows,
          empty_rows ++ empty_rows_of config ws_check rows).
Proof.
  intros Hcol Hrows. induction Hrows as [|row rows Hrow _ IH];
    intros filled_rows empty_rows.
  - cbn. rewrite !app_nil_r. reflexivity.
  - cbn [split_rows].
    replace (row <? 1)%nat with false by (symmetry; apply Nat.ltb_ge; lia).
    replace (DATE_COL (PMS config) <? 1)%nat with false
      by (symmetry; apply Nat.ltb_ge; lia).
    cbn [orb]. unfold filled_rows_of, empty_rows_of in *.
    cbn [List.filter].
    destruct (date_cell_empty config ws_check row); cbn [negb];
      rewrite IH, <- ?app_assoc; reflexivity.
Qed.

Lemma take_app_seq_length (n : Z) (empties : list nat) (s : nat) :
  0 <= n ->
  length (py_slice_to n
            (empties ++ seq s (Z.to_nat (n - Z.of_nat (length empties)))))
  = Z.to_nat n.
Proof.
  intros Hn. rewrite py_slice_to_length.
  replace (0 <=? n) with true by (symmetry; apply Z.leb_le; exact Hn).
  rewrite length_app, length_seq. lia.
Qed.

(** X16. The handler of a new item, on an update that holds a list of
    rows and an integer quantity [n]: with an empty list it raises
    IndexError, whatever the quantity; otherwise the template is the last
    row [t] of the list, the rows inserted are [t+1, ..., t+n] in this
    order (none when [n <= 0]), each is inserted, copied from the
    template with its outline level, and written in the four columns;
    the count returned is the number of rows inserted, and the list of
    the update ends with the new rows. *)
Theorem process_new_item_rows (update : gmap string Field)
  (rows : list nat) (n : Z) (item_text a e g nv : Field) :
  update !! "existing_rows"%string = Some (FRows rows) ->
  update !! "needed_quantity"%string = Some (FVal (VInt n)) ->
  update !! "item_text"%string = Some item_text ->
  update !! "a_value"%string = Some a ->
  update !! "e_value"%string = Some e ->
  update !! "g_value"%string = Some g ->
  update !! "n_value"%string = Some nv ->
  _process_new_item config update
  = match last rows with
    | None => Raise IndexError
    | Some t =>
        let new_rows := seq (t + 1) (Z.to_nat n) in
        Ok (flat_map (fun r => new_item_calls config t r a e g nv) new_rows,
            Z.to_nat n,
            <["existing_rows"%string := FRows (rows ++ new_rows)]> update)
    end.
Proof.
  intros Hrows Hn Ht Ha He Hg Hnv.
  unfold _process_new_item, getitem.
  rewrite Ht, Hrows, Hn, Ha, He, Hg, Hnv. cbn [bind].
  unfold py_last. destruct (last rows) as [t|]; [|reflexivity].
  cbn [bind field_int]. rewrite new_item_loop_spec.
  cbn [app]. rewrite length_seq, seq_shift_map.
  rewrite (flat_map_seq_shift (fun r => new_item_calls config t r a e g nv)).
  reflexivity.
Qed.

(** X17. The handler of an existing item, on an update that holds a list
    of rows (all at least 1, as is the date column) and an integer
    quantity [n].  The rows are split by their date cell in the sheet read
    beforehand; the filled ones are only counted.  With [d] the number of
    rows missing, [n] less the empty rows, the rows [t+1, ..., t+d] after
    the last row [t] of the list are inserted, copied from [t] and written
    in three columns; then the first [n] of the empty rows followed by the
    new rows are written (for a negative [n], all but the last [-n]).  So
    for [0 <= n] exactly [n] rows are written by the last loop.  With an
    empty list the handler raises IndexError when [0 < n] and does nothing
    otherwise. *)
Theorem process_existing_item_rows (ws_check : Worksheet)
  (update : gmap string Field) (rows : list nat) (n : Z)
  (item_text a e nv : Field) :
  update !! "existing_rows"%string = Some (FRows rows) ->
  update !! "needed_quantity"%string = Some (FVal (VInt n)) ->
  update !! "item_text"%string = Some item_text ->
  update !! "a_value"%string = Some a ->
  update !! "e_value"%string = Some e ->
  update !! "n_value"%string = Some nv ->
  (1 <= DATE_COL (PMS config))%nat ->
  Forall (fun row => (1 <= row)%nat) rows ->
  let empties := empty_rows_of config ws_check rows in
  let d := Z.to_nat (n - Z.of_nat (length empties)) in
  match last rows with
  | None =>
      _process_existing_item config ws_check update
      = if 0 <? n then Raise IndexError
        else Ok ([], {| inserted := 0; updated := 0; skipped := 0 |},
                 <["existing_rows"%string := FRows []]> update)
  | Some t =>
      let new_rows := seq (t + 1) d in
      let targets := py_slice_to n (empties ++ new_rows) in
      _process_existing_item config ws_check update
      = Ok (flat_map
              (fun r => RowInsert r :: _copy_row_with_values t r
                        ++ existing_item_writes config r a e nv) new_rows
            ++ flat_map (fun r => existing_item_writes config r a e nv)
                 targets,
            {| inserted := d;
               updated := length targets;
               skipped := length (filled_rows_of config ws_check rows) |},
            <["existing_rows"%string := FRows (rows ++ new_rows)]> update)
      /\ (0 <= n -> length targets = Z.to_nat n)
      /\ (n < 0 ->
          length targets = Z.to_nat (Z.of_nat (length empties) + n))
  end.
Proof.
  intros Hrows Hn Ht Ha He Hnv Hcol Hpos empties d.
  unfold _process_existing_item, getitem.
  rewrite Ht, Hrows, Hn, Ha, He, Hnv. cbn [bind].
  rewrite (split_rows_spec ws_check rows Hcol Hpos). cbn [bind fst snd app].
  cbn [field_int bind]. fold empties.
  destruct (last rows) as [t|] eqn:El.
  - cbn zeta. split; [|split].
    + unfold py_last. rewrite El.
      destruct (0 <? Z.max 0 (n - Z.of_nat (length empties))) eqn:Ed.
      * cbn [bind]. rewrite deficit_loop_spec. cbn [app].
        rewrite length_seq, seq_shift_map.
        replace (Z.to_nat (Z.max 0 (n - Z.of_nat (length empties))))
          with d by (unfold d; lia).
        rewrite (flat_map_seq_shift
                   (fun r => RowInsert r :: _copy_row_with_values t r
                             ++ existing_item_writes config r a e nv)).
        reflexivity.
      * cbn [bind]. apply Z.ltb_ge in Ed.
        assert (Hd : d = 0%nat) by (unfold d; lia).
        rewrite Hd. cbn [seq flat_map app]. rewrite !app_nil_r.
        reflexivity.
    + intros H0. apply take_app_seq_length. exact H0.
    + intros Hneg. rewrite py_slice_to_length.
      replace (0 <=? n) with false by (symmetry; apply Z.leb_gt; exact Hneg).
      rewrite length_app, length_seq.
      assert (Hd : d = 0%nat) by (unfold d; lia).
      rewrite Hd. f_equal. lia.
  - assert (Hnil : rows = []).
    { destruct rows as [|r rows'] using rev_ind; [reflexivity|].
      rewrite last_snoc in El. discriminate. }
    subst rows. cbn in empties. subst empties. cbn [length].
    change (Z.of_nat 0) with 0. rewrite Z.sub_0_r.
    destruct (0 <? n) eqn:En.
    + apply Z.ltb_lt in En.
      replace (0 <? Z.max 0 n) with true by (symmetry; apply Z.ltb_lt; lia).
      reflexivity.
    + apply Z.ltb_ge in En.
      replace (0 <? Z.max 0 n) with false by (symmetry; apply Z.ltb_ge; lia).
      cbn [bind]. unfold py_slice_to.
      destruct (0 <=? n); cbn [length]; rewrite take_nil; reflexivity.
Qed.

End UpdaterProperties.

(* ===================================================================== *)
(** ** From the plan to the updater                                       *)
(* ===================================================================== *)

Section PlanToUpdater.

Variable config : PMSConfig.
Variable ws : Worksheet.

Lemma match_item_ready (mohor_name : str) (mohor_num : Z)
  (pnt_data : ItemData) (item_locations : gmap str (list Location))
  (g2_value : PyVal) :
  exists res,
    _match_item config ws mohor_name mohor_num pnt_data item_locations
      g2_value = Ok res /\
    match res with
    | Existing update _ => update_ready item_locations update
    | New update => update_ready item_locations update
    | Not_found error => nf_reason error = reason_not_found
    end.
Proof.
  assert (Hnew : exists res,
    _create_new_update config ws mohor_name mohor_num pnt_data g2_value
    = Ok res /\
    match res with
    | Existing update _ => update_ready item_locations update
    | New update => update_ready item_locations update
    | Not_found error => nf_reason error = reason_not_found
    end).
  { destruct (create_new_update_outcome config ws mohor_name mohor_num
                pnt_data g2_value) as (res & Hres & Hout).
    exists res. split; [exact Hres|].
    destruct (find_last_level5_in_section config ws mohor_num)
      as [[row|]|err]; [| subst res; reflexivity ..].
    destruct Hout as (u & -> & Hcommon & Htext & Hrows & Hflag & Hg).
    destruct Hcommon as (_ & Hq & Ha & He & Hn).
    exists [row], (quantity pnt_data).
    split; [exact Hrows|]. split; [exact Hq|]. split; [discriminate|].
    split; [rewrite Htext; eexists; reflexivity|].
    split; [rewrite Ha; eexists; reflexivity|].
    split; [rewrite He; eexists; reflexivity|].
    split; [rewrite Hn; eexists; reflexivity|].
    unfold is_new_item_flag. rewrite Hflag. cbn [truthy].
    rewrite Hg. eexists. reflexivity. }
  unfold _match_item.
  destruct (item_locations !! normalized pnt_data) as [locs|] eqn:Elocs;
    [|exact Hnew].
  destruct (mohor_locations_of mohor_name locs) as [|loc mlocs] eqn:Em;
    [exact Hnew|].
  eexists. split; [reflexivity|].
  destruct (create_existing_update_fields mohor_name pnt_data (loc :: mlocs)
              g2_value)
    as (u & w & -> & Hcommon & Htext & Hrows & Hflag & Hg).
  destruct Hcommon as (_ & Hq & Ha & He & Hn).
  exists (map loc_row (loc :: mlocs)), (quantity pnt_data).
  split; [exact Hrows|]. split; [exact Hq|]. split; [discriminate|].
  split; [rewrite Htext; eexists; reflexivity|].
  split; [rewrite Ha; eexists; reflexivity|].
  split; [rewrite He; eexists; reflexivity|].
  split; [rewrite Hn; eexists; reflexivity|].
  unfold is_new_item_flag. rewrite Hflag. cbn [truthy].
  apply Forall_forall. intros row Hrow.
  apply list_elem_of_In, List.in_map_iff in Hrow.
  destruct Hrow as (l & <- & Hl).
  exists (normalized pnt_data), locs, l.
  split; [exact Elocs|]. split; [|reflexivity].
  rewrite <- Em in Hl. unfold mohor_locations_of in Hl.
  apply List.filter_In in Hl. exact (proj1 Hl).
Qed.

Lemma plan_items_ready (mohor_name : str) (mohor_num : Z)
  (item_locations : gmap str (list Location)) (g2_value : PyVal)
  (items : list ItemData) :
  forall plan,
    exists plan',
      plan_items config ws mohor_name mohor_num items item_locations
        g2_value plan = Ok plan' /\
      (Forall (update_ready item_locations) (updates plan) ->
       Forall (update_ready item_locations) (updates plan')) /\
      (Forall (fun error => nf_reason error = reason_not_found)
         (not_found plan) ->
       Forall (fun error => nf_reason error = reason_not_found)
         (not_found plan')) /\
      (length (updates plan') + length (not_found plan')
       = length (updates plan) + length (not_found plan) + length items)%nat
      /\
      (length (warnings plan') + length (updates plan)
       <= length (warnings plan) + length (updates plan'))%nat.
Proof.
  induction items as [|pnt_data items IH]; intros plan.
  - exists plan. split; [reflexivity|]. cbn [length].
    split; [tauto|]. split; [tauto|]. lia.
  - cbn [plan_items].
    destruct (match_item_ready mohor_name mohor_num pnt_data
                item_locations g2_value) as (res & -> & Hres).
    cbn [bind].
    match goal with
    | |- exists plan', plan_items _ _ _ _ _ _ _ ?p = _ /\ _ =>
        destruct (IH p) as (plan' & Hplan' & Hready & Hreason & Hcount & Hw)
    end.
    exists plan'. split; [exact Hplan'|].
    destruct res as [u w|u|err]; cbn [updates not_found warnings] in *.
    + split.
      { intros H. apply Hready, Forall_app. split; [exact H|].
        constructor; [exact Hres | constructor]. }
      split; [exact Hreason|].
      rewrite length_app in Hcount, Hw. cbn [length] in *.
      split; [lia|]. destruct w; [rewrite length_app in Hw|];
        cbn [length] in *; lia.
    + split.
      { intros H. apply Hready, Forall_app. split; [exact H|].
        constructor; [exact Hres | constructor]. }
      split; [exact Hreason|].
      rewrite length_app in Hcount, Hw. cbn [length] in *. lia.
    + split; [exact Hready|]. split.
      { intros H. apply Hreason, Forall_app. split; [exact H|].
        constructor; [exact Hres | constructor]. }
      rewrite length_app in Hcount. cbn [length] in *. lia.
Qed.

Lemma plan_axes_ready (item_locations : gmap str (list Location))
  (g2_value : PyVal) (groups : odict Z (list ItemData)) :
  forall plan,
    exists plan',
      plan_axes config ws groups item_locations g2_value plan = Ok plan' /\
      (Forall (update_ready item_locations) (updates plan) ->
       Forall (update_ready item_locations) (updates plan')) /\
      (Forall (fun error => nf_reason error = reason_not_found)
         (not_found plan) ->
       Forall (fun error => nf_reason error = reason_not_found)
         (not_found plan')) /\
      (length (updates plan') + length (not_found plan')
       = length (updates plan) + length (not_found plan)
         + length (od_values groups))%nat /\
      (length (warnings plan') + length (updates plan)
       <= length (warnings plan) + length (updates plan'))%nat.
Proof.
  induction groups as [|[mohor_num items] groups IH]; intros plan.
  - exists plan. split; [reflexivity|]. cbn [od_values map concat length].
    split; [tauto|]. split; [tauto|]. lia.
  - cbn [plan_axes].
    destruct (plan_items_ready (mohor_name_of mohor_num) mohor_num
                item_locations g2_value items plan)
      as (plan1 & -> & Hready1 & Hreason1 & Hcount1 & Hw1).
    cbn [bind].
    destruct (IH plan1) as (plan' & Hplan' & Hready & Hreason & Hcount & Hw).
    exists plan'. split; [exact Hplan'|].
    split; [tauto|]. split; [tauto|].
    unfold od_values in *. cbn [map concat snd].
    rewrite length_app. lia.
Qed.


Lemma process_new_item_ready (item_locations : gmap str (list Location))
  (update : gmap string Field) :
  update_ready item_locations update ->
  is_new_item_flag update = true ->
  exists calls inserted_count update',
    _process_new_item config update = Ok (calls, inserted_count, update') /\
    rows_extended update update'.
Proof.
  intros (rows & q & Hrows & Hq & Hne & [t Ht] & [a Ha] & [e He] & [n Hn]
          & Hflag) Hnew.
  rewrite Hnew in Hflag. destruct Hflag as [g Hg].
  unfold _process_new_item, getitem.
  rewrite Ht, Hrows, Hq, Ha, He, Hg, Hn. cbn [bind].
  unfold py_last. destruct (last rows) as [r|] eqn:El.
  - cbn [bind field_int]. rewrite new_item_loop_spec.
    do 3 eexists. split; [reflexivity|].
    exists rows. eexists. split; [exact Hrows | reflexivity].
  - destruct rows as [|r rows'] using rev_ind; [congruence|].
    rewrite last_snoc in El. discriminate.
Qed.

Lemma process_existing_item_ready
  (item_locations : gmap str (list Location)) (ws_check : Worksheet)
  (update : gmap string Field) :
  (1 <= DATE_COL (PMS config))%nat ->
  (forall row, indexed_row item_locations row -> (1 <= row)%nat) ->
  update_ready item_locations update ->
  is_new_item_flag update = false ->
  exists calls stats update',
    _process_existing_item config ws_check update
    = Ok (calls, stats, update') /\
    rows_extended update update'.
Proof.
  intros Hcol Hidx
    (rows & q & Hrows & Hq & Hne & [t Ht] & [a Ha] & [e He] & [n Hn]
     & Hflag) Hold.
  rewrite Hold in Hflag.
  assert (Hpos : Forall (fun row => (1 <= row)%nat) rows).
  { eapply Forall_impl; [exact Hflag|]. exact Hidx. }
  unfold _process_existing_item, getitem.
  rewrite Ht, Hrows, Hq, Ha, He, Hn. cbn [bind].
  rewrite (split_rows_spec config ws_check rows Hcol Hpos).
  cbn [bind fst snd app field_int].
  destruct (0 <? _).
  - unfold py_last. destruct (last rows) as [r|] eqn:El.
    + cbn [bind]. rewrite deficit_loop_spec.
      do 3 eexists. split; [reflexivity|].
      exists rows. eexists. split; [exact Hrows | reflexivity].
    + destruct rows as [|r rows'] using rev_ind; [congruence|].
      rewrite last_snoc in El. discriminate.
  - cbn [bind]. do 3 eexists. split; [reflexivity|].
    exists rows, []. split; [exact Hrows|]. rewrite app_nil_r. reflexivity.
Qed.

Lemma process_updates_loop_ready
  (item_locations : gmap str (list Location)) (ws_check : Worksheet)
  (planned : list (gmap string Field)) :
  (1 <= DATE_COL (PMS config))%nat ->
  (forall row, indexed_row item_locations row -> (1 <= row)%nat) ->
  Forall (update_ready item_locations) planned ->
  forall calls stats done,
    exists calls' stats' processed,
      process_updates_loop config ws_check planned calls stats done
      = Ok (calls', stats', done ++ processed) /\
      Forall2 rows_extended planned processed.
Proof.
  intros Hcol Hidx Hall.
  induction Hall as [|u planned Hu _ IH]; intros calls stats done.
  - exists calls, stats, []. rewrite app_nil_r.
    split; [reflexivity | constructor].
  - cbn [process_updates_loop].
    destruct (is_new_item_flag u) eqn:Eflag.
    + destruct (process_new_item_ready item_locations u Hu Eflag)
        as (c & k & u' & -> & Hext).
      cbn [bind fst snd].
      match goal with
      | |- exists _ _ _, process_updates_loop _ _ _ ?c' ?s' ?d' = _ /\ _ =>
          destruct (IH c' s' d') as (calls' & stats' & processed & -> & Hrest)
      end.
      exists calls', stats', (u' :: processed).
      rewrite <- app_assoc. split; [reflexivity|].
      constructor; [exact Hext | exact Hrest].
    + destruct (process_existing_item_ready item_locations ws_check u
                  Hcol Hidx Hu Eflag) as (c & st & u' & -> & Hext).
      cbn [bind fst snd].
      match goal with
      | |- exists _ _ _, process_updates_loop _ _ _ ?c' ?s' ?d' = _ /\ _ =>
          destruct (IH c' s' d') as (calls' & stats' & processed & -> & Hrest)
      end.
      exists calls', stats', (u' :: processed).
      rewrite <- app_assoc. split; [reflexivity|].
      constructor; [exact Hext | exact Hrest].
Qed.

End PlanToUpdater.

Lemma bind_Ok {A B} (m : result A) (k : A -> result B) (b : B) :
  bind m k = Ok b -> exists a, m = Ok a /\ k a = Ok b.
Proof.
  destruct m as [a|err]; [|discriminate].
  intros H. exists a. split; [reflexivity | exact H].
Qed.

Section Pipeline.

Variables lower upper : str -> str.
Variable config : PMSConfig.

(** X19. Steps 1 to 4 of the run compose: when the planning steps
    complete on a target sheet and a source sheet, and the date column is
    at least 1, the updater's loop over the planned updates completes
    too, whatever the sheet it checks the date cells in: no field is
    missing, no list of rows is empty, no row number is refused.  Each
    update comes out as planned but for the rows added at the end of its
    list. *)
Theorem run_then_process_updates (pms_ws pnt_ws ws_check : Worksheet)
  (planned : Plan) (unidentified : list Unidentified) :
  (1 <= DATE_COL (PMS config))%nat ->
  run_planning lower upper config pms_ws pnt_ws
  = Ok (planned, unidentified) ->
  exists calls stats processed,
    _process_updates config ws_check (updates planned)
    = Ok (calls, stats, processed) /\
    Forall2 rows_extended (updates planned) processed.
Proof.
  intros Hcol Hrun. unfold run_planning in Hrun.
  apply bind_Ok in Hrun. destruct Hrun as (idx' & Hidx' & Hrun).
  apply bind_Ok in Hrun. destruct Hrun as (extracted & _ & Hrun).
  apply bind_Ok in Hrun. destruct Hrun as (plan' & Hplan' & Hrun).
  injection Hrun as <- _.
  destruct (structure_index_at lower config pms_ws)
    as (idx & Hidx & _ & Hat).
  rewrite Hidx in Hidx'. injection Hidx' as <-.
  unfold plan_updates in Hplan'.
  destruct (plan_axes_ready config pms_ws idx (VStr (snd extracted))
              (fst (fst extracted))
              {| updates := []; not_found := []; warnings := [] |})
    as (plan & Hplan & Hready & _).
  rewrite Hplan in Hplan'. injection Hplan' as <-.
  specialize (Hready (Forall_nil_2 _)).
  assert (Hrows : forall row, indexed_row idx row -> (1 <= row)%nat).
  { intros row (k & locs & loc & Hk & Hloc & <-).
    assert (Hin : In loc (locations_at idx k))
      by (unfold locations_at; rewrite Hk; exact Hloc).
    rewrite Hat in Hin. apply List.in_flat_map in Hin.
    destruct Hin as (n & _ & Hin).
    unfold axis_locations in Hin. apply List.in_map_iff in Hin.
    destruct Hin as (item & <- & Hitem). apply List.filter_In in Hitem.
    destruct (axis_items_facts config pms_ws n item (proj1 Hitem))
      as [Hrow _].
    cbn [location_of loc_row]. lia. }
  unfold _process_updates.
  destruct (process_updates_loop_ready config idx ws_check (updates plan)
              Hcol Hrows Hready []
              {| inserted := 0; updated := 0; skipped := 0 |} [])
    as (calls & stats & processed & Hloop & Hext).
  exists calls, stats, processed. split; [exact Hloop | exact Hext].
Qed.

End Pipeline.

(* ===================================================================== *)
(** ** New items on sheets without empty text cells                       *)
(* ===================================================================== *)

Section NewItems.

Variable config : PMSConfig.
Variable ws : Worksheet.

(** When every row of the sheet holds text, the row that
    [find_last_level5_in_section] returns is the row of the last leaf
    that [find_items] lists for the axis. *)
Lemma find_last_level5_last_leaf (mohor_num : Z) :
  (forall r, (1 <= r <= max_row ws)%nat -> text_cell config ws r <> VNone) ->
  find_last_level5_in_section config ws mohor_num
  = Ok (last_row (axis_items config ws mohor_num)).
Proof.
  intros Hfull.
  unfold find_last_level5_in_section, axis_items, find_items,
    get_search_path.
  rewrite find_parent_section_resolves.
  destruct (first_match_anchor config ws _ _ _) as [r0|]; cbn [bind];
    [|reflexivity].
  f_equal. unfold _extract_target_items.
  rewrite <- last_level5_loop_agrees; [reflexivity|].
  intros r Hr. unfold row_range in Hr. apply List.in_seq in Hr.
  apply Hfull. lia.
Qed.

(** X20. On a target sheet whose rows all hold text, an item without a
    candidate in the index is placed as the claim on the planner words
    it: when the section of its axis has leaves, the outcome is New,
    anchored at the row of the last leaf that [find_items] lists, with
    the common fields and [g_value] set from the auxiliary value; when
    the section has no leaf, or is not found, the item is reported as
    not found. *)
Theorem match_item_without_blank_rows (mohor_num : Z) (pnt_data : ItemData)
  (item_locations : gmap str (list Location)) (g2_value : PyVal) :
  (forall r, (1 <= r <= max_row ws)%nat -> text_cell config ws r <> VNone) ->
  candidates (mohor_name_of mohor_num) pnt_data item_locations = [] ->
  exists res,
    _match_item config ws (mohor_name_of mohor_num) mohor_num pnt_data
      item_locations g2_value = Ok res /\
    match last (axis_items config ws mohor_num) with
    | Some leaf =>
        exists update,
          res = New update /\
          common_fields (mohor_name_of mohor_num) pnt_data g2_value update /\
          update !! "existing_rows"%string = Some (FRows [fi_row leaf]) /\
          update !! "g_value"%string = Some (FVal (m_value pnt_data))
    | None =>
        res = Not_found {| nf_item := single_line pnt_data;
                           nf_mohor := mohor_name_of mohor_num;
                           nf_reason := reason_not_found |}
    end.
Proof.
  intros Hfull Hnone.
  assert (Hmatch :
    _match_item config ws (mohor_name_of mohor_num) mohor_num pnt_data
      item_locations g2_value
    = _create_new_update config ws (mohor_name_of mohor_num) mohor_num
        pnt_data g2_value).
  { unfold candidates in Hnone. unfold _match_item.
    destruct (item_locations !! normalized pnt_data) as [locs|];
      [|reflexivity].
    cbn [default from_option id] in Hnone. rewrite Hnone. reflexivity. }
  rewrite Hmatch.
  destruct (create_new_update_outcome config ws (mohor_name_of mohor_num)
              mohor_num pnt_data g2_value) as (res & Hres & Hcase).
  exists res. split; [exact Hres|].
  rewrite (find_last_level5_last_leaf mohor_num Hfull) in Hcase.
  unfold last_row in Hcase.
  destruct (last (axis_items config ws mohor_num)) as [leaf|];
    cbn [option_map] in Hcase; [|exact Hcase].
  destruct Hcase as (u & Hu & Hc & _ & Hrows & _ & Hg).
  exists u. split; [exact Hu|]. split; [exact Hc|].
  split; [exact Hrows | exact Hg].
Qed.

End NewItems.

(* ===================================================================== *)
(** ** The further theorems at work on the example data                   *)
(* ===================================================================== *)


(** Row 7 of [s_then_axis] gives axis 20, a number of the default range
    whose token stands in a search column. *)
Lemma extract_from_row_result_witness :
  extract_from_row ascii_upper default_config s_then_axis 7 = Some 20 /\
  in_axis_range default_config 20 /\
  exists col, In col [3; 4; 5]%nat /\
              has_token ascii_upper s_then_axis 7 (lit "S") col 20.
Proof.
  assert (H : extract_from_row ascii_upper default_config s_then_axis 7
              = Some 20) by (vm_compute; reflexivity).
  split; [exact H|].
  destruct (extract_from_row_result ascii_upper default_config s_then_axis
              7 20 H) as (Hrange & _ & Htoken).
  split; [exact Hrange | exact Htoken].
Defined.

(** Row 8 of [axis_out_of_range] is kept; the key of its record is the
    key of its item cell and is not empty. *)
Lemma extract_row_data_key_witness :
  exists d,
    _extract_row_data ascii_lower ascii_upper default_config
      axis_out_of_range 8 = Ok (Some d) /\
    normalized d
    = normalize_standard ascii_lower (cell axis_out_of_range 8 3) /\
    normalized d <> [].
Proof.
  destruct (_extract_row_data ascii_lower ascii_upper default_config
              axis_out_of_range 8) as [[d|]|err] eqn:E;
    [| vm_compute in E; discriminate ..].
  exists d. split; [reflexivity|].
  destruct (extract_row_data_key ascii_lower ascii_upper default_config
              axis_out_of_range 8 d E) as (Hkey & _ & Hne & _).
  split; [exact Hkey | exact Hne].
Defined.

(** The framed sheet agrees with [axis_out_of_range] on the cell G2 and
    on rows 7 to 30, and gives the same extraction. *)
Lemma extract_all_items_rows_read_witness :
  extract_all_items ascii_lower ascii_upper default_config
    axis_out_of_range_framed
  = extract_all_items ascii_lower ascii_upper default_config
      axis_out_of_range.
Proof.
  apply (extract_all_items_rows_read ascii_lower ascii_upper default_config
           axis_out_of_range axis_out_of_range_framed).
  - reflexivity.
  - intros r col Hr. simpl in Hr. cbn [cell axis_out_of_range_framed].
    destruct (Nat.ltb_spec r 7); [lia|].
    destruct (Nat.leb_spec 31 r); [lia|]. reflexivity.
Defined.

(** The extraction of [axis_out_of_range] completes, and its groups are
    filed under numbers of the default range. *)
Lemma extract_all_items_groups_witness :
  exists items_by_axis unidentified g2_value,
    extract_all_items ascii_lower ascii_upper default_config
      axis_out_of_range = Ok (items_by_axis, unidentified, g2_value) /\
    (forall a items, In (a, items) items_by_axis ->
       in_axis_range default_config a) /\
    g2_value = clean_g2_value (cell axis_out_of_range 2 7).
Proof.
  destruct (extract_all_items ascii_lower ascii_upper default_config
              axis_out_of_range) as [[[iba un] g2]|err] eqn:E;
    [|vm_compute in E; discriminate].
  exists iba, un, g2. split; [reflexivity|].
  destruct (extract_all_items_groups ascii_lower ascii_upper default_config
              axis_out_of_range iba un g2 E) as (Hgroups & _ & Hg2).
  split; [|exact Hg2].
  intros a items Hin. exact (proj1 (Hgroups a items Hin)).
Defined.

(** The new update with template row 41 and quantity 2: rows 42 and 43
    are inserted, 7 calls each. *)
Lemma process_new_item_rows_witness :
  exists calls update',
    _process_new_item default_config new_update_41
    = Ok (calls, 2%nat, update') /\
    length calls = 14%nat /\
    update' !! "existing_rows"%string
    = Some (FRows [41; 42; 43]%nat).
Proof.
  pose proof (process_new_item_rows default_config new_update_41
                [41%nat] 2
                (FVal (VStr (new_mark ++ lit "Tie Coat")))
                (FVal (VStr (lit "Tie Coat")))
                (FVal (VStr (lit "G2"))) (FVal (VInt 8)) (FVal (VInt 8))
                eq_refl eq_refl eq_refl eq_refl eq_refl eq_refl eq_refl)
    as H.
  cbv zeta in H. cbn [last] in H.
  do 2 eexists. split; [exact H|]. split; reflexivity.
Defined.

(** The existing update at rows 40 and 41 with quantity 3, checked
    against a sheet whose row 40 is dated: row 40 is skipped, rows 42 and
    43 are inserted, rows 41, 42 and 43 are written. *)
Lemma process_existing_item_rows_witness :
  exists calls update',
    _process_existing_item default_config scenario_check
      existing_update_40_41
    = Ok (calls, {| inserted := 2; updated := 3; skipped := 1 |}, update') /\
    update' !! "existing_rows"%string
    = Some (FRows [40; 41; 42; 43]%nat).
Proof.
  assert (Hcol : (1 <= DATE_COL (PMS default_config))%nat)
    by (simpl; lia).
  assert (Hrows : Forall (fun row => (1 <= row)%nat) [40; 41]%nat)
    by (repeat constructor; lia).
  pose proof (process_existing_item_rows default_config scenario_check
                existing_update_40_41 [40; 41]%nat 3
                (FVal (VStr (lit "Primer Coat")))
                (FVal (VStr (lit "Primer Coat")))
                (FVal (VStr (lit "G2"))) (FVal (VInt 12))
                eq_refl eq_refl eq_refl eq_refl eq_refl eq_refl
                Hcol Hrows) as H.
  cbv zeta in H. cbn [last] in H. destruct H as [H _].
  do 2 eexists. split; [exact H|]. reflexivity.
Defined.

(** The scenario, planned and then processed against the dated sheet. *)
Lemma run_then_process_updates_witness :
  exists planned unidentified calls stats processed,
    run_planning ascii_lower ascii_upper default_config
      scenario_target scenario_source
    = Ok (planned, unidentified) /\
    _process_updates default_config scenario_check (updates planned)
    = Ok (calls, stats, processed) /\
    Forall2 rows_extended (updates planned) processed.
Proof.
  destruct (run_planning ascii_lower ascii_upper default_config
              scenario_target scenario_source)
    as [[planned un]|err] eqn:E; [|vm_compute in E; discriminate].
  assert (Hcol : (1 <= DATE_COL (PMS default_config))%nat)
    by (simpl; lia).
  destruct (run_then_process_updates ascii_lower ascii_upper default_config
              scenario_target scenario_source scenario_check
              planned un Hcol E)
    as (calls & stats & processed & Hrun & Hext).
  exists planned, un, calls, stats, processed.
  split; [reflexivity|]. split; [exact Hrun | exact Hext].
Defined.

(** On [two_sections], whose eight rows all hold text, the item "Finish
    Coat" has no candidate in the empty index and is placed as New at
    row 4, the last leaf of the first section of axis 19. *)
Lemma match_item_without_blank_rows_witness :
  exists update,
    _match_item default_config two_sections (mohor_name_of 19) 19
      finish_coat ∅ (VStr []) = Ok (New update) /\
    update !! "existing_rows"%string = Some (FRows [4%nat]).
Proof.
  destruct (match_item_without_blank_rows default_config two_sections 19
              finish_coat ∅ (VStr [])) as (res & Hres & Hcase).
  - intros r Hr. change (max_row two_sections) with 8%nat in Hr.
    assert (Hcases : (r = 1 \/ r = 2 \/ r = 3 \/ r = 4 \/ r = 5 \/ r = 6
                      \/ r = 7 \/ r = 8)%nat) by lia.
    destruct Hcases as [->|[->|[->|[->|[->|[->|[->| ->]]]]]]];
      vm_compute; discriminate.
  - reflexivity.
  - assert (Hlast : last (axis_items default_config two_sections 19)
                    = Some {| fi_row := 4; fi_level := 5;
                              fi_text := lit "Primer Coat" |})
      by (vm_compute; reflexivity).
    rewrite Hlast in Hcase. destruct Hcase as (u & -> & _ & Hrows & _).
    exists u. split; [exact Hres | exact Hrows].
Defined.
